(** * sync_garmin: a shallow embedding of scripts/sync_garmin.py

    The script pulls one day of health metrics from a remote service through a
    client object, renders each metric category as a markdown fragment and
    writes one file per day.  This development embeds the Python code as Rocq
    functions over

    - JSON values as the client library returns them ([json]),
    - an error monad for Python exceptions ([result]),
    - IEEE binary64 numbers through the Standard Library's [spec_float],
    - traces of events for the effects (logins, sleeps, printed lines,
      directories and files).

    Strings are UTF-8 byte strings. *)

From Stdlib Require Import ZArith List String Ascii Bool Lia.
From Stdlib Require Import DecimalString Sorting.Sorted Sorting.Permutation.
From Stdlib Require Import Floats.SpecFloat.
Import ListNotations.

#[local] Set Warnings "-register-all".

Open Scope string_scope.
Open Scope list_scope.
Open Scope Z_scope.

Notation "a +++ b" := (String.append a b) (at level 60, right associativity).

(** ** Exceptions and the error monad *)

(** The exception classes the script can meet.  Only subclasses of Python's
    [Exception] are modelled: every [except Exception] handler of the script
    catches each of them. *)
Inductive exn_kind : Type :=
| AttributeError
| TypeError
| ValueError
| OverflowError
| ZeroDivisionError
| IndexError
| KeyError
| FileNotFoundError
| OtherError.

(** An exception: its class and [str(e)]. *)
Record exn : Type := Exn { exn_class : exn_kind; exn_msg : string }.

Definition exn_kind_eqb (a b : exn_kind) : bool :=
  match a, b with
  | AttributeError, AttributeError
  | TypeError, TypeError
  | ValueError, ValueError
  | OverflowError, OverflowError
  | ZeroDivisionError, ZeroDivisionError
  | IndexError, IndexError
  | KeyError, KeyError
  | FileNotFoundError, FileNotFoundError
  | OtherError, OtherError => true
  | _, _ => false
  end.

Inductive result (A : Type) : Type :=
| Ok (a : A)
| Raise (e : exn).

Arguments Ok {A} a.
Arguments Raise {A} e.

Definition bind {A B : Type} (m : result A) (k : A -> result B) : result B :=
  match m with
  | Ok a => k a
  | Raise e => Raise e
  end.

Notation "x <- m ;; k" := (bind m (fun x => k))
  (at level 100, m at next level, right associativity).
Notation "' p <- m ;; k" := (bind m (fun p => k))
  (at level 100, p pattern, m at next level, right associativity).

(** [raise K] is Python's [raise K(...)] of an interpreter error; the text of
    interpreter messages is not needed by the script and is left empty. *)
Definition raise {A : Type} (k : exn_kind) : result A := Raise (Exn k "").

(** [try: m  except Exception: h]. *)
Definition try_except {A : Type} (m : result A) (h : exn -> result A) : result A :=
  match m with
  | Ok a => Ok a
  | Raise e => h e
  end.

Definition is_ok {A : Type} (m : result A) : bool :=
  match m with Ok _ => true | Raise _ => false end.

(** [raises_kind k m]: [m] raises an exception of class [k]. *)
Definition raises_kind {A : Type} (k : exn_kind) (m : result A) : bool :=
  match m with
  | Ok _ => false
  | Raise e => exn_kind_eqb (exn_class e) k
  end.

(** ** JSON values *)

(** What [json.loads] produces: the responses of the client library.  A dict
    is kept as an association list in insertion order; a lookup takes the
    first binding of the key. *)
Inductive json : Type :=
| JNone
| JBool (b : bool)
| JInt (n : Z)
| JFloat (x : spec_float)
| JStr (s : string)
| JList (l : list json)
| JDict (d : list (string * json)).

Fixpoint dict_get (d : list (string * json)) (key : string) : option json :=
  match d with
  | [] => None
  | (k, v) :: d' => if String.eqb k key then Some v else dict_get d' key
  end.

(** ** Binary64 arithmetic *)

Definition prec : Z := 53.
Definition emax : Z := 1024.

Definition fmul : spec_float -> spec_float -> spec_float := SFmul prec emax.
Definition fdiv : spec_float -> spec_float -> spec_float := SFdiv prec emax.
Definition fsub : spec_float -> spec_float -> spec_float := SFsub prec emax.

(** [float(n)] for a Python int: round to nearest even; an int beyond the
    range of a double raises OverflowError. *)
Definition float_of_Z (n : Z) : result spec_float :=
  match binary_normalize prec emax n 0 false with
  | S754_infinity _ => raise OverflowError
  | x => Ok x
  end.

(** A small int literal as a double (exact below 2^53). *)
Definition float_lit (n : Z) : spec_float := binary_normalize prec emax n 0 false.

Definition float_is_zero (x : spec_float) : bool :=
  match x with S754_zero _ => true | _ => false end.

(** [int(x)] on a float: truncation toward zero. *)
Definition float_trunc (x : spec_float) : result Z :=
  match x with
  | S754_zero _ => Ok 0
  | S754_infinity _ => raise OverflowError
  | S754_nan => raise ValueError
  | S754_finite s m e =>
      let a := if 0 <=? e then Z.shiftl (Zpos m) e else Z.shiftr (Zpos m) (- e) in
      Ok (if s then - a else a)
  end.

(** Exact comparison of a Python int with a float, as [float_richcompare]
    does it; [None] when the float is a NaN. *)
Definition Z_float_compare (n : Z) (x : spec_float) : option comparison :=
  match x with
  | S754_nan => None
  | S754_infinity s => Some (if s then Gt else Lt)
  | S754_zero _ => Some (n ?= 0)
  | S754_finite s m e =>
      let v := if s then Zneg m else Zpos m in
      Some (if 0 <=? e then n ?= Z.shiftl v e else Z.shiftl n (- e) ?= v)
  end.

(** The numeric tower: bool is a subclass of int. *)
Inductive num : Type :=
| NInt (n : Z)
| NFloat (x : spec_float).

Definition as_num (v : json) : option num :=
  match v with
  | JBool b => Some (NInt (Z.b2z b))
  | JInt n => Some (NInt n)
  | JFloat x => Some (NFloat x)
  | _ => None
  end.

Definition num_compare (a b : num) : option comparison :=
  match a, b with
  | NInt m, NInt n => Some (m ?= n)
  | NInt m, NFloat y => Z_float_compare m y
  | NFloat x, NInt n => option_map CompOpp (Z_float_compare n x)
  | NFloat x, NFloat y => SFcompare x y
  end.

Definition num_ltb (a b : num) : bool :=
  match num_compare a b with Some Lt => true | _ => false end.

Definition num_gtb (a b : num) : bool :=
  match num_compare a b with Some Gt => true | _ => false end.

Definition num_to_float (a : num) : result spec_float :=
  match a with
  | NInt n => float_of_Z n
  | NFloat x => Ok x
  end.

(** [a / b] on Python ints: the correctly rounded quotient. *)
Definition int_truediv (a b : Z) : result spec_float :=
  if b =? 0 then raise ZeroDivisionError
  else if a =? 0 then Ok (S754_zero (b <? 0))
  else
    let '(q, e, l) := SFdiv_core_binary prec emax (Z.abs a) 0 (Z.abs b) 0 in
    match binary_round_aux prec emax (xorb (a <? 0) (b <? 0)) q e l with
    | S754_infinity _ => raise OverflowError
    | x => Ok x
    end.

Definition num_truediv (a b : num) : result spec_float :=
  match a, b with
  | NInt m, NInt n => int_truediv m n
  | _, _ =>
      x <- num_to_float a ;;
      y <- num_to_float b ;;
      if float_is_zero y then raise ZeroDivisionError else Ok (fdiv x y)
  end.

(** ** Strings *)

Definition nl : string := String (ascii_of_nat 10) EmptyString.

(** The decimal numeral of a Python int, as [str(n)] prints it. *)
Definition string_of_Z (n : Z) : string := NilZero.string_of_int (Z.to_int n).

(** [sep.join(parts)]. *)
Definition join (sep : string) (parts : list string) : string := String.concat sep parts.

Arguments join : simpl never.

(** [sub in s]. *)
Fixpoint contains (sub s : string) : bool :=
  if String.prefix sub s then true
  else match s with
       | EmptyString => false
       | String _ s' => contains sub s'
       end.

(** [s.replace(a, b)] for one-character [a] and [b]. *)
Fixpoint replace_char (a b : ascii) (s : string) : string :=
  match s with
  | EmptyString => EmptyString
  | String c s' => String (if Ascii.eqb c a then b else c) (replace_char a b s')
  end.

(** [s.split(c, 1)[1]] when [c] occurs in [s]: what follows its first
    occurrence. *)
Fixpoint after_first (c : ascii) (s : string) : string :=
  match s with
  | EmptyString => EmptyString
  | String a s' => if Ascii.eqb a c then s' else after_first c s'
  end.

(** A UTF-8 continuation byte (10xxxxxx). *)
Definition is_continuation (c : ascii) : bool :=
  let n := nat_of_ascii c in (128 <=? n)%nat && (n <? 192)%nat.

(** [s[:n]]: the first [n] code points. *)
Fixpoint take_chars (n : nat) (s : string) : string :=
  match s with
  | EmptyString => EmptyString
  | String c s' =>
      if is_continuation c then String c (take_chars n s')
      else match n with
           | O => EmptyString
           | S n' => String c (take_chars n' s')
           end
  end.

(** The code points of a string, each as a string: what iterating over a
    Python str yields. *)
Fixpoint chars_aux (cur : string) (s : string) : list string :=
  match s with
  | EmptyString => match cur with EmptyString => [] | _ => [cur] end
  | String c s' =>
      if is_continuation c then chars_aux (cur +++ String c EmptyString) s'
      else match cur with
           | EmptyString => chars_aux (String c EmptyString) s'
           | _ => cur :: chars_aux (String c EmptyString) s'
           end
  end.

Definition chars (s : string) : list string := chars_aux EmptyString s.

Definition is_lower_az (c : ascii) : bool :=
  let n := nat_of_ascii c in (97 <=? n)%nat && (n <=? 122)%nat.

Definition is_upper_AZ (c : ascii) : bool :=
  let n := nat_of_ascii c in (65 <=? n)%nat && (n <=? 90)%nat.

(** [re.sub(r'([a-z])([A-Z])', r'\1 \2', s)]: a space between a lower-case
    and an upper-case ASCII letter, matches found left to right without
    overlap. *)
Fixpoint camel_split (s : string) : string :=
  match s with
  | String a (String b rest as tl) =>
      if is_lower_az a && is_upper_AZ b
      then String a (String " " (String b (camel_split rest)))
      else String a (camel_split tl)
  | _ => s
  end.

Fixpoint repeat_string (n : nat) (s : string) : string :=
  match n with
  | O => EmptyString
  | S n' => s +++ repeat_string n' s
  end.

Fixpoint repeat_list {A : Type} (n : nat) (l : list A) : list A :=
  match n with
  | O => []
  | S n' => l ++ repeat_list n' l
  end.

(** [f"{n:02d}"]. *)
Definition fmt_02d (n : Z) : string :=
  if (0 <=? n) && (n <? 10) then "0" +++ string_of_Z n else string_of_Z n.

(** Groups of three digits separated by commas, from the right. *)
Fixpoint group3 (fuel : nat) (n : Z) : string :=
  match fuel with
  | O => string_of_Z n
  | S fuel' =>
      if n <? 1000 then string_of_Z n
      else
        let r := n mod 1000 in
        let pad := if r <? 10 then "00" else if r <? 100 then "0" else "" in
        group3 fuel' (n / 1000) +++ "," +++ pad +++ string_of_Z r
  end.

(** [f"{n:,}"] on a Python int. *)
Definition fmt_int_comma (n : Z) : string :=
  let a := Z.abs n in
  (if n <? 0 then "-" else "") +++ group3 (Z.to_nat (Z.log2 a)) a.

Definition pad_zeros (width : nat) (s : string) : string :=
  match (width - String.length s)%nat with
  | O => s
  | S _ => repeat_string (width - String.length s) "0" +++ s
  end.

(** [a / b] rounded to the nearest integer, ties to even ([0 <= a], [0 < b]). *)
Definition div_half_even (a b : Z) : Z :=
  let q := a / b in
  match 2 * (a mod b) ?= b with
  | Lt => q
  | Gt => q + 1
  | Eq => if Z.even q then q else q + 1
  end.

(** [format(x, '.<d>f')] on a float: the exact binary value correctly rounded
    to [d] decimals. *)
Definition float_fixed (d : nat) (x : spec_float) : string :=
  let frac (n : Z) :=
    match d with
    | O => ""
    | _ => "." +++ pad_zeros d (string_of_Z (n mod 10 ^ Z.of_nat d))
    end in
  match x with
  | S754_nan => "nan"
  | S754_infinity s => if s then "-inf" else "inf"
  | S754_zero s => (if s then "-" else "") +++ "0" +++ frac 0
  | S754_finite s m e =>
      let p := 10 ^ Z.of_nat d in
      let n := if 0 <=? e then Z.shiftl (Zpos m) e * p
               else div_half_even (Zpos m * p) (Z.shiftl 1 (- e)) in
      (if s then "-" else "") +++ string_of_Z (n / p) +++ frac n
  end.

(** ** The remote client

    One field per endpoint the script calls: the day (ISO text) to the JSON
    response, or the exception the call raises. *)
Record client : Type := {
  get_sleep_data : string -> result json;
  get_lifestyle_logging_data : string -> result json;
  get_user_summary : string -> result json;
  get_heart_rates : string -> result json;
  get_body_battery : string -> string -> result json;
  get_hrv_data : string -> result json;
  get_spo2_data : string -> result json;
  get_daily_weigh_ins : string -> result json;
  get_all_day_stress : string -> result json;
  get_training_readiness : string -> result json;
  get_respiration_data : string -> result json;
  get_fitnessage_data : string -> result json;
  get_intensity_minutes_data : string -> result json;
  get_activities_by_date : string -> string -> result json
}.

(** ** Effects

    What a run does to the outside world, in order: the calls it makes.
    [Mkdir dir] is the call [dir.mkdir(parents=True, exist_ok=True)], which
    makes [dir] and those of its ancestors that are not there yet;
    [WriteText file content] is [file.write_text(content)].  Failures of the
    file system itself are not modelled. *)
Inductive event : Type :=
| Login (tokenstore : string)
| Sleep (seconds : Z)
| Print (text : string)
| PrintErr (text : string)
| Mkdir (dir : string)
| WriteText (file : string) (content : string).

(** How a piece of the script ends: it returns, it calls [sys.exit], or an
    exception leaves it. *)
Inductive outcome (A : Type) : Type :=
| Returned (a : A)
| SystemExit (code : Z)
| Uncaught (e : exn).

Arguments Returned {A} a.
Arguments SystemExit {A} code.
Arguments Uncaught {A} e.

(** An effectful computation: the events it performed and how it ended. *)
Definition prog (A : Type) : Type := list event * outcome A.

Definition ret {A : Type} (a : A) : prog A := ([], Returned a).

Definition emit (e : event) : prog unit := ([e], Returned tt).

Definition sys_exit {A : Type} (code : Z) : prog A := ([], SystemExit code).

Definition lift {A : Type} (m : result A) : prog A :=
  match m with
  | Ok a => ([], Returned a)
  | Raise e => ([], Uncaught e)
  end.

Definition pbind {A B : Type} (m : prog A) (k : A -> prog B) : prog B :=
  match m with
  | (evs, Returned a) => let '(evs', o) := k a in (evs ++ evs', o)
  | (evs, SystemExit code) => (evs, SystemExit code)
  | (evs, Uncaught e) => (evs, Uncaught e)
  end.

Notation "x <~ m ;; k" := (pbind m (fun x => k))
  (at level 100, m at next level, right associativity).
Notation "m ;;; k" := (pbind m (fun _ => k))
  (at level 100, right associativity).

Definition events {A : Type} (m : prog A) : list event := fst m.
Definition ending {A : Type} (m : prog A) : outcome A := snd m.

(** What the process can see of its surroundings. *)
Record environment : Type := {
  (** [date.today()] as a proleptic ordinal *)
  today : Z;
  (** [client.login(tokenstore)]: the outcome of the call number [n] *)
  login : nat -> result unit;
  (** the session the fetchers use once logged in *)
  session : client;
  (** [DEFAULT_TOKEN_DIR], [BASE_DIR] and [$GARMIN_TOKEN_DIR] *)
  default_token_dir : string;
  base_dir : string;
  env_token_dir : option string;
  (** a path is kept as its text, [str(p)]: [Path(text)], [p / name] and
      [p.is_absolute()] *)
  path_of : string -> string;
  path_child : string -> string -> string;
  is_absolute : string -> bool
}.

(** ** The interpreter's builtins

    What the script uses of the Python runtime and whose result depends on
    Unicode tables, the locale, the time zone or the shortest-repr algorithm
    is taken as a parameter; every one of them is total in Python on the
    arguments it gets here. *)
Record builtins : Type := {
  (** [s.title()] and [s.lower()] *)
  str_title : string -> string;
  str_lower : string -> string;
  (** [int(s)] on a str; [None] when it raises ValueError *)
  int_of_str : string -> option Z;
  (** [repr(x)] and [format(x, ',')] on a float *)
  float_repr : spec_float -> string;
  float_comma : spec_float -> string;
  (** [str(v)] on a list or a dict *)
  container_str : json -> string;
  (** [a > b] on two lists *)
  list_gt : list json -> list json -> result bool;
  (** [round(x, 1)] on a float *)
  float_round1 : spec_float -> spec_float;
  (** [datetime.fromtimestamp(x).strftime("%H:%M")] *)
  local_hm : spec_float -> result string;
  (** [d.isoformat()], [d.strftime("%A, %B %-d, %Y")] and
      [date.fromisoformat(s)] on proleptic ordinals *)
  isoformat : Z -> string;
  strftime_long : Z -> string;
  fromisoformat : string -> option Z
}.

Section Script.

Variable py : builtins.

(** ** Python operations on JSON values *)

(** [bool(v)]. *)
Definition truthy (v : json) : bool :=
  match v with
  | JNone => false
  | JBool b => b
  | JInt n => negb (n =? 0)
  | JFloat x => negb (float_is_zero x)
  | JStr s => negb (String.eqb s "")
  | JList l => match l with [] => false | _ => true end
  | JDict d => match d with [] => false | _ => true end
  end.

Definition is_none (v : json) : bool :=
  match v with JNone => true | _ => false end.

(** [v.get(key, default)]: only a dict has the method. *)
Definition py_get (v : json) (key : string) (default : json) : result json :=
  match v with
  | JDict d => Ok (match dict_get d key with Some x => x | None => default end)
  | _ => raise AttributeError
  end.

(** [str(v)], which is also [f"{v}"]. *)
Definition py_str (v : json) : string :=
  match v with
  | JNone => "None"
  | JBool b => if b then "True" else "False"
  | JInt n => string_of_Z n
  | JFloat x => float_repr py x
  | JStr s => s
  | JList _ | JDict _ => container_str py v
  end.

(** [int(v)]. *)
Definition py_int (v : json) : result Z :=
  match v with
  | JBool b => Ok (Z.b2z b)
  | JInt n => Ok n
  | JFloat x => float_trunc x
  | JStr s => match int_of_str py s with Some n => Ok n | None => raise ValueError end
  | JNone | JList _ | JDict _ => raise TypeError
  end.

(** [a < b] and [a > b]. *)
Definition py_lt (a b : json) : result bool :=
  match as_num a, as_num b with
  | Some x, Some y => Ok (num_ltb x y)
  | _, _ =>
      match a, b with
      | JStr s, JStr t => Ok (String.ltb s t)
      | JList l, JList m => list_gt py m l
      | _, _ => raise TypeError
      end
  end.

Definition py_gt (a b : json) : result bool :=
  match as_num a, as_num b with
  | Some x, Some y => Ok (num_gtb x y)
  | _, _ =>
      match a, b with
      | JStr s, JStr t => Ok (String.ltb t s)
      | JList l, JList m => list_gt py l m
      | _, _ => raise TypeError
      end
  end.

(** [a / b]. *)
Definition py_truediv (a b : json) : result spec_float :=
  match as_num a, as_num b with
  | Some x, Some y => num_truediv x y
  | _, _ => raise TypeError
  end.

(** [v * k] for an int literal [k]. *)
Definition py_mul_int (v : json) (k : Z) : result json :=
  match v with
  | JBool b => Ok (JInt (Z.b2z b * k))
  | JInt n => Ok (JInt (n * k))
  | JFloat x => y <- float_of_Z k ;; Ok (JFloat (fmul x y))
  | JStr s => Ok (JStr (repeat_string (Z.to_nat k) s))
  | JList l => Ok (JList (repeat_list (Z.to_nat k) l))
  | JNone | JDict _ => raise TypeError
  end.

(** [n - v] for a Python int [n]. *)
Definition py_int_sub (n : Z) (v : json) : result json :=
  match as_num v with
  | Some (NInt m) => Ok (JInt (n - m))
  | Some (NFloat y) => x <- float_of_Z n ;; Ok (JFloat (fsub x y))
  | None => raise TypeError
  end.

(** [abs(v)] on a number. *)
Definition py_abs (v : json) : result json :=
  match as_num v with
  | Some (NInt m) => Ok (JInt (Z.abs m))
  | Some (NFloat y) => Ok (JFloat (SFabs y))
  | None => raise TypeError
  end.

(** [f"{v:,}"]. *)
Definition fmt_comma (v : json) : result string :=
  match v with
  | JBool b => Ok (fmt_int_comma (Z.b2z b))
  | JInt n => Ok (fmt_int_comma n)
  | JFloat x => Ok (float_comma py x)
  | JStr _ => raise ValueError
  | JNone | JList _ | JDict _ => raise TypeError
  end.

(** [f"{v:.<d>f}"]. *)
Definition fmt_fixed (d : nat) (v : json) : result string :=
  match v with
  | JStr _ => raise ValueError
  | _ =>
      match as_num v with
      | Some x => y <- num_to_float x ;; Ok (float_fixed d y)
      | None => raise TypeError
      end
  end.

(** The items a [for] loop over [v] visits. *)
Definition py_iter (v : json) : result (list json) :=
  match v with
  | JList l => Ok l
  | JDict d => Ok (map (fun kv => JStr (fst kv)) d)
  | JStr s => Ok (map JStr (chars s))
  | JNone | JBool _ | JInt _ | JFloat _ => raise TypeError
  end.

(** [v[0]]. *)
Definition py_index0 (v : json) : result json :=
  match v with
  | JList (x :: _) => Ok x
  | JList [] => raise IndexError
  | JStr s => match chars s with c :: _ => Ok (JStr c) | [] => raise IndexError end
  | JDict _ => raise KeyError
  | JNone | JBool _ | JInt _ | JFloat _ => raise TypeError
  end.

(** [v.replace("_", " ").title()]: only a str has [replace]. *)
Definition py_replace_title (v : json) : result string :=
  match v with
  | JStr s => Ok (str_title py (replace_char "_" " " s))
  | _ => raise AttributeError
  end.

(** [v.lower()]. *)
Definition py_lower (v : json) : result string :=
  match v with
  | JStr s => Ok (str_lower py s)
  | _ => raise AttributeError
  end.

(** [max(values)] on a non-empty list: the first of the greatest items. *)
Fixpoint max_from (best : json) (rest : list json) : result json :=
  match rest with
  | [] => Ok best
  | item :: rest' =>
      b <- py_gt item best ;;
      max_from (if b then item else best) rest'
  end.

Definition py_max (values : list json) : result json :=
  match values with
  | [] => raise ValueError
  | v :: rest => max_from v rest
  end.

(** [x and x > 0], the guard the script puts before every derived field. *)
Definition positive (v : json) : result bool :=
  if truthy v then py_gt v (JInt 0) else Ok false.

(** A [for] loop that appends to a list: each item contributes the items it
    appends, the first exception ends the loop. *)
Fixpoint for_each {A B : Type} (body : A -> result (list B)) (items : list A)
  : result (list B) :=
  match items with
  | [] => Ok []
  | x :: items' =>
      out <- body x ;;
      rest <- for_each body items' ;;
      Ok (out ++ rest)
  end.

(** ** Duration formatting *)

Definition fmt_duration (seconds : json) : result string :=
  if is_none seconds then Ok "—"
  else
    n <- py_int seconds ;;
    let total_minutes := n / 60 in
    let hours := total_minutes / 60 in
    let minutes := total_minutes mod 60 in
    Ok (string_of_Z hours +++ "h " +++ fmt_02d minutes +++ "m").

Definition fmt_duration_mmss (seconds : json) : result string :=
  if is_none seconds then Ok "—"
  else
    total_seconds <- py_int seconds ;;
    let minutes := total_seconds / 60 in
    let secs := total_seconds mod 60 in
    Ok (string_of_Z minutes +++ ":" +++ fmt_02d secs).

(** ** The metric fetchers

    A fetcher returns [Ok None] for "no data", [Ok (Some text)] for a
    fragment and [Raise e] when an exception leaves it.  The diagnostics
    printed to stderr under [VERBOSE] do not change what a fetcher returns
    and are not modelled. *)

(** *** Sleep *)

(** The [sleepNeed] block of [fetch_sleep]: the lines it appends. *)
Definition sleep_need_lines (daily : json) : result (list string) :=
  sleep_need <- py_get daily "sleepNeed" JNone ;;
  if truthy sleep_need then
    match sleep_need with
    | JDict _ =>
        actual <- py_get sleep_need "actual" JNone ;;
        val <- (if truthy actual then Ok actual
                else
                  value <- py_get sleep_need "value" JNone ;;
                  if truthy value then Ok value
                  else py_get sleep_need "duration" JNone) ;;
        if is_none val then Ok []
        else
          small <- py_lt val (JInt 1440) ;;
          val' <- (if small then py_mul_int val 60 else Ok val) ;;
          text <- fmt_duration val' ;;
          Ok ["Sleep Need: " +++ text]
    | _ =>
        text <- fmt_duration sleep_need ;;
        Ok ["Sleep Need: " +++ text]
    end
  else Ok [].

(** The body of the loop over the sleep factors. *)
Definition sleep_factor (f : json) : result (list string) :=
  key <- py_get f "factorKey" JNone ;;
  if negb (truthy key) then Ok []
  else
    status0 <- py_get f "status" (JStr "") ;;
    status <- py_replace_title status0 ;;
    display_key <- match key with
                   | JStr k => Ok (str_title py (replace_char "_" " " (camel_split k)))
                   | _ => raise TypeError
                   end ;;
    Ok [display_key +++ ": " +++ status].

(** [daily.get("sleepScores", {}).get("overall", {})]. *)
Definition sleep_overall (daily : json) : result json :=
  scores <- py_get daily "sleepScores" (JDict []) ;;
  py_get scores "overall" (JDict []).

Definition fetch_sleep_lines (c : client) (day : string) : result (option (list string)) :=
  match get_sleep_data c day with
  | Raise _ => Ok None
  | Ok data =>
      daily <- py_get data "dailySleepDTO" (JDict []) ;;
      no_sleep <- (if negb (truthy daily) then Ok true
                   else
                     secs <- py_get daily "sleepTimeSeconds" JNone ;;
                     Ok (negb (truthy secs))) ;;
      if no_sleep then Ok None
      else
        v <- py_get daily "sleepTimeSeconds" JNone ;; total <- fmt_duration v ;;
        v <- py_get daily "deepSleepSeconds" JNone ;; deep <- fmt_duration v ;;
        v <- py_get daily "lightSleepSeconds" JNone ;; light <- fmt_duration v ;;
        v <- py_get daily "remSleepSeconds" JNone ;; rem <- fmt_duration v ;;
        v <- py_get daily "awakeSleepSeconds" JNone ;; awake <- fmt_duration v ;;
        overall <- sleep_overall daily ;;
        score <- py_get overall "value" JNone ;;
        overall <- sleep_overall daily ;;
        qualifier <- py_get overall "qualifierKey" (JStr "") ;;
        qualifier_str <- (if truthy qualifier then py_replace_title qualifier else Ok "") ;;
        let header := "## Sleep: " +++ total in
        let header := if negb (String.eqb qualifier_str "")
                      then header +++ " (" +++ qualifier_str +++ ")" else header in
        let lines := [header;
                      "Deep: " +++ deep +++ " | Light: " +++ light +++
                      " | REM: " +++ rem +++ " | Awake: " +++ awake] in
        let lines := if negb (is_none score)
                     then lines ++ ["Sleep Score: " +++ py_str score] else lines in
        need <- sleep_need_lines daily ;;
        let lines := lines ++ need in
        overall <- sleep_overall daily ;;
        factors <- py_get overall "factors" (JList []) ;;
        items <- py_iter factors ;;
        factor_parts <- for_each sleep_factor items ;;
        let lines := match factor_parts with
                     | [] => lines
                     | _ => lines ++ ["Sleep Factors: " +++ join " | " factor_parts]
                     end in
        Ok (Some lines)
  end.

Definition fetch_sleep (c : client) (day : string) : result (option string) :=
  lines <- fetch_sleep_lines c day ;;
  Ok (option_map (join nl) lines).

(** *** Lifestyle *)

(** The body of the loop over the details of one log entry. *)
Definition lifestyle_detail (d : json) : result (list string) :=
  amount <- py_get d "amount" JNone ;;
  sub_type <- py_get d "subTypeName" JNone ;;
  if negb (is_none amount) then
    if truthy sub_type then
      unit <- py_lower sub_type ;;
      Ok [py_str amount +++ " " +++ unit]
    else Ok [py_str amount]
  else Ok [].

Definition json_is_str (v : json) (s : string) : bool :=
  match v with JStr t => String.eqb t s | _ => false end.

(** The body of the loop over the log entries. *)
Definition lifestyle_log (log : json) : result (list string) :=
  status <- py_get log "logStatus" JNone ;;
  if negb (json_is_str status "YES") then Ok []
  else
    name0 <- py_get log "name" JNone ;;
    name <- (if truthy name0 then Ok name0
             else
               b <- py_get log "behaviourId" (JStr "") ;;
               Ok (JStr (py_str b))) ;;
    details <- py_get log "details" (JList []) ;;
    items <- py_iter details ;;
    detail_strs <- for_each lifestyle_detail items ;;
    let line := "- " +++ py_str name in
    let line := match detail_strs with
                | [] => line
                | _ => line +++ ": " +++ join ", " detail_strs
                end in
    Ok [line].

Definition fetch_lifestyle (c : client) (day : string) : result (option string) :=
  match get_lifestyle_logging_data c day with
  | Raise _ => Ok None
  | Ok data =>
      if negb (truthy data) then Ok None
      else
        logs <- py_get data "dailyLogsReport" (JList []) ;;
        if negb (truthy logs) then Ok None
        else
          items <- py_iter logs ;;
          entries <- for_each lifestyle_log items ;;
          let lines := "## Lifestyle" :: entries in
          if (List.length lines =? 1)%nat then Ok None
          else Ok (Some (join nl lines))
  end.

(** *** Body *)

(** [x] when the call returned, [None] when it raised: the pattern
    [v = None; try: v = call() except Exception: pass]. *)
Definition or_none (m : result json) : json :=
  match m with Ok v => v | Raise _ => JNone end.

Definition body_summary (c : client) (day : string) : json :=
  or_none (get_user_summary c day).

Definition body_hr_data (c : client) (day : string) : json :=
  or_none (get_heart_rates c day).

(** One item of the comprehension over the body-battery samples. *)
Definition charged_value (e : json) : result (list json) :=
  v <- py_get e "chargedValue" JNone ;;
  if negb (is_none v) then
    v' <- py_get e "chargedValue" (JInt 0) ;;
    Ok [v']
  else Ok [].

(** The [battery] variable: the greatest charged value, [JNone] for None. *)
Definition body_battery (c : client) (day : string) : json :=
  or_none
    (bb_data <- get_body_battery c day day ;;
     match bb_data with
     | JList ((_ :: _) as samples) =>
         values <- for_each charged_value samples ;;
         match values with
         | [] => Ok JNone
         | _ => py_max values
         end
     | _ => Ok JNone
     end).

(** The [hrv] variable. *)
Definition body_hrv (c : client) (day : string) : option string :=
  match
    (hrv_data <- get_hrv_data c day ;;
     if truthy hrv_data then
       summary_hrv <- py_get hrv_data "hrvSummary" (JDict []) ;;
       if truthy summary_hrv then
         weekly_avg <- py_get summary_hrv "weeklyAvg" JNone ;;
         last_night_avg <- py_get summary_hrv "lastNightAvg" JNone ;;
         let hrv_details :=
           (if truthy weekly_avg
            then ["Weekly HRV Avg: " +++ py_str weekly_avg +++ " ms"] else []) ++
           (if truthy last_night_avg
            then ["Last Night HRV Avg: " +++ py_str last_night_avg +++ " ms"] else []) in
         Ok (Some (join " | " hrv_details))
       else Ok None
     else Ok None)
  with
  | Ok v => v
  | Raise _ => None
  end.

(** The [spo2] variable, [JNone] for None. *)
Definition body_spo2 (c : client) (day : string) : json :=
  or_none
    (spo2_data <- get_spo2_data c day ;;
     if truthy spo2_data then py_get spo2_data "averageSpO2" JNone else Ok JNone).

(** The [weight] variable, in kilograms. *)
Definition body_weight (c : client) (day : string) : option spec_float :=
  match
    (weight_data <- get_daily_weigh_ins c day ;;
     if truthy weight_data then
       entries <- py_get weight_data "dateWeightList" (JList []) ;;
       if truthy entries then
         first <- py_index0 entries ;;
         grams <- py_get first "weight" JNone ;;
         if truthy grams then
           kg <- py_truediv grams (JInt 1000) ;;
           Ok (Some (float_round1 py kg))
         else Ok None
       else Ok None
     else Ok None)
  with
  | Ok v => v
  | Raise _ => None
  end.

Definition is_some {A : Type} (o : option A) : bool :=
  match o with Some _ => true | None => false end.

(** The test that omits the whole section. *)
Definition body_absent (summary hr_data battery : json) (hrv : option string) : bool :=
  negb (truthy summary) && negb (truthy hr_data) && is_none battery && negb (is_some hrv).

(** The header and detail parts read from the user summary. *)
Definition body_summary_parts (summary : json) : result (list string * list string) :=
  steps <- (if truthy summary then py_get summary "totalSteps" JNone else Ok JNone) ;;
  calories <- (if truthy summary then py_get summary "totalKilocalories" JNone
               else Ok JNone) ;;
  hp1 <- (if negb (is_none steps)
          then t <- fmt_comma steps ;; Ok [t +++ " steps"] else Ok []) ;;
  hp2 <- (if negb (is_none calories)
          then n <- py_int calories ;; Ok [fmt_int_comma n +++ " cal"] else Ok []) ;;
  detail_parts <-
    (if truthy summary then
       distance_m <- py_get summary "totalDistanceMeters" JNone ;;
       p1 <- (if negb (is_none distance_m)
              then km <- py_truediv distance_m (JInt 1000) ;;
                   Ok ["Distance: " +++ float_fixed 1 km +++ " km"]
              else Ok []) ;;
       floors <- py_get summary "floorsAscended" JNone ;;
       p2 <- (if negb (is_none floors)
              then n <- py_int floors ;; Ok ["Floors: " +++ string_of_Z n]
              else Ok []) ;;
       Ok (p1 ++ p2)
     else Ok []) ;;
  Ok (hp1 ++ hp2, detail_parts).

(** The parts of the heart-rate line. *)
Definition body_hr_parts (hr_data : json) : result (list string) :=
  if truthy hr_data then
    resting <- py_get hr_data "restingHeartRate" JNone ;;
    max_hr <- py_get hr_data "maxHeartRate" JNone ;;
    Ok ((if truthy resting then ["Resting HR: " +++ py_str resting +++ " bpm"] else []) ++
        (if truthy max_hr then ["Max HR: " +++ py_str max_hr +++ " bpm"] else []))
  else Ok [].

(** The lines of the section once every part is known. *)
Definition body_lines (header_parts detail_parts hr_parts : list string)
  (battery : json) (hrv : option string) (spo2 : json) (weight : option spec_float)
  : list string :=
  let header := match header_parts with
                | [] => "## Body"
                | _ => "## Body" +++ ": " +++ join " | " header_parts
                end in
  let extra_parts :=
    (if negb (is_none battery) then ["Body Battery: " +++ py_str battery] else []) ++
    (match hrv with Some h => [h] | None => [] end) in
  [header] ++
  (match detail_parts with [] => [] | _ => [join " | " detail_parts] end) ++
  (match hr_parts with [] => [] | _ => [join " | " hr_parts] end) ++
  (match extra_parts with [] => [] | _ => [join " | " extra_parts] end) ++
  (if negb (is_none spo2) then ["SpO2: " +++ py_str spo2 +++ "%"] else []) ++
  (match weight with
   | Some w => ["Weight: " +++ float_repr py w +++ " kg"]
   | None => []
   end).

Definition fetch_body (c : client) (day : string) : result (option string) :=
  let summary := body_summary c day in
  let hr_data := body_hr_data c day in
  let battery := body_battery c day in
  let hrv := body_hrv c day in
  let spo2 := body_spo2 c day in
  let weight := body_weight c day in
  if body_absent summary hr_data battery hrv then Ok None
  else
    '(header_parts, detail_parts) <- body_summary_parts summary ;;
    hr_parts <- body_hr_parts hr_data ;;
    Ok (Some (join nl (body_lines header_parts detail_parts hr_parts
                                  battery hrv spo2 weight))).

(** *** Stress *)

(** The four bands of the average stress level. *)
Definition stress_level (avg : json) : result string :=
  b <- py_lt avg (JInt 26) ;;
  if b then Ok "Rest"
  else
    b <- py_lt avg (JInt 51) ;;
    if b then Ok "Low"
    else
      b <- py_lt avg (JInt 76) ;;
      if b then Ok "Medium" else Ok "High".

Definition fetch_stress (c : client) (day : string) : result (option string) :=
  match get_all_day_stress c day with
  | Raise _ => Ok None
  | Ok data =>
      if negb (truthy data) then Ok None
      else
        avg <- py_get data "overallStressLevel" JNone ;;
        if is_none avg then Ok None
        else
          level <- stress_level avg ;;
          Ok (Some ("## Stress: Avg " +++ py_str avg +++ " (" +++ level +++ ")"))
  end.

(** *** Training readiness *)

Definition fetch_training_readiness (c : client) (day : string) : result (option string) :=
  match get_training_readiness c day with
  | Raise _ => Ok None
  | Ok data =>
      match data with
      | JList (entry :: _) =>
          score <- py_get entry "score" JNone ;;
          if is_none score then Ok None
          else
            v <- py_get entry "level" (JStr "") ;;
            level <- py_replace_title v ;;
            v <- py_get entry "feedbackShort" (JStr "") ;;
            feedback <- py_replace_title v ;;
            let line := "## Training Readiness: " +++ py_str score in
            let line := if negb (String.eqb level "")
                        then line +++ " (" +++ level +++ ")" else line in
            let line := if negb (String.eqb feedback "")
                        then line +++ " — " +++ feedback else line in
            Ok (Some line)
      | _ => Ok None
      end
  end.

(** *** Respiration *)

Definition fetch_respiration (c : client) (day : string) : result (option string) :=
  match get_respiration_data c day with
  | Raise _ => Ok None
  | Ok data =>
      if negb (truthy data) then Ok None
      else
        avg_waking <- py_get data "avgWakingRespirationValue" JNone ;;
        p1 <- (if truthy avg_waking
               then t <- fmt_fixed 0 avg_waking ;; Ok ["Waking: " +++ t +++ " brpm"]
               else Ok []) ;;
        avg_sleeping <- py_get data "avgSleepRespirationValue" JNone ;;
        p2 <- (if truthy avg_sleeping
               then t <- fmt_fixed 0 avg_sleeping ;; Ok ["Sleeping: " +++ t +++ " brpm"]
               else Ok []) ;;
        lowest <- py_get data "lowestRespirationValue" JNone ;;
        highest <- py_get data "highestRespirationValue" JNone ;;
        p3 <- (if truthy lowest && truthy highest
               then lo <- fmt_fixed 0 lowest ;;
                    hi <- fmt_fixed 0 highest ;;
                    Ok ["Range: " +++ lo +++ "–" +++ hi]
               else Ok []) ;;
        match p1 ++ p2 ++ p3 with
        | [] => Ok None
        | parts => Ok (Some ("## Respiration: " +++ join " | " parts))
        end
  end.

(** *** Fitness age *)

Definition fetch_fitness_age (c : client) (day : string) : result (option string) :=
  match get_fitnessage_data c day with
  | Raise _ => Ok None
  | Ok data =>
      if negb (truthy data) then Ok None
      else
        fitness_age <- py_get data "fitnessAge" JNone ;;
        chrono_age <- py_get data "chronologicalAge" JNone ;;
        if is_none fitness_age then Ok None
        else
          age <- py_int fitness_age ;;
          let line := "## Fitness Age: " +++ string_of_Z age in
          if negb (is_none chrono_age) then
            age' <- py_int fitness_age ;;
            diff <- py_int_sub age' chrono_age ;;
            younger <- py_lt diff (JInt 0) ;;
            if younger then
              a <- py_abs diff ;;
              Ok (Some (line +++ " (" +++ py_str a +++ " years younger)"))
            else
              older <- py_gt diff (JInt 0) ;;
              if older then Ok (Some (line +++ " (" +++ py_str diff +++ " years older)"))
              else Ok (Some line)
          else Ok (Some line)
  end.

(** *** Intensity minutes *)

Definition fetch_intensity_minutes (c : client) (day : string) : result (option string) :=
  match get_intensity_minutes_data c day with
  | Raise _ => Ok None
  | Ok data =>
      if negb (truthy data) then Ok None
      else
        moderate <- py_get data "weeklyModerate" JNone ;;
        vigorous <- py_get data "weeklyVigorous" JNone ;;
        total <- py_get data "weeklyTotal" JNone ;;
        goal <- py_get data "weekGoal" JNone ;;
        if is_none total then Ok None
        else
          let detail :=
            (if negb (is_none moderate) then ["Moderate: " +++ py_str moderate] else []) ++
            (if negb (is_none vigorous) then ["Vigorous: " +++ py_str vigorous] else []) ++
            (if negb (is_none goal) then ["Goal: " +++ py_str goal] else []) in
          let parts :=
            ["## Intensity Minutes: " +++ py_str total +++ " weekly"] ++
            (match detail with [] => [] | _ => [join " | " detail] end) in
          Ok (Some (join nl parts))
  end.

(** *** Activities *)

(** The start time of an activity as "HH:MM", [None] when unknown. *)
Definition activity_start (act : json) : result (option string) :=
  local <- py_get act "startTimeLocal" JNone ;;
  start_local <- (if truthy local then Ok local else py_get act "startTimeGMT" JNone) ;;
  let start_hm :=
    match start_local with
    | JStr t =>
        if contains "T" t then Some (take_chars 5 (after_first "T" t))
        else if contains " " t then Some (take_chars 5 (after_first " " t))
        else None
    | _ => None
    end in
  match start_hm with
  | Some _ => Ok start_hm
  | None =>
      ts <- py_get act "beginTimestamp" JNone ;;
      match as_num ts with
      | Some _ =>
          after_epoch <- py_gt ts (JInt 0) ;;
          if after_epoch then
            Ok (match (x <- py_truediv ts (JInt 1000) ;; local_hm py x) with
                | Ok hm => Some hm
                | Raise _ => None
                end)
          else Ok None
      | None => Ok None
      end
  end.

(** The pace detail: [1000 / averageSpeed] seconds per kilometre. *)
Definition activity_pace (avg_speed distance : json) : result (list string) :=
  fast <- positive avg_speed ;;
  moved <- (if fast then positive distance else Ok false) ;;
  if moved then
    pace_sec <- py_truediv (JInt 1000) avg_speed ;;
    whole <- float_trunc pace_sec ;;
    let pace_min := whole / 60 in
    let pace_s := whole mod 60 in
    Ok ["Pace: " +++ string_of_Z pace_min +++ ":" +++ fmt_02d pace_s +++ "/km"]
  else Ok [].

(** The detail line of an activity: its parts. *)
Definition activity_details (act distance : json) : result (list string) :=
  avg_hr <- py_get act "averageHR" JNone ;;
  max_hr <- py_get act "maxHR" JNone ;;
  b <- positive avg_hr ;;
  d_hr <- (if b then
             n <- py_int avg_hr ;;
             let hr_str := "Avg HR " +++ string_of_Z n in
             b' <- positive max_hr ;;
             if b' then m <- py_int max_hr ;; Ok [hr_str +++ " / Max " +++ string_of_Z m]
             else Ok [hr_str]
           else Ok []) ;;
  elev <- py_get act "elevationGain" JNone ;;
  b <- positive elev ;;
  d_elev <- (if b then n <- py_int elev ;; Ok ["Elevation: +" +++ string_of_Z n +++ "m"]
             else Ok []) ;;
  avg_speed <- py_get act "averageSpeed" JNone ;;
  d_pace <- activity_pace avg_speed distance ;;
  cadence <- py_get act "averageRunningCadenceInStepsPerMinute" JNone ;;
  b <- positive cadence ;;
  d_cad <- (if b then n <- py_int cadence ;; Ok ["Cadence: " +++ string_of_Z n +++ " spm"]
            else Ok []) ;;
  avg_power <- py_get act "avgPower" JNone ;;
  b <- positive avg_power ;;
  d_pow <- (if b then
              n <- py_int avg_power ;;
              let power_str := "Power: " +++ string_of_Z n +++ "W" in
              max_power <- py_get act "maxPower" JNone ;;
              b' <- positive max_power ;;
              if b' then m <- py_int max_power ;;
                         Ok [power_str +++ " / Max " +++ string_of_Z m +++ "W"]
              else Ok [power_str]
            else Ok []) ;;
  aero_te <- py_get act "aerobicTrainingEffect" JNone ;;
  anaero_te <- py_get act "anaerobicTrainingEffect" JNone ;;
  b <- positive aero_te ;;
  d_te <- (if b then
             t <- fmt_fixed 1 aero_te ;;
             let te_str := "Training Effect: " +++ t +++ " aerobic" in
             b' <- positive anaero_te ;;
             if b' then u <- fmt_fixed 1 anaero_te ;;
                        Ok [te_str +++ " / " +++ u +++ " anaerobic"]
             else Ok [te_str]
           else Ok []) ;;
  vo2 <- py_get act "vO2MaxValue" JNone ;;
  b <- positive vo2 ;;
  d_vo2 <- (if b then n <- py_int vo2 ;; Ok ["VO2 Max: " +++ string_of_Z n] else Ok []) ;;
  Ok (d_hr ++ d_elev ++ d_pace ++ d_cad ++ d_pow ++ d_te ++ d_vo2).

(** The body of the loop over the activities: the lines it appends. *)
Definition render_activity (act : json) : result (list string) :=
  name <- py_get act "activityName" (JStr "Activity") ;;
  v <- py_get act "duration" JNone ;;
  duration <- fmt_duration_mmss v ;;
  start_hm <- activity_start act ;;
  let header := "**" +++ py_str name +++ "**" in
  let header := match start_hm with
                | Some hm => if negb (String.eqb hm "")
                             then header +++ " (" +++ hm +++ ")" else header
                | None => header
                end in
  let header := header +++ " — " +++ duration in
  distance <- py_get act "distance" JNone ;;
  b <- positive distance ;;
  h_dist <- (if b then km <- py_truediv distance (JInt 1000) ;;
                       Ok [float_fixed 1 km +++ " km"]
             else Ok []) ;;
  calories <- py_get act "calories" JNone ;;
  b <- positive calories ;;
  h_cal <- (if b then n <- py_int calories ;; Ok [string_of_Z n +++ " cal"] else Ok []) ;;
  let header_parts := [header] ++ h_dist ++ h_cal in
  details <- activity_details act distance ;;
  Ok (["- " +++ join ", " header_parts] ++
      match details with
      | [] => []
      | _ => ["  " +++ join " | " details]
      end).

Definition fetch_activities (c : client) (day : string) : result (option string) :=
  match get_activities_by_date c day day with
  | Raise _ => Ok None
  | Ok activities =>
      if negb (truthy activities) then Ok None
      else
        items <- py_iter activities ;;
        rendered <- for_each render_activity items ;;
        Ok (Some (join nl ("## Activities" :: rendered)))
  end.

(** ** One day *)

(** [if fragment: sections.append(fragment)]. *)
Definition section_of (fragment : option string) : list string :=
  match fragment with
  | Some text => if negb (String.eqb text "") then [text] else []
  | None => []
  end.

(** The sections of a day: the title and the fragments of the nine
    fetchers, called in this order. *)
Definition day_sections (c : client) (day : Z) : result (list string) :=
  let day_str := isoformat py day in
  let display_date := strftime_long py day in
  let sections := ["# Health — " +++ display_date] in
  sleep <- fetch_sleep c day_str ;;
  let sections := sections ++ section_of sleep in
  lifestyle <- fetch_lifestyle c day_str ;;
  let sections := sections ++ section_of lifestyle in
  body <- fetch_body c day_str ;;
  let sections := sections ++ section_of body in
  stress <- fetch_stress c day_str ;;
  let sections := sections ++ section_of stress in
  readiness <- fetch_training_readiness c day_str ;;
  let sections := sections ++ section_of readiness in
  respiration <- fetch_respiration c day_str ;;
  let sections := sections ++ section_of respiration in
  fitness_age <- fetch_fitness_age c day_str ;;
  let sections := sections ++ section_of fitness_age in
  intensity <- fetch_intensity_minutes c day_str ;;
  let sections := sections ++ section_of intensity in
  activities <- fetch_activities c day_str ;;
  let sections := sections ++ section_of activities in
  Ok sections.

Definition sync_day (env : environment) (c : client) (day : Z) (output_dir : string)
  : prog unit :=
  let day_str := isoformat py day in
  sections <~ lift (day_sections c day) ;;
  if (List.length sections =? 1)%nat then
    emit (Print ("  " +++ day_str +++ ": No data available, skipping."))
  else
    emit (Mkdir output_dir) ;;;
    let output_file := path_child env output_dir (day_str +++ ".md") in
    emit (WriteText output_file (join (nl +++ nl) sections +++ nl)) ;;;
    emit (Print ("  " +++ day_str +++ ": Written to " +++ output_file)).

(** ** Authentication *)

(** [email or 'you@example.com']. *)
Definition email_or_default (email : option string) : string :=
  match email with
  | Some e => if String.eqb e "" then "you@example.com" else e
  | None => "you@example.com"
  end.

Definition email_given (email : option string) : bool :=
  match email with
  | Some e => negb (String.eqb e "")
  | None => false
  end.

Definition setup_cmd (env : environment) (token_dir : string) (email : option string)
  : string :=
  let cmd := "uv run scripts/sync_garmin.py --setup --email " +++ email_or_default email in
  if negb (String.eqb token_dir (default_token_dir env)) && negb (email_given email)
  then cmd +++ " --token-dir " +++ token_dir
  else cmd.

(** ["no profile" in str(e).lower()]: the failure the script retries. *)
Definition is_transient (e : exn) : bool :=
  contains "no profile" (str_lower py (exn_msg e)).

(** The message after the loop, chosen from the text of the last error. *)
Definition auth_failure_text (env : environment) (token_dir : string)
  (email : option string) (last_exc : option exn) : string :=
  let text := match last_exc with Some e => exn_msg e | None => "None" end in
  let msg := str_lower py text in
  let cmd := setup_cmd env token_dir email in
  if contains "no profile" msg || contains "connectapi" msg then
    "Error: Garmin's servers returned 'No profile'. This is usually" +++ nl +++
    "temporary — wait a few minutes and try again. If it persists," +++ nl +++
    "re-run setup:" +++ nl +++ nl +++
    "  " +++ cmd +++ nl
  else if contains "401" msg || contains "unauthorized" msg || contains "credentials" msg then
    "Error: Authentication failed (Unauthorized). Your cached tokens" +++ nl +++
    "may have expired or been revoked. Re-run setup:" +++ nl +++ nl +++
    "  " +++ cmd +++ nl
  else
    "Error: Authentication failed — " +++ text +++ nl +++
    "Your cached tokens may be invalid. Re-run setup:" +++ nl +++ nl +++
    "  " +++ cmd +++ nl.

(** The message for a token store that does not exist. *)
Definition no_tokens_text (env : environment) (token_dir : string)
  (email : option string) : string :=
  "Error: No cached tokens found in " +++ token_dir +++ nl +++
  "To fix this, the user must run the setup command in their terminal:" +++ nl +++ nl +++
  "  " +++ setup_cmd env token_dir email +++ nl.

(** The code after the loop of [authenticate]. *)
Definition auth_exit (env : environment) (token_dir : string)
  (email : option string) (last_exc : option exn) : prog client :=
  emit (PrintErr (auth_failure_text env token_dir email last_exc)) ;;;
  sys_exit 1.

(** The loop [for attempt in range(5)] over the attempts still to make. *)
Fixpoint auth_loop (env : environment) (token_dir : string) (email : option string)
  (attempts : list nat) (last_exc : option exn) : prog client :=
  match attempts with
  | [] => auth_exit env token_dir email last_exc
  | attempt :: attempts' =>
      emit (Login token_dir) ;;;
      match login env attempt with
      | Ok _ => ret (session env)
      | Raise e =>
          match exn_class e with
          | FileNotFoundError =>
              emit (PrintErr (no_tokens_text env token_dir email)) ;;;
              sys_exit 1
          | _ =>
              if (attempt <? 4)%nat && is_transient e then
                emit (Sleep (2 * (Z.of_nat attempt + 1))) ;;;
                auth_loop env token_dir email attempts' (Some e)
              else auth_exit env token_dir email (Some e)
          end
      end
  end.

Definition authenticate (env : environment) (token_dir : string) (email : option string)
  : prog client :=
  auth_loop env token_dir email (seq 0 5) None.

(** ** The run *)

(** The command-line arguments after parsing. *)
Record args : Type := {
  arg_setup : bool;
  arg_email : option string;
  arg_date : option string;
  arg_days : option Z;
  arg_verbose : bool;
  arg_output_dir : string;
  arg_token_dir : option string
}.

(** The first and last ordinals of a [date]. *)
Definition date_min : Z := 1.
Definition date_max : Z := 3652059.

(** [d - timedelta(days=i)]. *)
Definition date_sub_days (d i : Z) : result Z :=
  if (Z.abs i <=? 999999999) && (date_min <=? d - i) && (d - i <=? date_max)
  then Ok (d - i)
  else raise OverflowError.

(** [range(n)]. *)
Definition range (n : Z) : list Z := map Z.of_nat (seq 0 (Z.to_nat n)).

(** [sorted(days)]. *)
Fixpoint insert_sorted (x : Z) (l : list Z) : list Z :=
  match l with
  | [] => [x]
  | y :: l' => if x <=? y then x :: l else y :: insert_sorted x l'
  end.

Fixpoint sorted (l : list Z) : list Z :=
  match l with
  | [] => []
  | x :: l' => insert_sorted x (sorted l')
  end.

Definition nonempty (o : option string) : option string :=
  match o with
  | Some t => if String.eqb t "" then None else Some t
  | None => None
  end.

(** "Determine which days to sync". *)
Definition select_days (env : environment) (a : args) : prog (list Z) :=
  let count := match arg_days a with Some n => n | None => 0 end in
  if negb (count =? 0) then
    lift (for_each (fun i => d <- date_sub_days (today env) i ;; Ok [d]) (range count))
  else
    match nonempty (arg_date a) with
    | Some text =>
        match fromisoformat py text with
        | Some d => ret [d]
        | None =>
            emit (PrintErr ("Error: Invalid date format '" +++ text +++
                            "'. Use YYYY-MM-DD.")) ;;;
            sys_exit 1
        end
    | None => ret [today env]
    end.

(** [for day in days: sync_day(client, day, output_dir)]. *)
Fixpoint sync_all (env : environment) (c : client) (days : list Z) (output_dir : string)
  : prog unit :=
  match days with
  | [] => ret tt
  | day :: days' =>
      sync_day env c day output_dir ;;;
      sync_all env c days' output_dir
  end.

(** [re.sub(r"[^a-zA-Z0-9._-]", "_", email)]: one underscore for every code
    point outside the class. *)
Definition is_safe_char (c : ascii) : bool :=
  let n := nat_of_ascii c in
  is_lower_az c || is_upper_AZ c || ((48 <=? n)%nat && (n <=? 57)%nat) ||
  (n =? 46)%nat || (n =? 95)%nat || (n =? 45)%nat.

Fixpoint sanitize (s : string) : string :=
  match s with
  | EmptyString => EmptyString
  | String c s' =>
      if is_continuation c then sanitize s'
      else String (if is_safe_char c then c else "_"%char) (sanitize s')
  end.

Definition get_token_dir (env : environment) (email arg_token_dir : option string)
  : string :=
  match nonempty arg_token_dir with
  | Some d => path_of env d
  | None =>
      match nonempty (env_token_dir env) with
      | Some d => path_of env d
      | None =>
          match nonempty email with
          | Some e => path_child env (default_token_dir env) (sanitize e)
          | None => default_token_dir env
          end
      end
  end.

(** [main], with the interactive [setup] flow left to its caller. *)
Definition main (env : environment) (setup : string -> string -> prog unit) (a : args)
  : prog unit :=
  let token_dir := get_token_dir env (arg_email a) (arg_token_dir a) in
  if arg_setup a then
    match nonempty (arg_email a) with
    | None =>
        emit (PrintErr "Error: --email is required with --setup.") ;;;
        sys_exit 1
    | Some e => setup e token_dir
    end
  else
    let output_dir := path_of env (arg_output_dir a) in
    let output_dir := if negb (is_absolute env output_dir)
                      then path_child env (base_dir env) output_dir else output_dir in
    days <~ select_days env a ;;
    emit (Print ("Authenticating with Garmin Connect (tokens: " +++ token_dir +++ ")...")) ;;;
    c <~ authenticate env token_dir (arg_email a) ;;
    emit (Print ("Syncing " +++ string_of_Z (Z.of_nat (List.length days)) +++ " day(s)...")) ;;;
    sync_all env c (sorted days) output_dir ;;;
    emit (Print "Done.").

End Script.

(** ** A concrete interpreter for running examples

    The builtins of CPython 3.11 on Linux, with the C locale and UTC as the
    local zone, on ASCII text: [title_string], [lower_string] and
    [parse_int] leave bytes above 127 alone, where Python consults the
    Unicode tables.  [float_repr], [float_comma], [float_round1],
    [container_str] and [list_gt] are stand-ins: no example below reaches
    them.  Every theorem that is not a closed example holds for all
    [builtins]. *)

Definition ascii_lower (c : ascii) : ascii :=
  if is_upper_AZ c then ascii_of_nat (nat_of_ascii c + 32) else c.

Definition ascii_upper (c : ascii) : ascii :=
  if is_lower_az c then ascii_of_nat (nat_of_ascii c - 32) else c.

Fixpoint lower_string (s : string) : string :=
  match s with
  | EmptyString => EmptyString
  | String c s' => String (ascii_lower c) (lower_string s')
  end.

(** Title case: a letter after a non-letter is upper-cased, the others are
    lower-cased. *)
Fixpoint title_string (in_word : bool) (s : string) : string :=
  match s with
  | EmptyString => EmptyString
  | String c s' =>
      let letter := is_lower_az c || is_upper_AZ c in
      String (if in_word then ascii_lower c else ascii_upper c) (title_string letter s')
  end.

Definition is_digit (c : ascii) : bool :=
  let n := nat_of_ascii c in (48 <=? n)%nat && (n <=? 57)%nat.

Definition digit_value (c : ascii) : Z := Z.of_nat (nat_of_ascii c - 48).

(** The whole text is decimal digits. *)
Fixpoint parse_digits (acc : Z) (s : string) : option Z :=
  match s with
  | EmptyString => Some acc
  | String c s' =>
      if is_digit c then parse_digits (10 * acc + digit_value c) s' else None
  end.

(** The white space that [int] skips around a numeral. *)
Definition is_space (c : ascii) : bool :=
  let n := nat_of_ascii c in (n =? 32)%nat || ((9 <=? n)%nat && (n <=? 13)%nat).

Fixpoint lstrip (s : string) : string :=
  match s with
  | String c s' => if is_space c then lstrip s' else s
  | EmptyString => EmptyString
  end.

Fixpoint rstrip (s : string) : string :=
  match s with
  | EmptyString => EmptyString
  | String c s' =>
      match rstrip s' with
      | EmptyString => if is_space c then EmptyString else String c EmptyString
      | rest => String c rest
      end
  end.

(** Digits in which single underscores may stand between two digits;
    [after_digit] tells that the byte before was a digit. *)
Fixpoint parse_grouped (after_digit : bool) (acc : Z) (s : string) : option Z :=
  match s with
  | EmptyString => if after_digit then Some acc else None
  | String c s' =>
      if is_digit c then parse_grouped true (10 * acc + digit_value c) s'
      else if Ascii.eqb c "_" && after_digit then parse_grouped false acc s'
      else None
  end.

(** [int(s)] in base 10: white space around, a sign, grouped digits. *)
Definition parse_int (s : string) : option Z :=
  match rstrip (lstrip s) with
  | String "-" s' => option_map Z.opp (parse_grouped false 0 s')
  | String "+" s' => parse_grouped false 0 s'
  | s' => parse_grouped false 0 s'
  end.

(** Year, month and day of a proleptic Gregorian ordinal (day 1 is
    0001-01-01). *)
Definition civil_of_ordinal (n : Z) : Z * Z * Z :=
  let z := n + 305 in
  let era := z / 146097 in
  let doe := z - era * 146097 in
  let yoe := (doe - doe / 1460 + doe / 36524 - doe / 146096) / 365 in
  let doy := doe - (365 * yoe + yoe / 4 - yoe / 100) in
  let mp := (5 * doy + 2) / 153 in
  let d := doy - (153 * mp + 2) / 5 + 1 in
  let m := if mp <? 10 then mp + 3 else mp - 9 in
  let y := yoe + era * 400 + (if m <=? 2 then 1 else 0) in
  (y, m, d).

Definition ordinal_of_civil (y m d : Z) : Z :=
  let y' := if m <=? 2 then y - 1 else y in
  let era := y' / 400 in
  let yoe := y' - era * 400 in
  let mp := if 2 <? m then m - 3 else m + 9 in
  let doy := (153 * mp + 2) / 5 + d - 1 in
  let doe := yoe * 365 + yoe / 4 - yoe / 100 + doy in
  era * 146097 + doe - 305.

Definition iso_of_ordinal (n : Z) : string :=
  let '(y, m, d) := civil_of_ordinal n in
  pad_zeros 4 (string_of_Z y) +++ "-" +++ fmt_02d m +++ "-" +++ fmt_02d d.

Definition weekday_name (n : Z) : string :=
  nth (Z.to_nat ((n + 6) mod 7))
      ["Monday"; "Tuesday"; "Wednesday"; "Thursday"; "Friday"; "Saturday"; "Sunday"] "".

Definition month_name (m : Z) : string :=
  nth (Z.to_nat (m - 1))
      ["January"; "February"; "March"; "April"; "May"; "June"; "July"; "August";
       "September"; "October"; "November"; "December"] "".

(** [day.strftime("%A, %B %-d, %Y")]: glibc does not pad the year. *)
Definition long_of_ordinal (n : Z) : string :=
  let '(y, m, d) := civil_of_ordinal n in
  weekday_name n +++ ", " +++ month_name m +++ " " +++ string_of_Z d +++ ", " +++
  string_of_Z y.

(** Exactly [k] digits at the position [pos] of [s]. *)
Definition digits_at (pos k : nat) (s : string) : option Z :=
  let part := substring pos k s in
  if (String.length part =? k)%nat then parse_digits 0 part else None.

Definition byte_at (pos : nat) (s : string) : option ascii := String.get pos s.

Definition is_byte (c : ascii) (o : option ascii) : bool :=
  match o with Some a => Ascii.eqb a c | None => false end.

(** The ordinal of a date given as year, month and day, when there is such
    a day in the years 1 to 9999. *)
Definition ordinal_of_ymd (y m d : Z) : option Z :=
  let n := ordinal_of_civil y m d in
  if (1 <=? y) && (y <=? 9999) && (1 <=? m) && (m <=? 12) && (1 <=? d) &&
     (let '(y', m', d') := civil_of_ordinal n in (y' =? y) && (m' =? m) && (d' =? d))
  then Some n else None.

Definition is_leap (y : Z) : bool :=
  (y mod 4 =? 0) && (negb (y mod 100 =? 0) || (y mod 400 =? 0)).

(** The Monday that starts the ISO week 1 of a year. *)
Definition iso_week1_monday (y : Z) : Z :=
  let first_day := ordinal_of_civil y 1 1 in
  let first_weekday := (first_day + 6) mod 7 in
  let week1_monday := first_day - first_weekday in
  if 3 <? first_weekday then week1_monday + 7 else week1_monday.

(** The ordinal of the day [d] of the ISO week [w] of the year [y]. *)
Definition ordinal_of_iso_week (y w d : Z) : option Z :=
  let first_weekday := (ordinal_of_civil y 1 1 + 6) mod 7 in
  let long_year := (first_weekday =? 3) || ((first_weekday =? 2) && is_leap y) in
  if ((1 <=? w) && (w <=? 52) || (w =? 53) && long_year) && (1 <=? d) && (d <=? 7) then
    let n := iso_week1_monday y + (w - 1) * 7 + (d - 1) in
    if (1 <=? n) && (n <=? 3652059) then Some n else None
  else None.

(** [date.fromisoformat(s)], [None] when it raises ValueError.  A text of
    7, 8 or 10 bytes is read as a calendar date (YYYY-MM-DD, YYYYMMDD) or as
    a week date (YYYY-Www-D, YYYYWwwD, and without the day); what follows a
    date that is complete before the end of the text is not looked at. *)
Definition ordinal_of_iso (s : string) : option Z :=
  let len := String.length s in
  if (len =? 7)%nat || (len =? 8)%nat || (len =? 10)%nat then
    match digits_at 0 4 s with
    | None => None
    | Some y =>
        let dashed := is_byte "-" (byte_at 4 s) in
        let pos := if dashed then 5%nat else 4%nat in
        if is_byte "W" (byte_at pos s) then
          match digits_at (pos + 1) 2 s with
          | None => None
          | Some w =>
              if (pos + 3 <? len)%nat then
                if dashed && negb (is_byte "-" (byte_at (pos + 3) s)) then None
                else
                  match digits_at (if dashed then pos + 4 else pos + 3) 1 s with
                  | Some d => ordinal_of_iso_week y w d
                  | None => None
                  end
              else ordinal_of_iso_week y w 1
          end
        else
          match digits_at pos 2 s with
          | None => None
          | Some m =>
              if dashed && negb (is_byte "-" (byte_at (pos + 2) s)) then None
              else
                match digits_at (if dashed then pos + 3 else pos + 2) 2 s with
                | Some d => ordinal_of_ymd y m d
                | None => None
                end
          end
    end
  else None.

(** [datetime.fromtimestamp(x).strftime("%H:%M")] in UTC.  The timestamp
    is rounded to microseconds, ties to even, as the interpreter does it: the
    fraction times 1e6 is computed in binary64 and carries into the seconds
    from 999999.5 on.  A time before 0001-01-02 (the interpreter also looks
    at the day before, for a fold) or after the year 9999 raises; the class of
    that error depends on the platform and the script catches every class. *)
Definition utc_hm (x : spec_float) : result string :=
  whole <- float_trunc x ;;
  let micros := fmul (fsub x (float_lit whole)) (float_lit 1000000) in
  let up := match SFcompare micros (fdiv (float_lit 1999999) (float_lit 2)) with
            | Some Lt | None => false
            | _ => true
            end in
  let down := match SFcompare micros (fdiv (float_lit (-1)) (float_lit 2)) with
              | Some Lt => true
              | _ => false
              end in
  let n := if up then whole + 1 else if down then whole - 1 else whole in
  if (n <? -62135510400) || (253402300799 <? n) then raise ValueError
  else Ok (fmt_02d ((n / 3600) mod 24) +++ ":" +++ fmt_02d ((n / 60) mod 60)).

Definition ascii_builtins : builtins := {|
  str_title := title_string false;
  str_lower := lower_string;
  int_of_str := parse_int;
  float_repr := float_fixed 1;
  float_comma := float_fixed 1;
  container_str := fun _ => "[...]";
  list_gt := fun _ _ => Ok false;
  float_round1 := fun x => x;
  local_hm := utc_hm;
  isoformat := iso_of_ordinal;
  strftime_long := long_of_ordinal;
  fromisoformat := ordinal_of_iso
|}.

(** A client whose every endpoint answers with the same result. *)
Definition constant_client (r : result json) : client := {|
  get_sleep_data := fun _ => r;
  get_lifestyle_logging_data := fun _ => r;
  get_user_summary := fun _ => r;
  get_heart_rates := fun _ => r;
  get_body_battery := fun _ _ => r;
  get_hrv_data := fun _ => r;
  get_spo2_data := fun _ => r;
  get_daily_weigh_ins := fun _ => r;
  get_all_day_stress := fun _ => r;
  get_training_readiness := fun _ => r;
  get_respiration_data := fun _ => r;
  get_fitnessage_data := fun _ => r;
  get_intensity_minutes_data := fun _ => r;
  get_activities_by_date := fun _ _ => r
|}.

(** The service is unreachable: every call raises. *)
Definition offline_client : client :=
  constant_client (Raise (Exn OtherError "Connection refused")).

(** ** Vocabulary of the properties *)

(** The band of an integer stress level, by the thresholds of the
    specification. *)
Definition stress_band (avg : Z) : string :=
  if avg <? 26 then "Rest"
  else if avg <? 51 then "Low"
  else if avg <? 76 then "Medium"
  else "High".

(** The rendering of a whole number of seconds as hours and minutes. *)
Definition duration_text (n : Z) : string :=
  string_of_Z (n / 60 / 60) +++ "h " +++ fmt_02d (n / 60 mod 60) +++ "m".

(** The heuristic of the specification: a sleep need below 1440 is in
    minutes. *)
Definition reinterpret_sleep_need (raw : Z) : Z :=
  if raw <? 1440 then raw * 60 else raw.

(** The sleep need given as a bare number. *)
Definition sleep_need_bare (daily : json) : option Z :=
  match daily with
  | JDict d =>
      match dict_get d "sleepNeed" with
      | Some (JInt n) => if n =? 0 then None else Some n
      | _ => None
      end
  | _ => None
  end.

Definition field (d : list (string * json)) (key : string) : json :=
  match dict_get d key with Some v => v | None => JNone end.

Definition nonzero_int (v : json) : option Z :=
  match v with
  | JInt n => if n =? 0 then None else Some n
  | _ => None
  end.

Definition absent_or_zero (v : json) : bool :=
  match v with
  | JNone => true
  | JInt n => n =? 0
  | _ => false
  end.

(** The sleep need given inside a dict: the number under the first of the
    keys [actual], [value], [duration] that is not absent or zero, and the
    number under [duration] when the first two are absent or zero. *)
Definition sleep_need_nested (daily : json) : option Z :=
  match daily with
  | JDict d =>
      match dict_get d "sleepNeed" with
      | Some (JDict ((_ :: _) as sn)) =>
          match nonzero_int (field sn "actual") with
          | Some n => Some n
          | None =>
              if absent_or_zero (field sn "actual") then
                match nonzero_int (field sn "value") with
                | Some n => Some n
                | None =>
                    if absent_or_zero (field sn "value") then
                      match field sn "duration" with
                      | JInt n => Some n
                      | _ => None
                      end
                    else None
                end
              else None
          end
      | _ => None
      end
  | _ => None
  end.

(** The sleep need of a response, in either shape. *)
Definition sleep_need_raw (daily : json) : option Z :=
  match sleep_need_bare daily with
  | Some n => Some n
  | None => sleep_need_nested daily
  end.

(** The claim under test: whatever the shape, a sleep need below 1440 is
    rendered as that many minutes. *)
Definition sleep_need_claim (py : builtins) : Prop :=
  forall daily raw,
    sleep_need_raw daily = Some raw ->
    sleep_need_lines py daily =
      Ok ["Sleep Need: " +++ duration_text (reinterpret_sleep_need raw)].

(** A night of 7h30 with a sleep need of 480 given as a bare number, and the
    same with the need inside a dict. *)
Definition bare_need_daily : json :=
  JDict [("sleepTimeSeconds", JInt 27000); ("sleepNeed", JInt 480)].

Definition nested_need_daily : json :=
  JDict [("sleepTimeSeconds", JInt 27000);
         ("sleepNeed", JDict [("baseline", JInt 470); ("actual", JInt 480)])].

(** The client whose sleep endpoint answers [daily], the others failing. *)
Definition sleep_only_client (daily : json) : client := {|
  get_sleep_data := fun _ => Ok (JDict [("dailySleepDTO", daily)]);
  get_lifestyle_logging_data := get_lifestyle_logging_data offline_client;
  get_user_summary := get_user_summary offline_client;
  get_heart_rates := get_heart_rates offline_client;
  get_body_battery := get_body_battery offline_client;
  get_hrv_data := get_hrv_data offline_client;
  get_spo2_data := get_spo2_data offline_client;
  get_daily_weigh_ins := get_daily_weigh_ins offline_client;
  get_all_day_stress := get_all_day_stress offline_client;
  get_training_readiness := get_training_readiness offline_client;
  get_respiration_data := get_respiration_data offline_client;
  get_fitnessage_data := get_fitnessage_data offline_client;
  get_intensity_minutes_data := get_intensity_minutes_data offline_client;
  get_activities_by_date := get_activities_by_date offline_client
|}.

(** A source is missing when its call raised or returned None. *)
Definition missing (m : result json) : Prop := or_none m = JNone.


(** What the endpoints of the body section gave, told from their answers
    alone. *)

(** The call returned something that Python takes as true. *)
Definition answered (m : result json) : Prop :=
  exists v, m = Ok v /\ truthy v = true.


(** The charged values of the samples of a day: of each sample, a dict, its
    [chargedValue] when it has one that is not None; there are none to speak
    of when a sample is not a dict. *)
Fixpoint charges (samples : list json) : option (list json) :=
  match samples with
  | [] => Some []
  | JDict d :: samples' =>
      match charges samples' with
      | Some values =>
          Some (match dict_get d "chargedValue" with
                | None | Some JNone => values
                | Some v => v :: values
                end)
      | None => None
      end
  | _ :: _ => None
  end.

(** The body-battery endpoint gave the value [v]: a list of samples whose
    charged values have [v] as their greatest. *)
Definition battery_given (py : builtins) (m : result json) (v : json) : Prop :=
  exists samples values,
    m = Ok (JList samples) /\ charges samples = Some values /\ py_max py values = Ok v.


(** The fragments of the nine fetchers for one day, in the order of the
    document. *)
Record fragments : Type := {
  f_sleep : option string;
  f_lifestyle : option string;
  f_body : option string;
  f_stress : option string;
  f_readiness : option string;
  f_respiration : option string;
  f_fitness_age : option string;
  f_intensity : option string;
  f_activities : option string
}.

Definition fragment_list (f : fragments) : list (option string) :=
  [f_sleep f; f_lifestyle f; f_body f; f_stress f; f_readiness f; f_respiration f;
   f_fitness_age f; f_intensity f; f_activities f].

(** The nine fetchers returned the fragments [f]. *)
Definition fetched (py : builtins) (c : client) (day : string) (f : fragments) : Prop :=
  fetch_sleep py c day = Ok (f_sleep f) /\
  fetch_lifestyle py c day = Ok (f_lifestyle f) /\
  fetch_body py c day = Ok (f_body f) /\
  fetch_stress py c day = Ok (f_stress f) /\
  fetch_training_readiness py c day = Ok (f_readiness f) /\
  fetch_respiration c day = Ok (f_respiration f) /\
  fetch_fitness_age py c day = Ok (f_fitness_age f) /\
  fetch_intensity_minutes py c day = Ok (f_intensity f) /\
  fetch_activities py c day = Ok (f_activities f).

Definition no_fragments : fragments :=
  {| f_sleep := None; f_lifestyle := None; f_body := None; f_stress := None;
     f_readiness := None; f_respiration := None; f_fitness_age := None;
     f_intensity := None; f_activities := None |}.

(** The answers of a day on which the service has sleep, stress,
    fitness-age and intensity-minutes data; its other endpoints fail. *)
Definition four_answers_client (stress : json) : client := {|
  get_sleep_data :=
    fun _ => Ok (JDict [("dailySleepDTO", JDict [("sleepTimeSeconds", JInt 27000)])]);
  get_lifestyle_logging_data := get_lifestyle_logging_data offline_client;
  get_user_summary := get_user_summary offline_client;
  get_heart_rates := get_heart_rates offline_client;
  get_body_battery := get_body_battery offline_client;
  get_hrv_data := get_hrv_data offline_client;
  get_spo2_data := get_spo2_data offline_client;
  get_daily_weigh_ins := get_daily_weigh_ins offline_client;
  get_all_day_stress := fun _ => Ok stress;
  get_training_readiness := get_training_readiness offline_client;
  get_respiration_data := get_respiration_data offline_client;
  get_fitnessage_data :=
    fun _ => Ok (JDict [("fitnessAge", JInt 30); ("chronologicalAge", JInt 35)]);
  get_intensity_minutes_data := fun _ => Ok (JDict [("weeklyTotal", JInt 150)]);
  get_activities_by_date := get_activities_by_date offline_client
|}.

(** What a fetcher contributes to the document of the specification: its
    fragment, and nothing when it has none to give. *)
Definition contribution (m : result (option string)) : option string :=
  match m with
  | Ok o => o
  | Raise _ => None
  end.

Definition contributions (py : builtins) (c : client) (day : string)
  : list (option string) :=
  [contribution (fetch_sleep py c day);
   contribution (fetch_lifestyle py c day);
   contribution (fetch_body py c day);
   contribution (fetch_stress py c day);
   contribution (fetch_training_readiness py c day);
   contribution (fetch_respiration c day);
   contribution (fetch_fitness_age py c day);
   contribution (fetch_intensity_minutes py c day);
   contribution (fetch_activities py c day)].

(** The fragments that are present, in order. *)
Fixpoint present (l : list (option string)) : list string :=
  match l with
  | [] => []
  | Some text :: l' => text :: present l'
  | None :: l' => present l'
  end.

(** The claim under test: on a day on which a fetcher returns a fragment,
    the document is the title and the fragments of the fetchers, in order. *)
Definition document_order_claim (py : builtins) : Prop :=
  forall (c : client) (day : Z),
    present (contributions py c (isoformat py day)) <> [] ->
    day_sections py c day =
      Ok (("# Health — " +++ strftime_long py day) ::
          present (contributions py c (isoformat py day))).


(** The events of the attempt number [k] when it fails and is retried. *)
Definition retry_events (token_dir : string) (k : nat) : list event :=
  [Login token_dir; Sleep (2 * (Z.of_nat k + 1))].

Definition retries (token_dir : string) (n : nat) : list event :=
  flat_map (retry_events token_dir) (seq 0 n).

(** The durations slept and the number of login calls in a trace. *)
Fixpoint sleeps_of (evs : list event) : list Z :=
  match evs with
  | [] => []
  | Sleep d :: evs' => d :: sleeps_of evs'
  | _ :: evs' => sleeps_of evs'
  end.

Fixpoint logins_of (evs : list event) : nat :=
  match evs with
  | [] => O
  | Login _ :: evs' => S (logins_of evs')
  | _ :: evs' => logins_of evs'
  end.

(** A failure the loop retries: not a missing token store, and the text of
    the known transient condition. *)
Definition transient_failure (py : builtins) (m : result unit) : Prop :=
  exists e, m = Raise e /\ exn_class e <> FileNotFoundError /\ is_transient py e = true.

(** No file-system event. *)
Definition touches_files (e : event) : bool :=
  match e with
  | Mkdir _ | WriteText _ _ => true
  | _ => false
  end.

(** [P] holds of the value a computation returns, if it returns. *)
Definition on_ok {A : Type} (P : A -> Prop) (m : result A) : Prop :=
  match m with
  | Ok a => P a
  | Raise _ => True
  end.

(** A fragment, when there is one, is not the empty text. *)
Definition is_fragment (o : option string) : Prop :=
  match o with
  | Some text => text <> ""
  | None => True
  end.

(** The lines of a fragment start with a non-empty line. *)
Definition is_fragment_lines (o : option (list string)) : Prop :=
  match o with
  | Some (String _ _ :: _) => True
  | Some _ => False
  | None => True
  end.

(** The service answers the stress endpoint only. *)
Definition stress_only_client (r : result json) : client := {|
  get_sleep_data := get_sleep_data offline_client;
  get_lifestyle_logging_data := get_lifestyle_logging_data offline_client;
  get_user_summary := get_user_summary offline_client;
  get_heart_rates := get_heart_rates offline_client;
  get_body_battery := get_body_battery offline_client;
  get_hrv_data := get_hrv_data offline_client;
  get_spo2_data := get_spo2_data offline_client;
  get_daily_weigh_ins := get_daily_weigh_ins offline_client;
  get_all_day_stress := fun _ => r;
  get_training_readiness := get_training_readiness offline_client;
  get_respiration_data := get_respiration_data offline_client;
  get_fitnessage_data := get_fitnessage_data offline_client;
  get_intensity_minutes_data := get_intensity_minutes_data offline_client;
  get_activities_by_date := get_activities_by_date offline_client
|}.

(** POSIX paths, as [pathlib.PurePosixPath] has them.  The text of a path
    is its root ("/", or "//" for exactly two leading slashes) followed by
    its components joined with "/"; empty components and "." are dropped,
    ".." is kept; the path without root and components is ".". *)
Fixpoint split_slash (cur : string) (s : string) : list string :=
  match s with
  | EmptyString => [cur]
  | String c s' =>
      if Ascii.eqb c "/" then cur :: split_slash EmptyString s'
      else split_slash (cur +++ String c EmptyString) s'
  end.

Definition posix_root (s : string) : string :=
  if String.prefix "//" s && negb (String.prefix "///" s) then "//"
  else if String.prefix "/" s then "/"
  else "".

Definition posix_path (s : string) : string :=
  let parts := filter (fun part => negb (String.eqb part "") && negb (String.eqb part "."))
                      (split_slash EmptyString s) in
  match posix_root s, parts with
  | EmptyString, [] => "."
  | root, _ => root +++ join "/" parts
  end.

Fixpoint ends_with_slash (s : string) : bool :=
  match s with
  | EmptyString => false
  | String c EmptyString => Ascii.eqb c "/"
  | String _ s' => ends_with_slash s'
  end.

(** [p / name]: an absolute [name] replaces [p]. *)
Definition posix_child (p name : string) : string :=
  posix_path (if String.prefix "/" name then name
              else if String.eqb p "" || ends_with_slash p then p +++ name
              else p +++ "/" +++ name).

Definition posix_is_absolute (p : string) : bool := String.prefix "/" p.

(** A run on 2026-11-04 whose [login] answers as [answers] tells. *)
Definition sample_env (answers : nat -> result unit) (c : client) : environment := {|
  today := 739924;
  login := answers;
  session := c;
  default_token_dir := "/home/user/.garminconnect";
  base_dir := "/home/user/garminskill";
  env_token_dir := None;
  path_of := posix_path;
  path_child := posix_child;
  is_absolute := posix_is_absolute
|}.


(** The computation does not raise ZeroDivisionError. *)
Definition zde_free {A : Type} (m : result A) : Prop :=
  raises_kind ZeroDivisionError m = false.

(** A run with a speed of zero. *)
Definition stopped_client : client := {|
  get_sleep_data := get_sleep_data offline_client;
  get_lifestyle_logging_data := get_lifestyle_logging_data offline_client;
  get_user_summary := get_user_summary offline_client;
  get_heart_rates := get_heart_rates offline_client;
  get_body_battery := get_body_battery offline_client;
  get_hrv_data := get_hrv_data offline_client;
  get_spo2_data := get_spo2_data offline_client;
  get_daily_weigh_ins := get_daily_weigh_ins offline_client;
  get_all_day_stress := get_all_day_stress offline_client;
  get_training_readiness := get_training_readiness offline_client;
  get_respiration_data := get_respiration_data offline_client;
  get_fitnessage_data := get_fitnessage_data offline_client;
  get_intensity_minutes_data := get_intensity_minutes_data offline_client;
  get_activities_by_date :=
    fun _ _ => Ok (JList [JDict [("activityName", JStr "Treadmill");
                                 ("duration", JInt 125);
                                 ("distance", JInt 5000);
                                 ("averageSpeed", JInt 0)]])
|}.

(** A login that fails [fails] times with the transient error of the
    service, then succeeds. *)
Definition flaky_login (fails : nat) : nat -> result unit :=
  fun attempt =>
    if (attempt <? fails)%nat
    then Raise (Exn OtherError "GarminConnectConnectionError: No profile from connectapi")
    else Ok tt.

(** [--days n] and nothing else on the command line. *)
Definition days_args (n : Z) : args := {|
  arg_setup := false;
  arg_email := None;
  arg_date := None;
  arg_days := Some n;
  arg_verbose := false;
  arg_output_dir := "health";
  arg_token_dir := None
|}.

(** The setup flow is not entered by a sync run. *)
Definition no_setup : string -> string -> prog unit := fun _ _ => ret tt.

(** The claim under test: whatever the service answers, the fetcher
    returns. *)
Definition never_raises (fetch : client -> string -> result (option string)) : Prop :=
  forall c day, is_ok (fetch c day) = true.

(** The call raised. *)
Definition failed (m : result json) : Prop := exists e, m = Raise e.

(** Responses of an unexpected shape, one for each fetcher. *)
Definition null_scores_daily : json :=
  JDict [("sleepTimeSeconds", JInt 27000); ("sleepScores", JNone)].

Definition null_details_logs : json :=
  JDict [("dailyLogsReport",
          JList [JDict [("logStatus", JStr "YES"); ("name", JStr "Alcohol");
                        ("details", JNone)]])].

Definition text_steps_summary : json := JDict [("totalSteps", JStr "n/a")].

Definition text_stress : json := JDict [("overallStressLevel", JStr "high")].

Definition null_level_readiness : json :=
  JList [JDict [("score", JInt 70); ("level", JNone)]].

Definition text_respiration : json := JDict [("avgWakingRespirationValue", JStr "14")].

Definition text_age : json :=
  JDict [("fitnessAge", JInt 30); ("chronologicalAge", JStr "35")].

Definition list_intensity : json := JList [JDict [("weeklyTotal", JInt 30)]].

Definition text_distance_activities : json :=
  JList [JDict [("activityName", JStr "Run"); ("distance", JStr "5 km")]].


(** ** The one-time setup

    [setup] asks for the password, logs in with it and caches the tokens.
    Its trace has the events of a sync run and three of its own. *)
Inductive setup_event : Type :=
| Getpass (prompt : string)
| PasswordLogin (email : string)
| DumpTokens (tokenstore : string)
| Also (e : event).

(** What [setup] meets: the password typed at the prompt and, for the
    attempt number [n], the outcome of [client.login()] and of
    [client.garth.dump(tokenstore)]. *)
Record setup_world : Type := {
  typed_password : string;
  password_login : nat -> result unit;
  dump_tokens : nat -> result unit
}.

Section Setup.

Variable py : builtins.
Variable sw : setup_world.

(** The loop [for attempt in range(3)] over the attempts still to make: its
    events and the value of [last_exc] after it. *)
Fixpoint setup_loop (email tokenstore : string) (attempts : list nat)
  (last_exc : option exn) : list setup_event * option exn :=
  match attempts with
  | [] => ([], last_exc)
  | attempt :: attempts' =>
      let on_error (e : exn) : list setup_event * option exn :=
        if (attempt <? 2)%nat && is_transient py e then
          let '(evs, last) := setup_loop email tokenstore attempts' (Some e) in
          (Also (Sleep (2 ^ Z.of_nat attempt)) :: evs, last)
        else ([], Some e) in
      match password_login sw attempt with
      | Ok _ =>
          match dump_tokens sw attempt with
          | Ok _ => ([PasswordLogin email; DumpTokens tokenstore], None)
          | Raise e =>
              let '(evs, last) := on_error e in
              (PasswordLogin email :: DumpTokens tokenstore :: evs, last)
          end
      | Raise e =>
          let '(evs, last) := on_error e in
          (PasswordLogin email :: evs, last)
      end
  end.

(** The hint printed after the error, chosen from its text. *)
Definition setup_guidance (e : exn) : list setup_event :=
  let msg := str_lower py (exn_msg e) in
  if contains "no profile" msg || contains "connectapi" msg then
    [Also (PrintErr
       (nl +++ "This usually means Garmin's servers are temporarily blocking requests." +++ nl +++
        "Try again in a few minutes. If it persists, double-check your password."))]
  else if contains "401" msg || contains "unauthorized" msg || contains "credentials" msg then
    [Also (PrintErr
       (nl +++ "Double-check your email and password. If you have two-factor" +++ nl +++
        "authentication (2FA) enabled on your Garmin account, you may need" +++ nl +++
        "to disable it — the garminconnect library does not support 2FA."))]
  else if contains "cloudflare" msg || contains "captcha" msg || contains "403" msg then
    [Also (PrintErr
       (nl +++ "Garmin's Cloudflare protection may be blocking this request." +++ nl +++
        "Wait a few minutes and try again."))]
  else [].

Definition setup (email token_dir : string) : list setup_event * outcome unit :=
  let asked := Getpass ("Garmin Connect password for " +++ email +++ ": ") in
  if String.eqb (typed_password sw) "" then
    ([asked; Also (PrintErr "Error: Password cannot be empty.")], SystemExit 1)
  else
    let '(evs, last_exc) := setup_loop email token_dir (seq 0 3) None in
    match last_exc with
    | Some e =>
        ([asked; Also (Mkdir token_dir)] ++ evs ++
         [Also (PrintErr ("Error: Authentication failed — " +++ exn_msg e))] ++
         setup_guidance e,
         SystemExit 1)
    | None =>
        ([asked; Also (Mkdir token_dir)] ++ evs ++
         [Also (Print ("Success! Tokens cached in " +++ token_dir));
          Also (Print "You can now run the sync command without credentials.")],
         Returned tt)
    end.

End Setup.

(** The password logins, the token dumps and the sleeps of a setup trace. *)
Fixpoint password_logins (evs : list setup_event) : nat :=
  match evs with
  | [] => O
  | PasswordLogin _ :: evs' => S (password_logins evs')
  | _ :: evs' => password_logins evs'
  end.

Fixpoint setup_sleeps (evs : list setup_event) : list Z :=
  match evs with
  | [] => []
  | Also (Sleep d) :: evs' => d :: setup_sleeps evs'
  | _ :: evs' => setup_sleeps evs'
  end.

Definition is_dump (e : setup_event) : bool :=
  match e with DumpTokens _ => true | _ => false end.

Definition is_success_print (e : setup_event) : bool :=
  match e with
  | Also (Print text) => String.prefix "Success!" text
  | _ => false
  end.

(** A setup in which the first [fails] logins meet the transient error. *)
Definition flaky_setup (password : string) (fails : nat) : setup_world := {|
  typed_password := password;
  password_login := flaky_login fails;
  dump_tokens := fun _ => Ok tt
|}.

(** ** More vocabulary *)

(** Every byte of the text is in the class [a-zA-Z0-9._-]. *)
Fixpoint all_safe (s : string) : bool :=
  match s with
  | EmptyString => true
  | String c s' => is_safe_char c && all_safe s'
  end.

(** A log entry that was not logged as "YES". *)
Definition not_logged (log : json) : Prop :=
  exists fields, log = JDict fields /\ json_is_str (field fields "logStatus") "YES" = false.

(** Body-battery samples that carry other keys beside the charged value;
    the last one has no value. *)
Definition battery_sample (time : string) (charged : json) (drained : Z) : json :=
  JDict [("startTime", JStr time); ("chargedValue", charged); ("drainedValue", JInt drained)].

Definition battery_samples : list json :=
  [battery_sample "2026-11-03T00:00" (JInt 41) 55;
   battery_sample "2026-11-03T06:00" (JInt 87) 20;
   battery_sample "2026-11-03T12:00" (JInt 63) 48;
   battery_sample "2026-11-03T18:00" JNone 0].

(** The greatest of a non-empty list. *)
Definition maximum (n : Z) (ns : list Z) : Z := fold_left Z.max ns n.

(** The text has no byte [c]. *)
Fixpoint lacks (c : ascii) (s : string) : bool :=
  match s with
  | EmptyString => true
  | String a s' => negb (Ascii.eqb a c) && lacks c s'
  end.

(** The text is made of [n] ASCII bytes. *)
Fixpoint ascii_text (n : nat) (s : string) : bool :=
  match n, s with
  | O, EmptyString => true
  | S n', String c s' => (nat_of_ascii c <? 128)%nat && ascii_text n' s'
  | _, _ => false
  end.

(** Command lines. *)
Definition date_args (text : string) : args := {|
  arg_setup := false;
  arg_email := None;
  arg_date := Some text;
  arg_days := None;
  arg_verbose := false;
  arg_output_dir := "health";
  arg_token_dir := None
|}.

Definition bare_args : args := {|
  arg_setup := false;
  arg_email := None;
  arg_date := None;
  arg_days := None;
  arg_verbose := false;
  arg_output_dir := "health";
  arg_token_dir := None
|}.

(** A login that always meets the transient error. *)
Definition never_ready : nat -> result unit := flaky_login 5.

(** A login that finds no token store. *)
Definition no_tokens : nat -> result unit :=
  fun _ => Raise (Exn FileNotFoundError "No such file or directory").

(** The command line with another [--days] or another [--date]. *)
Definition with_days (a : args) (days : option Z) : args := {|
  arg_setup := arg_setup a;
  arg_email := arg_email a;
  arg_date := arg_date a;
  arg_days := days;
  arg_verbose := arg_verbose a;
  arg_output_dir := arg_output_dir a;
  arg_token_dir := arg_token_dir a
|}.

Definition with_date (a : args) (date : option string) : args := {|
  arg_setup := arg_setup a;
  arg_email := arg_email a;
  arg_date := date;
  arg_days := arg_days a;
  arg_verbose := arg_verbose a;
  arg_output_dir := arg_output_dir a;
  arg_token_dir := arg_token_dir a
|}.

(** The files written in a trace, in order. *)
Fixpoint writes_of (evs : list event) : list string :=
  match evs with
  | [] => []
  | WriteText file _ :: evs' => file :: writes_of evs'
  | _ :: evs' => writes_of evs'
  end.

(** The paths on which a trace calls [mkdir], in order. *)
Fixpoint mkdirs_of (evs : list event) : list string :=
  match evs with
  | [] => []
  | Mkdir dir :: evs' => dir :: mkdirs_of evs'
  | _ :: evs' => mkdirs_of evs'
  end.

(** The service answers for one day only. *)
Definition one_day_client (day : string) (stress : json) : client := {|
  get_sleep_data := get_sleep_data offline_client;
  get_lifestyle_logging_data := get_lifestyle_logging_data offline_client;
  get_user_summary := get_user_summary offline_client;
  get_heart_rates := get_heart_rates offline_client;
  get_body_battery := get_body_battery offline_client;
  get_hrv_data := get_hrv_data offline_client;
  get_spo2_data := get_spo2_data offline_client;
  get_daily_weigh_ins := get_daily_weigh_ins offline_client;
  get_all_day_stress :=
    fun d => if String.eqb d day then Ok stress else Raise (Exn OtherError "HTTP 404");
  get_training_readiness := get_training_readiness offline_client;
  get_respiration_data := get_respiration_data offline_client;
  get_fitnessage_data := get_fitnessage_data offline_client;
  get_intensity_minutes_data := get_intensity_minutes_data offline_client;
  get_activities_by_date := get_activities_by_date offline_client
|}.

(** A fragment starts with the given header. *)
Definition headed (header : string) (o : option string) : Prop :=
  match o with
  | Some text => String.prefix header text = true
  | None => True
  end.

Definition headed_lines (header : string) (o : option (list string)) : Prop :=
  match o with
  | Some (line :: _) => String.prefix header line = true
  | Some [] => False
  | None => True
  end.

(** The text does not start in the middle of a code point. *)
Definition starts_clean (s : string) : bool :=
  match s with
  | EmptyString => true
  | String c _ => negb (is_continuation c)
  end.

(** The service answers the body-battery endpoint only. *)
Definition battery_client (samples : json) : client := {|
  get_sleep_data := get_sleep_data offline_client;
  get_lifestyle_logging_data := get_lifestyle_logging_data offline_client;
  get_user_summary := get_user_summary offline_client;
  get_heart_rates := get_heart_rates offline_client;
  get_body_battery := fun _ _ => Ok samples;
  get_hrv_data := get_hrv_data offline_client;
  get_spo2_data := get_spo2_data offline_client;
  get_daily_weigh_ins := get_daily_weigh_ins offline_client;
  get_all_day_stress := get_all_day_stress offline_client;
  get_training_readiness := get_training_readiness offline_client;
  get_respiration_data := get_respiration_data offline_client;
  get_fitnessage_data := get_fitnessage_data offline_client;
  get_intensity_minutes_data := get_intensity_minutes_data offline_client;
  get_activities_by_date := get_activities_by_date offline_client
|}.

(** The events of a password login that fails and is retried. *)
Definition setup_retry_events (email : string) (k : nat) : list setup_event :=
  [PasswordLogin email; Also (Sleep (2 ^ Z.of_nat k))].

(** The password login number [i] meets the transient error. *)
Definition transient_login (py : builtins) (sw : setup_world) (i : nat) : Prop :=
  exists e, password_login sw i = Raise e /\ is_transient py e = true.

(** An activity that started at 18:12 local time. *)
Definition evening_run : list (string * json) :=
  [("activityName", JStr "Run"); ("startTimeLocal", JStr "2026-02-19T18:12:34.0");
   ("beginTimestamp", JInt 1771521154000)].


(** The hint of [setup] for an error of the service itself. *)
Definition blocking_hint : string :=
  nl +++ "This usually means Garmin's servers are temporarily blocking requests." +++ nl +++
  "Try again in a few minutes. If it persists, double-check your password.".

(** The prompt of [setup]. *)
Definition password_prompt (email : string) : setup_event :=
  Getpass ("Garmin Connect password for " +++ email +++ ": ").

(** The two lines that end a setup that cached the tokens. *)
Definition success_prints (token_dir : string) : list setup_event :=
  [Also (Print ("Success! Tokens cached in " +++ token_dir));
   Also (Print "You can now run the sync command without credentials.")].
(** * Properties *)

(** ** Duration formatting *)

Lemma fmt_duration_int (py : builtins) (n : Z) :
  fmt_duration py (JInt n) = Ok (duration_text n).
Proof. reflexivity. Qed.

(** C9: [fmt_duration] renders None as a dash, 0 seconds as "0h 00m" and
    3725 seconds as "1h 02m"; [fmt_duration_mmss] renders None as a dash and
    125 seconds as "2:05". *)
Theorem fmt_duration_examples (py : builtins) :
  fmt_duration py JNone = Ok "—" /\
  fmt_duration py (JInt 0) = Ok "0h 00m" /\
  fmt_duration py (JInt 3725) = Ok "1h 02m" /\
  fmt_duration py (JFloat (float_lit 3725)) = Ok "1h 02m" /\
  fmt_duration_mmss py JNone = Ok "—" /\
  fmt_duration_mmss py (JInt 125) = Ok "2:05" /\
  fmt_duration_mmss py (JFloat (float_lit 125)) = Ok "2:05".
Proof. repeat split; vm_compute; reflexivity. Qed.

(** ** Stress *)

Lemma stress_level_int (py : builtins) (avg : Z) :
  stress_level py (JInt avg) = Ok (stress_band avg).
Proof.
  unfold stress_level, stress_band, py_lt, num_ltb, Z.ltb; simpl.
  destruct (avg ?= 26); simpl; try reflexivity;
    destruct (avg ?= 51); simpl; try reflexivity;
    destruct (avg ?= 76); reflexivity.
Qed.

Lemma stress_level_band (py : builtins) (v : json) (x : num) :
  as_num v = Some x ->
  exists band, stress_level py v = Ok band /\ In band ["Rest"; "Low"; "Medium"; "High"].
Proof.
  intros Hx. unfold stress_level, py_lt. rewrite Hx. simpl.
  destruct (num_ltb x (NInt 26)); [eexists; split; [reflexivity | simpl; tauto] |].
  destruct (num_ltb x (NInt 51)); [eexists; split; [reflexivity | simpl; tauto] |].
  destruct (num_ltb x (NInt 76)); eexists; (split; [reflexivity | simpl; tauto]).
Qed.

Lemma stress_band_thresholds (avg : Z) :
  (avg < 26 <-> stress_band avg = "Rest") /\
  (26 <= avg < 51 <-> stress_band avg = "Low") /\
  (51 <= avg < 76 <-> stress_band avg = "Medium") /\
  (76 <= avg <-> stress_band avg = "High").
Proof.
  unfold stress_band.
  destruct (Z.ltb_spec avg 26); [repeat split; intros; try lia; try discriminate |].
  destruct (Z.ltb_spec avg 51); [repeat split; intros; try lia; try discriminate |].
  destruct (Z.ltb_spec avg 76); repeat split; intros; try lia; try discriminate.
Qed.

(** C6: the stress section puts an integer average into one of the four
    bands Rest (below 26), Low (below 51), Medium (below 76) and High (76 and
    above); 25 is Rest, 26 and 50 are Low, 51 and 75 are Medium, 76 is High;
    every numeric average gets one of the four bands. *)
Theorem stress_bucketing (py : builtins) (c : client) (day : string)
  (d : list (string * json)) (avg : Z) :
  get_all_day_stress c day = Ok (JDict d) ->
  dict_get d "overallStressLevel" = Some (JInt avg) ->
  fetch_stress py c day =
    Ok (Some ("## Stress: Avg " +++ string_of_Z avg +++ " (" +++ stress_band avg +++ ")")) /\
  ((avg < 26 <-> stress_band avg = "Rest") /\
   (26 <= avg < 51 <-> stress_band avg = "Low") /\
   (51 <= avg < 76 <-> stress_band avg = "Medium") /\
   (76 <= avg <-> stress_band avg = "High")) /\
  (stress_level py (JInt 25) = Ok "Rest" /\
   stress_level py (JInt 26) = Ok "Low" /\
   stress_level py (JInt 50) = Ok "Low" /\
   stress_level py (JInt 51) = Ok "Medium" /\
   stress_level py (JInt 75) = Ok "Medium" /\
   stress_level py (JInt 76) = Ok "High") /\
  (forall v x, as_num v = Some x ->
     exists band, stress_level py v = Ok band /\
                  In band ["Rest"; "Low"; "Medium"; "High"]).
Proof.
  intros Hdata Havg. split; [| split; [| split]].
  - unfold fetch_stress. rewrite Hdata.
    assert (Ht : truthy (JDict d) = true) by (destruct d; [discriminate | reflexivity]).
    rewrite Ht. simpl. rewrite Havg. simpl.
    rewrite stress_level_int. reflexivity.
  - apply stress_band_thresholds.
  - repeat split; reflexivity.
  - intros v x. apply stress_level_band.
Qed.

Lemma stress_bucketing_witness :
  fetch_stress ascii_builtins
    (constant_client (Ok (JDict [("overallStressLevel", JInt 42)]))) "2026-11-03" =
  Ok (Some "## Stress: Avg 42 (Low)").
Proof.
  exact (proj1 (stress_bucketing ascii_builtins
                  (constant_client (Ok (JDict [("overallStressLevel", JInt 42)])))
                  "2026-11-03" [("overallStressLevel", JInt 42)] 42
                  eq_refl eq_refl)).
Defined.

(** ** Fragments are never empty *)

Lemma on_ok_bind {A B : Type} (P : B -> Prop) (m : result A) (k : A -> result B) :
  (forall a, m = Ok a -> on_ok P (k a)) -> on_ok P (bind m k).
Proof. intros H. destruct m as [a | e]; simpl; [apply H; reflexivity | exact I]. Qed.

Lemma join_head (sep : string) (c : ascii) (s : string) (rest : list string) :
  join sep (String c s :: rest) <> "".
Proof. unfold join. destruct rest; simpl; discriminate. Qed.

Lemma join_lines_fragment (o : option (list string)) :
  is_fragment_lines o -> is_fragment (option_map (join nl) o).
Proof.
  destruct o as [[| [| c s] rest] |]; try (simpl; tauto).
  intros _. apply join_head.
Qed.

(** Peels the binds of a fetcher, then the tests it branches on. *)
Ltac peel :=
  repeat (apply on_ok_bind; intros);
  repeat match goal with
         | |- on_ok _ (if ?b then _ else _) => destruct b
         | |- on_ok _ (match ?x with _ => _ end) => destruct x
         | |- on_ok _ (bind _ _) => apply on_ok_bind; intros
         end;
  simpl; try exact I.

(** Splits on every test left in the goal. *)
Ltac split_tests :=
  repeat match goal with
         | |- context [if ?b then _ else _] =>
             match type of b with bool => destruct b; simpl end
         | |- context [match ?x with _ => _ end] => is_var x; destruct x; simpl
         end;
  first [exact I | discriminate | apply join_head].

Lemma fetch_sleep_lines_fragment (py : builtins) (c : client) (day : string) :
  on_ok is_fragment_lines (fetch_sleep_lines py c day).
Proof.
  unfold fetch_sleep_lines.
  destruct (get_sleep_data c day); [| exact I].
  peel. split_tests.
Qed.

Lemma fetch_sleep_fragment (py : builtins) (c : client) (day : string) :
  on_ok is_fragment (fetch_sleep py c day).
Proof.
  unfold fetch_sleep.
  pose proof (fetch_sleep_lines_fragment py c day) as H.
  destruct (fetch_sleep_lines py c day) as [o | e]; simpl in *; [| exact I].
  apply join_lines_fragment. exact H.
Qed.

Lemma fetch_lifestyle_fragment (py : builtins) (c : client) (day : string) :
  on_ok is_fragment (fetch_lifestyle py c day).
Proof.
  unfold fetch_lifestyle.
  destruct (get_lifestyle_logging_data c day); [| exact I].
  peel. split_tests.
Qed.

Lemma fetch_body_fragment (py : builtins) (c : client) (day : string) :
  on_ok is_fragment (fetch_body py c day).
Proof.
  unfold fetch_body.
  destruct (body_absent _ _ _ _); [exact I |].
  apply on_ok_bind. intros [header_parts detail_parts] _.
  apply on_ok_bind. intros hr_parts _.
  unfold body_lines. destruct header_parts; apply join_head.
Qed.

Lemma fetch_stress_fragment (py : builtins) (c : client) (day : string) :
  on_ok is_fragment (fetch_stress py c day).
Proof.
  unfold fetch_stress.
  destruct (get_all_day_stress c day); [| exact I].
  peel. split_tests.
Qed.

Lemma fetch_training_readiness_fragment (py : builtins) (c : client) (day : string) :
  on_ok is_fragment (fetch_training_readiness py c day).
Proof.
  unfold fetch_training_readiness.
  destruct (get_training_readiness c day); [| exact I].
  peel. split_tests.
Qed.

Lemma fetch_respiration_fragment (c : client) (day : string) :
  on_ok is_fragment (fetch_respiration c day).
Proof.
  unfold fetch_respiration.
  destruct (get_respiration_data c day); [| exact I].
  peel. split_tests.
Qed.

Lemma fetch_fitness_age_fragment (py : builtins) (c : client) (day : string) :
  on_ok is_fragment (fetch_fitness_age py c day).
Proof.
  unfold fetch_fitness_age.
  destruct (get_fitnessage_data c day); [| exact I].
  peel; split_tests.
Qed.

Lemma fetch_intensity_minutes_fragment (py : builtins) (c : client) (day : string) :
  on_ok is_fragment (fetch_intensity_minutes py c day).
Proof.
  unfold fetch_intensity_minutes.
  destruct (get_intensity_minutes_data c day); [| exact I].
  peel. split_tests.
Qed.

Lemma fetch_activities_fragment (py : builtins) (c : client) (day : string) :
  on_ok is_fragment (fetch_activities py c day).
Proof.
  unfold fetch_activities.
  destruct (get_activities_by_date c day day); [| exact I].
  peel. split_tests.
Qed.

(** ** One day *)

Lemma section_of_present (o : option string) :
  is_fragment o -> section_of o = present [o].
Proof.
  destruct o as [text |]; simpl; [| reflexivity].
  intros H. destruct text; [contradiction | reflexivity].
Qed.

Lemma present_app (l m : list (option string)) :
  present (l ++ m) = present l ++ present m.
Proof.
  induction l as [| [text |] l IH]; simpl; [reflexivity | f_equal; exact IH | exact IH].
Qed.

(** The sections of a day are the title and the fragments that are
    present, in the order of the fetchers. *)
Lemma day_sections_fetched (py : builtins) (c : client) (day : Z) (f : fragments) :
  fetched py c (isoformat py day) f ->
  day_sections py c day =
    Ok (("# Health — " +++ strftime_long py day) :: present (fragment_list f)).
Proof.
  intros (H1 & H2 & H3 & H4 & H5 & H6 & H7 & H8 & H9).
  pose proof (fetch_sleep_fragment py c (isoformat py day)) as F1.
  pose proof (fetch_lifestyle_fragment py c (isoformat py day)) as F2.
  pose proof (fetch_body_fragment py c (isoformat py day)) as F3.
  pose proof (fetch_stress_fragment py c (isoformat py day)) as F4.
  pose proof (fetch_training_readiness_fragment py c (isoformat py day)) as F5.
  pose proof (fetch_respiration_fragment c (isoformat py day)) as F6.
  pose proof (fetch_fitness_age_fragment py c (isoformat py day)) as F7.
  pose proof (fetch_intensity_minutes_fragment py c (isoformat py day)) as F8.
  pose proof (fetch_activities_fragment py c (isoformat py day)) as F9.
  unfold day_sections.
  rewrite H1, H2, H3, H4, H5, H6, H7, H8, H9 in *.
  cbn [bind on_ok] in *.
  rewrite !section_of_present by assumption.
  rewrite <- !app_assoc, <- !present_app. reflexivity.
Qed.

(** C3: on a day for which the nine fetchers all return None the document
    is the title alone, no directory is made and no file is written, and the
    day is reported as skipped. *)
Theorem sync_day_skips_empty_day (py : builtins) (env : environment) (c : client)
  (day : Z) (output_dir : string) :
  fetched py c (isoformat py day) no_fragments ->
  day_sections py c day = Ok ["# Health — " +++ strftime_long py day] /\
  sync_day py env c day output_dir =
    ([Print ("  " +++ isoformat py day +++ ": No data available, skipping.")],
     Returned tt) /\
  existsb touches_files (events (sync_day py env c day output_dir)) = false.
Proof.
  intros Hf. apply day_sections_fetched in Hf. simpl in Hf.
  assert (Hs : sync_day py env c day output_dir =
               ([Print ("  " +++ isoformat py day +++ ": No data available, skipping.")],
                Returned tt)).
  { unfold sync_day. rewrite Hf. reflexivity. }
  split; [exact Hf |]. split; [exact Hs |].
  rewrite Hs. reflexivity.
Qed.

Lemma sync_day_skips_empty_day_witness :
  sync_day ascii_builtins (sample_env (fun _ => Ok tt) offline_client) offline_client
           739923 "/home/user/garminskill/health" =
  ([Print "  2026-11-03: No data available, skipping."], Returned tt).
Proof.
  refine (proj1 (proj2 (sync_day_skips_empty_day ascii_builtins
                          (sample_env (fun _ => Ok tt) offline_client) offline_client
                          739923 "/home/user/garminskill/health" _))).
  repeat split; vm_compute; reflexivity.
Defined.

(** C4, as the code has it: on a day for which the nine fetchers all
    return, and at least one of them returns a fragment, the document is the
    title followed by exactly the fragments that are not None, in the order
    sleep, lifestyle, body, stress, training readiness, respiration, fitness
    age, intensity minutes, activities, whichever of the fetchers returned
    one; it is written to the file of the day. *)
Theorem sync_day_document_order (py : builtins) (env : environment) (c : client)
  (day : Z) (output_dir : string) (f : fragments) :
  fetched py c (isoformat py day) f ->
  present (fragment_list f) <> [] ->
  let document := ("# Health — " +++ strftime_long py day) :: present (fragment_list f) in
  let output_file := path_child env output_dir (isoformat py day +++ ".md") in
  day_sections py c day = Ok document /\
  sync_day py env c day output_dir =
    ([Mkdir output_dir;
      WriteText output_file (join (nl +++ nl) document +++ nl);
      Print ("  " +++ isoformat py day +++ ": Written to " +++ output_file)],
     Returned tt).
Proof.
  intros Hf Hne document output_file.
  apply day_sections_fetched in Hf. split; [exact Hf |].
  unfold sync_day. rewrite Hf. cbn [lift pbind].
  subst document.
  destruct (present (fragment_list f)) as [| x rest]; [contradiction |].
  reflexivity.
Qed.

Lemma sync_day_document_order_witness :
  sync_day ascii_builtins
    (sample_env (fun _ => Ok tt) offline_client)
    (four_answers_client (JDict [("overallStressLevel", JInt 42)]))
    739923 "/home/user/garminskill/health" =
  ([Mkdir "/home/user/garminskill/health";
    WriteText "/home/user/garminskill/health/2026-11-03.md"
      ("# Health — Tuesday, November 3, 2026" +++ nl +++ nl +++
       "## Sleep: 7h 30m" +++ nl +++ "Deep: — | Light: — | REM: — | Awake: —" +++ nl +++ nl +++
       "## Stress: Avg 42 (Low)" +++ nl +++ nl +++
       "## Fitness Age: 30 (5 years younger)" +++ nl +++ nl +++
       "## Intensity Minutes: 150 weekly" +++ nl);
    Print "  2026-11-03: Written to /home/user/garminskill/health/2026-11-03.md"],
   Returned tt).
Proof.
  refine (proj2 (sync_day_document_order ascii_builtins
                   (sample_env (fun _ => Ok tt) offline_client)
                   (four_answers_client (JDict [("overallStressLevel", JInt 42)]))
                   739923 "/home/user/garminskill/health"
                   {| f_sleep := Some ("## Sleep: 7h 30m" +++ nl +++
                                       "Deep: — | Light: — | REM: — | Awake: —");
                      f_lifestyle := None; f_body := None;
                      f_stress := Some "## Stress: Avg 42 (Low)";
                      f_readiness := None; f_respiration := None;
                      f_fitness_age := Some "## Fitness Age: 30 (5 years younger)";
                      f_intensity := Some "## Intensity Minutes: 150 weekly";
                      f_activities := None |} _ _)).
  - repeat split; vm_compute; reflexivity.
  - discriminate.
Defined.

(** C4 as stated fails: on a day for which the sleep, fitness-age and
    intensity-minutes fetchers return a fragment and the stress level comes
    as text, the exception of [fetch_stress] leaves [sync_day] and no
    document is assembled. *)
Lemma document_order_counterexample :
  present (contributions ascii_builtins (four_answers_client text_stress) "2026-11-03") =
    ["## Sleep: 7h 30m" +++ nl +++ "Deep: — | Light: — | REM: — | Awake: —";
     "## Fitness Age: 30 (5 years younger)";
     "## Intensity Minutes: 150 weekly"] /\
  fetch_stress ascii_builtins (four_answers_client text_stress) "2026-11-03" =
    Raise (Exn TypeError "") /\
  day_sections ascii_builtins (four_answers_client text_stress) 739923 =
    Raise (Exn TypeError "") /\
  sync_day ascii_builtins (sample_env (fun _ => Ok tt) offline_client)
           (four_answers_client text_stress) 739923 "/home/user/garminskill/health" =
    ([], Uncaught (Exn TypeError "")) /\
  ~ document_order_claim ascii_builtins.
Proof.
  split; [vm_compute; reflexivity |].
  split; [vm_compute; reflexivity |].
  split; [vm_compute; reflexivity |].
  split; [vm_compute; reflexivity |].
  intros H. specialize (H (four_answers_client text_stress) 739923).
  assert (Hd : day_sections ascii_builtins (four_answers_client text_stress) 739923 =
               Raise (Exn TypeError "")) by (vm_compute; reflexivity).
  rewrite Hd in H. discriminate H.
  vm_compute. discriminate.
Qed.

(** ** Sleep need *)

Lemma py_lt_int (py : builtins) (a b : Z) :
  py_lt py (JInt a) (JInt b) = Ok (a <? b).
Proof. unfold py_lt, num_ltb, Z.ltb; simpl. destruct (a ?= b); reflexivity. Qed.

Lemma py_get_dict (d : list (string * json)) (key : string) :
  py_get (JDict d) key JNone = Ok (field d key).
Proof. reflexivity. Qed.

Lemma nonzero_int_truthy (v : json) (n : Z) :
  nonzero_int v = Some n -> v = JInt n /\ truthy v = true.
Proof.
  destruct v; simpl; try discriminate.
  destruct (Z.eqb_spec n0 0); intros H; inversion H; subst.
  split; [reflexivity |]. destruct (Z.eqb_spec n 0); [contradiction | reflexivity].
Qed.

Lemma absent_or_zero_falsy (v : json) :
  absent_or_zero v = true -> truthy v = false.
Proof.
  destruct v; simpl; try discriminate; [reflexivity |].
  intros ->. reflexivity.
Qed.

(** What the dict branch appends once the value is known to be an int. *)
Lemma sleep_need_int_line (py : builtins) (n : Z) :
  (small <- py_lt py (JInt n) (JInt 1440) ;;
   val' <- (if small then py_mul_int (JInt n) 60 else Ok (JInt n)) ;;
   text <- fmt_duration py val' ;;
   Ok ["Sleep Need: " +++ text]) =
  Ok ["Sleep Need: " +++ duration_text (reinterpret_sleep_need n)].
Proof.
  rewrite py_lt_int. unfold reinterpret_sleep_need. cbn [bind].
  destruct (n <? 1440); reflexivity.
Qed.

Lemma sleep_need_lines_nested (py : builtins) (daily : json) (raw : Z) :
  sleep_need_nested daily = Some raw ->
  sleep_need_lines py daily =
    Ok ["Sleep Need: " +++ duration_text (reinterpret_sleep_need raw)].
Proof.
  unfold sleep_need_nested, sleep_need_lines.
  destruct daily as [| | | | | | d]; try discriminate.
  unfold py_get at 1.
  destruct (dict_get d "sleepNeed") as [[| | | | | | [| b sn]] |]; try discriminate.
  cbn [bind truthy]. generalize (b :: sn). intros need.
  rewrite !py_get_dict. cbn [bind].
  destruct (nonzero_int (field need "actual")) as [n |] eqn:Ea.
  { intros H; inversion H; subst n.
    destruct (nonzero_int_truthy _ _ Ea) as [Hv Ht]. rewrite Ht. cbn [bind].
    rewrite Hv. cbn [is_none]. apply sleep_need_int_line. }
  destruct (absent_or_zero (field need "actual")) eqn:Za; [| discriminate].
  rewrite (absent_or_zero_falsy _ Za). cbn [bind]. rewrite ?py_get_dict. cbn [bind].
  destruct (nonzero_int (field need "value")) as [n |] eqn:Ev.
  { intros H; inversion H; subst n.
    destruct (nonzero_int_truthy _ _ Ev) as [Hv Ht]. rewrite Ht. cbn [bind].
    rewrite Hv. cbn [is_none]. apply sleep_need_int_line. }
  destruct (absent_or_zero (field need "value")) eqn:Zv; [| discriminate].
  rewrite (absent_or_zero_falsy _ Zv). cbn [bind]. rewrite ?py_get_dict. cbn [bind].
  destruct (field need "duration"); try discriminate.
  intros H; inversion H; subst. cbn [is_none]. apply sleep_need_int_line.
Qed.

Lemma sleep_need_lines_bare (py : builtins) (daily : json) (raw : Z) :
  sleep_need_bare daily = Some raw ->
  sleep_need_lines py daily = Ok ["Sleep Need: " +++ duration_text raw].
Proof.
  unfold sleep_need_bare, sleep_need_lines.
  destruct daily as [| | | | | | d]; try discriminate.
  rewrite py_get_dict. unfold field.
  destruct (dict_get d "sleepNeed") as [[| | n | | | |] |]; try discriminate.
  destruct (Z.eqb_spec n 0) as [| Hz]; [discriminate |].
  intros H; inversion H; subst. cbn [bind truthy].
  destruct (raw =? 0) eqn:E0; [apply Z.eqb_eq in E0; contradiction |].
  reflexivity.
Qed.

(** Inverts one step of a computation known to return. *)
Ltac bind_inv H :=
  match type of H with
  | bind ?m _ = Ok _ =>
      let E := fresh "E" in
      destruct m eqn:E; cbn [bind] in H; [| discriminate H]
  | (if ?b then _ else _) = Ok _ =>
      let E := fresh "E" in
      destruct b eqn:E; try discriminate H
  end.

(** The lines of the sleep section contain what the sleep-need block
    appends. *)
Lemma fetch_sleep_lines_need (py : builtins) (c : client) (day : string)
  (data daily : json) (lines : list string) :
  get_sleep_data c day = Ok data ->
  py_get data "dailySleepDTO" (JDict []) = Ok daily ->
  fetch_sleep_lines py c day = Ok (Some lines) ->
  exists need, sleep_need_lines py daily = Ok need /\ incl need lines.
Proof.
  intros Hd Hdaily H. unfold fetch_sleep_lines in H.
  rewrite Hd, Hdaily in H. cbn [bind] in H.
  repeat bind_inv H.
  injection H as <-.
  eexists. split; [first [eassumption | reflexivity] |].
  intros x Hx.
  match goal with
  | |- In x (match ?parts with [] => _ | _ => _ end) =>
      destruct parts; [| apply in_or_app; left]; apply in_or_app; right; exact Hx
  end.
Qed.

(** C7, as the code has it: the sleep need is reinterpreted as minutes
    (multiplied by 60 when below 1440) when it comes inside a dict, under
    [actual], [value] or [duration]; a sleep need given as a bare number is
    formatted as seconds, whatever its size. *)
Theorem sleep_need_heuristic (py : builtins) (c : client) (day : string)
  (data daily : json) (lines : list string) (raw : Z) :
  get_sleep_data c day = Ok data ->
  py_get data "dailySleepDTO" (JDict []) = Ok daily ->
  fetch_sleep_lines py c day = Ok (Some lines) ->
  (sleep_need_nested daily = Some raw ->
   sleep_need_lines py daily =
     Ok ["Sleep Need: " +++ duration_text (reinterpret_sleep_need raw)] /\
   In ("Sleep Need: " +++ duration_text (reinterpret_sleep_need raw)) lines) /\
  (sleep_need_bare daily = Some raw ->
   sleep_need_lines py daily = Ok ["Sleep Need: " +++ duration_text raw] /\
   In ("Sleep Need: " +++ duration_text raw) lines).
Proof.
  intros Hd Hdaily Hlines.
  destruct (fetch_sleep_lines_need py c day data daily lines Hd Hdaily Hlines)
    as (need & Hneed & Hincl).
  split; intros Hraw.
  - pose proof (sleep_need_lines_nested py daily raw Hraw) as E.
    split; [exact E |]. rewrite E in Hneed. inversion Hneed; subst need.
    apply Hincl. left. reflexivity.
  - pose proof (sleep_need_lines_bare py daily raw Hraw) as E.
    split; [exact E |]. rewrite E in Hneed. inversion Hneed; subst need.
    apply Hincl. left. reflexivity.
Qed.

Lemma sleep_need_heuristic_witness :
  sleep_need_lines ascii_builtins nested_need_daily = Ok ["Sleep Need: 8h 00m"] /\
  In "Sleep Need: 8h 00m"
     ["## Sleep: 7h 30m"; "Deep: — | Light: — | REM: — | Awake: —"; "Sleep Need: 8h 00m"].
Proof.
  exact (proj1 (sleep_need_heuristic ascii_builtins (sleep_only_client nested_need_daily)
                  "2026-11-03" (JDict [("dailySleepDTO", nested_need_daily)])
                  nested_need_daily
                  ["## Sleep: 7h 30m"; "Deep: — | Light: — | REM: — | Awake: —";
                   "Sleep Need: 8h 00m"]
                  480 eq_refl eq_refl eq_refl) eq_refl).
Defined.

(** C7 as stated fails on the bare-number shape: a sleep need of 480 is
    below 1440, yet it is printed as 480 seconds ("0h 08m"), not as 480
    minutes ("8h 00m"). *)
Lemma sleep_need_bare_number_counterexample :
  sleep_need_raw bare_need_daily = Some 480 /\
  duration_text (reinterpret_sleep_need 480) = "8h 00m" /\
  sleep_need_lines ascii_builtins bare_need_daily = Ok ["Sleep Need: 0h 08m"] /\
  fetch_sleep ascii_builtins (sleep_only_client bare_need_daily) "2026-11-03" =
    Ok (Some ("## Sleep: 7h 30m" +++ nl +++
              "Deep: — | Light: — | REM: — | Awake: —" +++ nl +++
              "Sleep Need: 0h 08m")) /\
  ~ sleep_need_claim ascii_builtins.
Proof.
  split; [reflexivity |]. split; [reflexivity |].
  split; [reflexivity |]. split; [vm_compute; reflexivity |].
  intros H. specialize (H bare_need_daily 480 eq_refl).
  vm_compute in H. discriminate H.
Qed.

(** ** Body *)

Lemma body_summary_parts_falsy (py : builtins) (summary : json) :
  truthy summary = false -> body_summary_parts py summary = Ok ([], []).
Proof. intros H. unfold body_summary_parts. rewrite H. reflexivity. Qed.

Lemma body_hr_parts_falsy (py : builtins) (hr_data : json) :
  truthy hr_data = false -> body_hr_parts py hr_data = Ok [].
Proof. intros H. unfold body_hr_parts. rewrite H. reflexivity. Qed.

Lemma body_absent_spec (summary hr_data battery : json) (hrv : option string) :
  body_absent summary hr_data battery hrv = true <->
  truthy summary = false /\ truthy hr_data = false /\ battery = JNone /\ hrv = None.
Proof.
  unfold body_absent. split.
  - intros H. apply andb_prop in H as [H Hv]. apply andb_prop in H as [H Hb].
    apply andb_prop in H as [Hs Hh].
    repeat split.
    + destruct (truthy summary); [discriminate | reflexivity].
    + destruct (truthy hr_data); [discriminate | reflexivity].
    + destruct battery; try discriminate; reflexivity.
    + destruct hrv; [discriminate | reflexivity].
  - intros (-> & -> & -> & ->). reflexivity.
Qed.

(** The section is omitted exactly when the test on the four variables
    succeeds. *)
Lemma fetch_body_none (py : builtins) (c : client) (day : string) :
  fetch_body py c day = Ok None <->
  body_absent (body_summary c day) (body_hr_data c day)
              (body_battery py c day) (body_hrv py c day) = true.
Proof.
  unfold fetch_body.
  destruct (body_absent _ _ _ _); split; intros H; try reflexivity; try discriminate.
  destruct (body_summary_parts py (body_summary c day)) as [[hp dp] | e];
    cbn [bind] in H; [| discriminate].
  destruct (body_hr_parts py (body_hr_data c day)); cbn [bind] in H; discriminate.
Qed.

(** An exception leaves [fetch_body] only from the rendering of the user
    summary or of the heart rates. *)
Lemma fetch_body_ok (py : builtins) (c : client) (day : string) :
  is_ok (fetch_body py c day) = true <->
  is_ok (body_summary_parts py (body_summary c day)) = true /\
  is_ok (body_hr_parts py (body_hr_data c day)) = true.
Proof.
  unfold fetch_body.
  destruct (body_absent _ _ _ _) eqn:Habs.
  - apply body_absent_spec in Habs as (Hs & Hh & _ & _).
    rewrite (body_summary_parts_falsy py _ Hs), (body_hr_parts_falsy py _ Hh).
    simpl. tauto.
  - destruct (body_summary_parts py (body_summary c day)) as [[hp dp] | e]; cbn [bind].
    + destruct (body_hr_parts py (body_hr_data c day)); simpl; tauto.
    + simpl. split; [discriminate | intros [H _]; discriminate].
Qed.

Lemma missing_cases (m : result json) :
  missing m -> m = Ok JNone \/ exists e, m = Raise e.
Proof.
  unfold missing. destruct m as [v | e]; simpl.
  - intros ->. left. reflexivity.
  - intros _. right. exists e. reflexivity.
Qed.

Lemma missing_battery (py : builtins) (c : client) (day : string) :
  missing (get_body_battery c day day) -> body_battery py c day = JNone.
Proof.
  intros H. unfold body_battery.
  destruct (missing_cases _ H) as [-> | [e ->]]; reflexivity.
Qed.

Lemma missing_hrv (py : builtins) (c : client) (day : string) :
  missing (get_hrv_data c day) -> body_hrv py c day = None.
Proof.
  intros H. unfold body_hrv.
  destruct (missing_cases _ H) as [-> | [e ->]]; reflexivity.
Qed.

Lemma missing_falsy (m : result json) :
  missing m -> truthy (or_none m) = false.
Proof. unfold missing. intros ->. reflexivity. Qed.

Lemma dict_truthy (d : list (string * json)) (key : string) (v : json) :
  dict_get d key = Some v -> truthy (JDict d) = true.
Proof. destruct d; [discriminate | reflexivity]. Qed.

Lemma not_answered (m : result json) : truthy (or_none m) = false <-> ~ answered m.
Proof.
  unfold answered. destruct m as [v | e]; cbn [or_none].
  - split.
    + intros H (v' & Hv & Ht). injection Hv as <-. rewrite H in Ht. discriminate Ht.
    + intros H. destruct (truthy v) eqn:E; [| reflexivity].
      exfalso. apply H. exists v. split; [reflexivity | exact E].
  - split; [intros _ (v & Hv & _); discriminate Hv | reflexivity].
Qed.

Lemma missing_not_answered (m : result json) : missing m -> ~ answered m.
Proof. intros H. apply not_answered, missing_falsy, H. Qed.


Lemma charged_value_dict (d : list (string * json)) :
  charged_value (JDict d) =
    Ok (match dict_get d "chargedValue" with
        | None | Some JNone => []
        | Some v => [v]
        end).
Proof.
  unfold charged_value. cbn [py_get bind].
  destruct (dict_get d "chargedValue") as [[] |]; reflexivity.
Qed.

(** The comprehension over the samples collects their charged values, and
    raises when a sample is not a dict. *)
Lemma for_each_charges (samples : list json) :
  for_each charged_value samples =
    match charges samples with
    | Some values => Ok values
    | None => raise AttributeError
    end.
Proof.
  induction samples as [| e samples IH]; [reflexivity |].
  cbn [for_each charges].
  destruct e as [| b | n | x | t | l | d]; try reflexivity.
  rewrite charged_value_dict, IH. cbn [bind].
  destruct (charges samples) as [values |]; [| reflexivity].
  cbn [bind]. destruct (dict_get d "chargedValue") as [[] |]; reflexivity.
Qed.

Lemma charges_not_none (samples : list json) (values : list json) :
  charges samples = Some values -> Forall (fun v => is_none v = false) values.
Proof.
  revert values. induction samples as [| e samples IH]; intros values H.
  - injection H as <-. constructor.
  - cbn [charges] in H. destruct e as [| b | n | x | t | l | d]; try discriminate H.
    destruct (charges samples) as [rest |]; [| discriminate H].
    specialize (IH rest eq_refl). injection H as <-.
    destruct (dict_get d "chargedValue") as [[] |];
      first [exact IH | constructor; [reflexivity | exact IH]].
Qed.

Lemma max_from_in (py : builtins) (rest : list json) :
  forall best v, max_from py best rest = Ok v -> In v (best :: rest).
Proof.
  induction rest as [| item rest IH]; intros best v H.
  - injection H as <-. left. reflexivity.
  - cbn [max_from] in H. destruct (py_gt py item best) as [b |]; [| discriminate H].
    cbn [bind] in H. apply IH in H. destruct H as [H | H].
    + destruct b; [right; left; exact H | left; exact H].
    + right. right. exact H.
Qed.

Lemma py_max_not_none (py : builtins) (values : list json) (v : json) :
  Forall (fun v => is_none v = false) values -> py_max py values = Ok v -> is_none v = false.
Proof.
  intros Hall H. destruct values as [| best rest]; [discriminate H |].
  apply max_from_in in H. rewrite Forall_forall in Hall. apply Hall, H.
Qed.

(** The [battery] variable is the value the endpoint gave. *)
Lemma body_battery_given (py : builtins) (c : client) (day : string) (v : json) :
  battery_given py (get_body_battery c day day) v ->
  body_battery py c day = v /\ is_none v = false.
Proof.
  intros (samples & values & Hm & Hc & Hmax).
  pose proof (py_max_not_none py values v (charges_not_none _ _ Hc) Hmax) as Hv.
  split; [| exact Hv].
  unfold body_battery. rewrite Hm. cbn [bind].
  destruct samples as [| e samples].
  - injection Hc as <-. discriminate Hmax.
  - rewrite for_each_charges, Hc. cbn [bind].
    destruct values as [| best rest]; [discriminate Hmax |].
    rewrite Hmax. reflexivity.
Qed.

(** It is None exactly when the endpoint gave no value. *)
Lemma body_battery_none (py : builtins) (c : client) (day : string) :
  body_battery py c day = JNone <->
  forall v, ~ battery_given py (get_body_battery c day day) v.
Proof.
  split.
  - intros Hnone v Hv. apply body_battery_given in Hv as [Hb Hv].
    rewrite Hb in Hnone. subst v. discriminate Hv.
  - intros Hno. unfold body_battery.
    destruct (get_body_battery c day day) as [bb_data | e] eqn:Hm; [| reflexivity].
    cbn [bind]. destruct bb_data as [| b | n | x | t | samples | d]; try reflexivity.
    destruct samples as [| e samples]; [reflexivity |].
    rewrite for_each_charges.
    destruct (charges (e :: samples)) as [values |] eqn:Hc; [| reflexivity].
    cbn [bind]. destruct values as [| best rest]; [reflexivity |].
    destruct (py_max py (best :: rest)) as [v |] eqn:Hmax; [| reflexivity].
    exfalso. apply (Hno v). exists (e :: samples), (best :: rest).
    repeat split; assumption.
Qed.






(** ** Activities: the pace never divides by zero *)

Create HintDb zde.

Lemma zde_bind {A B : Type} (m : result A) (k : A -> result B) :
  zde_free m -> (forall a, m = Ok a -> zde_free (k a)) -> zde_free (bind m k).
Proof.
  intros Hm Hk. destruct m as [a | e]; simpl; [apply Hk; reflexivity | exact Hm].
Qed.

Lemma zde_for_each {A B : Type} (body : A -> result (list B)) (items : list A) :
  (forall x, zde_free (body x)) -> zde_free (for_each body items).
Proof.
  intros Hb. induction items as [| x items IH]; simpl; [reflexivity |].
  apply zde_bind; [apply Hb | intros out _].
  apply zde_bind; [exact IH | intros rest _]. reflexivity.
Qed.

Lemma zde_py_get (v : json) (key : string) (default : json) :
  zde_free (py_get v key default).
Proof. destruct v; reflexivity. Qed.

Lemma zde_float_trunc (x : spec_float) : zde_free (float_trunc x).
Proof. destruct x; reflexivity. Qed.

Lemma zde_py_int (py : builtins) (v : json) : zde_free (py_int py v).
Proof.
  destruct v; simpl; try reflexivity; [apply zde_float_trunc |].
  destruct (int_of_str py s); reflexivity.
Qed.

Lemma zde_float_of_Z (n : Z) : zde_free (float_of_Z n).
Proof. unfold float_of_Z. destruct (binary_normalize prec emax n 0 false); reflexivity. Qed.

Lemma zde_fmt_fixed (d : nat) (v : json) : zde_free (fmt_fixed d v).
Proof.
  destruct v; simpl; try reflexivity;
    (apply zde_bind; [first [apply zde_float_of_Z | reflexivity] | reflexivity]).
Qed.

Lemma zde_py_iter (v : json) : zde_free (py_iter v).
Proof. destruct v; reflexivity. Qed.

Lemma zde_py_gt_int (py : builtins) (v : json) (k : Z) : zde_free (py_gt py v (JInt k)).
Proof. destruct v; reflexivity. Qed.

Lemma zde_positive (py : builtins) (v : json) : zde_free (positive py v).
Proof. unfold positive. destruct (truthy v); [apply zde_py_gt_int | reflexivity]. Qed.

Lemma zde_fmt_duration_mmss (py : builtins) (v : json) : zde_free (fmt_duration_mmss py v).
Proof.
  unfold fmt_duration_mmss. destruct (is_none v); [reflexivity |].
  apply zde_bind; [apply zde_py_int | reflexivity].
Qed.

Lemma float_of_1000 : exists s m e, float_of_Z 1000 = Ok (S754_finite s m e).
Proof. do 3 eexists. vm_compute. reflexivity. Qed.

(** Dividing two ints raises ZeroDivisionError only for a zero divisor. *)
Lemma zde_int_truediv (a b : Z) : b <> 0 -> zde_free (int_truediv a b).
Proof.
  intros Hb. unfold int_truediv.
  destruct (Z.eqb_spec b 0); [contradiction |].
  destruct (a =? 0); [reflexivity |].
  destruct (SFdiv_core_binary prec emax (Z.abs a) 0 (Z.abs b) 0) as [[q e] l].
  destruct (binary_round_aux prec emax (xorb (a <? 0) (b <? 0)) q e l); reflexivity.
Qed.

(** [v / 1000] never divides by zero. *)
Lemma zde_div_1000 (v : json) : zde_free (py_truediv v (JInt 1000)).
Proof.
  unfold py_truediv. change (as_num (JInt 1000)) with (Some (NInt 1000)).
  destruct (as_num v) as [[m | x] |]; [| | reflexivity].
  - apply zde_int_truediv. discriminate.
  - unfold num_truediv. cbn [num_to_float bind].
    destruct float_of_1000 as (s & m & e & ->). reflexivity.
Qed.

(** A number that passed the guard [x and x > 0] is not zero. *)
Lemma positive_num (py : builtins) (v : json) :
  positive py v = Ok true ->
  exists x, as_num v = Some x /\ num_gtb x (NInt 0) = true.
Proof.
  unfold positive. destruct (truthy v); [| discriminate].
  unfold py_gt. destruct (as_num v) as [x |] eqn:E.
  - simpl. intros H. inversion H. exists x. split; reflexivity.
  - destruct v; simpl in *; discriminate.
Qed.

Lemma num_gtb_zero_int (n : Z) : num_gtb (NInt n) (NInt 0) = true -> 0 < n.
Proof.
  unfold num_gtb; simpl. destruct (Z.compare_spec n 0); try discriminate.
  intros _. assumption.
Qed.

Lemma num_gtb_zero_float (x : spec_float) :
  num_gtb (NFloat x) (NInt 0) = true -> float_is_zero x = false.
Proof. destruct x; simpl; [discriminate | reflexivity ..]. Qed.

(** [1000 / speed] under the guard of the pace never divides by zero. *)
Lemma zde_pace_division (py : builtins) (speed : json) :
  positive py speed = Ok true -> zde_free (py_truediv (JInt 1000) speed).
Proof.
  intros H. destruct (positive_num py speed H) as (x & Hx & Hgt).
  unfold py_truediv. rewrite Hx. change (as_num (JInt 1000)) with (Some (NInt 1000)).
  destruct x as [n | y].
  - apply zde_int_truediv. apply num_gtb_zero_int in Hgt. lia.
  - unfold num_truediv. cbn [num_to_float].
    destruct float_of_1000 as (s & m & e & ->).
    cbn [bind]. rewrite (num_gtb_zero_float y Hgt). reflexivity.
Qed.

#[local] Hint Resolve zde_py_get zde_float_trunc zde_py_int zde_fmt_fixed zde_py_iter
  zde_py_gt_int zde_positive zde_fmt_duration_mmss zde_div_1000 : zde.

(** One step through a body: a bind, a test, or a leaf. *)
Ltac zde_step :=
  match goal with
  | |- zde_free (Ok _) => reflexivity
  | |- zde_free (raise _) => reflexivity
  | |- zde_free (bind _ _) => apply zde_bind; [| intros ? ?]
  | |- zde_free (if ?b then _ else _) =>
      match type of b with bool => destruct b end
  | |- zde_free (match ?x with _ => _ end) => destruct x
  | |- zde_free _ => solve [auto with zde]
  end.

Lemma zde_activity_start (py : builtins) (act : json) : zde_free (activity_start py act).
Proof. unfold activity_start. repeat zde_step. Qed.

Lemma zde_activity_pace (py : builtins) (speed distance : json) :
  zde_free (activity_pace py speed distance).
Proof.
  unfold activity_pace.
  apply zde_bind; [apply zde_positive | intros fast Hfast].
  destruct fast; cbn [bind]; [| reflexivity].
  apply zde_bind; [apply zde_positive | intros moved _].
  destruct moved; [| reflexivity].
  apply zde_bind; [apply (zde_pace_division py); exact Hfast | intros pace_sec _].
  apply zde_bind; [apply zde_float_trunc | intros whole _]. reflexivity.
Qed.

Lemma zde_activity_details (py : builtins) (act distance : json) :
  zde_free (activity_details py act distance).
Proof.
  unfold activity_details. repeat zde_step; apply zde_activity_pace.
Qed.

Lemma zde_render_activity (py : builtins) (act : json) : zde_free (render_activity py act).
Proof.
  unfold render_activity.
  repeat first [apply zde_activity_start | apply zde_activity_details | zde_step].
Qed.

Lemma zde_fetch_activities (py : builtins) (c : client) (day : string) :
  zde_free (fetch_activities py c day).
Proof.
  unfold fetch_activities.
  destruct (get_activities_by_date c day day); [| reflexivity].
  repeat first [apply zde_for_each; intros; apply zde_render_activity | zde_step].
Qed.

Lemma positive_int (py : builtins) (n : Z) : positive py (JInt n) = Ok (0 <? n).
Proof.
  unfold positive, py_gt, num_gtb; simpl.
  destruct (Z.eqb_spec n 0) as [-> | Hn]; [reflexivity |]. simpl.
  rewrite Z.ltb_antisym, Z.leb_compare. destruct (n ?= 0); reflexivity.
Qed.

(** C10: the pace [1000 / averageSpeed] is computed only when the speed and
    the distance both passed the test "present and greater than 0", so no
    ZeroDivisionError ever leaves the activities fetcher; an activity without
    a positive speed, or with one but without a positive distance, gets no
    pace detail. *)
Theorem pace_division_guarded (py : builtins) :
  (forall c day, raises_kind ZeroDivisionError (fetch_activities py c day) = false) /\
  (forall speed distance, raises_kind ZeroDivisionError (activity_pace py speed distance) = false) /\
  (forall speed distance line rest,
     activity_pace py speed distance = Ok (line :: rest) ->
     positive py speed = Ok true /\ positive py distance = Ok true) /\
  (forall speed distance,
     positive py speed = Ok false -> activity_pace py speed distance = Ok []) /\
  (forall speed distance,
     positive py speed = Ok true -> positive py distance = Ok false ->
     activity_pace py speed distance = Ok []) /\
  (forall n, positive py (JInt n) = Ok (0 <? n)) /\
  positive py JNone = Ok false.
Proof.
  split; [exact (zde_fetch_activities py) |].
  split; [exact (zde_activity_pace py) |].
  split; [| split; [| split; [| split]]].
  - intros speed distance line rest H. unfold activity_pace in H.
    destruct (positive py speed) as [[|] | e]; cbn [bind] in H; try discriminate.
    destruct (positive py distance) as [[|] | e]; cbn [bind] in H; try discriminate.
    split; reflexivity.
  - intros speed distance H. unfold activity_pace. rewrite H. reflexivity.
  - intros speed distance Hs Hd. unfold activity_pace. rewrite Hs. cbn [bind].
    rewrite Hd. reflexivity.
  - apply positive_int.
  - reflexivity.
Qed.

Lemma pace_division_guarded_witness :
  activity_pace ascii_builtins (JInt 0) (JInt 5000) = Ok [].
Proof.
  apply (proj1 (proj2 (proj2 (proj2 (pace_division_guarded ascii_builtins))))).
  reflexivity.
Defined.

(** ** Authentication *)

Section Authenticate.

Variable py : builtins.
Variable env : environment.
Variable token_dir : string.
Variable email : option string.

Lemma emit_then {A : Type} (e : event) (m : prog A) :
  (emit e ;;; m) = (e :: events m, ending m).
Proof. destruct m as [evs o]. reflexivity. Qed.

Lemma prog_eta {A : Type} (m : prog A) : m = (events m, ending m).
Proof. destruct m. reflexivity. Qed.

(** A retried attempt: the login, the sleep, then the rest of the loop. *)
Lemma auth_loop_retry (attempt : nat) (attempts : list nat) (last_exc : option exn) (e : exn) :
  login env attempt = Raise e ->
  exn_class e <> FileNotFoundError ->
  is_transient py e = true ->
  (attempt < 4)%nat ->
  auth_loop py env token_dir email (attempt :: attempts) last_exc =
    (retry_events token_dir attempt ++
       events (auth_loop py env token_dir email attempts (Some e)),
     ending (auth_loop py env token_dir email attempts (Some e))).
Proof.
  intros He Hc Ht Hlt. cbn [auth_loop]. rewrite He, Ht.
  apply Nat.ltb_lt in Hlt. rewrite Hlt. cbn [andb].
  rewrite emit_then.
  destruct (exn_class e); try contradiction; rewrite emit_then; reflexivity.
Qed.

(** After [n] retried attempts the loop goes on with the attempts left. *)
Lemma auth_loop_retried (n k : nat) (rest : list nat) (last_exc : option exn) :
  (k + n <= 4)%nat ->
  (forall i, (k <= i < k + n)%nat -> transient_failure py (login env i)) ->
  exists last',
    auth_loop py env token_dir email (seq k n ++ rest) last_exc =
      (flat_map (retry_events token_dir) (seq k n) ++
         events (auth_loop py env token_dir email rest last'),
       ending (auth_loop py env token_dir email rest last')).
Proof.
  revert k last_exc. induction n as [| n IH]; intros k last_exc Hk Hfail.
  - exists last_exc. simpl. apply prog_eta.
  - destruct (Hfail k) as (e & He & Hc & Ht); [lia |].
    destruct (IH (S k) (Some e)) as [last' Hrest];
      [lia | intros i Hi; apply Hfail; lia |].
    exists last'. cbn [seq app flat_map].
    rewrite (auth_loop_retry k _ last_exc e He Hc Ht) by lia.
    rewrite Hrest. cbn [events ending fst snd]. rewrite <- app_assoc. reflexivity.
Qed.

(** The run up to the attempt number [n], when the [n] attempts before it
    failed with the transient error. *)
Lemma authenticate_after_retries (n : nat) :
  (n < 5)%nat ->
  (forall i, (i < n)%nat -> transient_failure py (login env i)) ->
  exists last',
    authenticate py env token_dir email =
      (retries token_dir n ++
         events (auth_loop py env token_dir email (n :: seq (S n) (4 - n)) last'),
       ending (auth_loop py env token_dir email (n :: seq (S n) (4 - n)) last')).
Proof.
  intros Hn Hfail. unfold authenticate, retries.
  replace (seq 0 5) with (seq 0 n ++ n :: seq (S n) (4 - n)).
  - apply auth_loop_retried; [lia | intros i Hi; apply Hfail; lia].
  - change (n :: seq (S n) (4 - n)) with (seq n (S (4 - n))).
    rewrite <- seq_app. f_equal. lia.
Qed.

Lemma sleeps_of_app (l m : list event) : sleeps_of (l ++ m) = sleeps_of l ++ sleeps_of m.
Proof.
  induction l as [| e l IH]; [reflexivity |].
  destruct e; simpl; rewrite IH; reflexivity.
Qed.

Lemma logins_of_app (l m : list event) : (logins_of (l ++ m) = logins_of l + logins_of m)%nat.
Proof.
  induction l as [| e l IH]; [reflexivity |].
  destruct e; simpl; rewrite IH; reflexivity.
Qed.

Lemma sleeps_of_retries (k n : nat) :
  sleeps_of (flat_map (retry_events token_dir) (seq k n)) =
  map (fun i => 2 * (Z.of_nat i + 1)) (seq k n).
Proof.
  revert k. induction n as [| n IH]; intros k; [reflexivity |].
  cbn [seq flat_map map]. rewrite sleeps_of_app, IH. reflexivity.
Qed.

Lemma logins_of_retries (k n : nat) :
  logins_of (flat_map (retry_events token_dir) (seq k n)) = n.
Proof.
  revert k. induction n as [| n IH]; intros k; [reflexivity |].
  cbn [seq flat_map]. rewrite logins_of_app, IH. reflexivity.
Qed.

(** The backoff durations 2, 4, 6, ... grow strictly. *)
Lemma backoff_increasing (k n : nat) :
  StronglySorted Z.lt (map (fun i => 2 * (Z.of_nat i + 1)) (seq k n)).
Proof.
  revert k. induction n as [| n IH]; intros k; cbn [seq map]; constructor.
  - apply IH.
  - apply Forall_forall. intros x Hx. apply in_map_iff in Hx as (i & <- & Hi).
    apply in_seq in Hi. lia.
Qed.

(** The loop never logs in more often than it has attempts. *)
Lemma auth_loop_logins (attempts : list nat) (last_exc : option exn) :
  (logins_of (events (auth_loop py env token_dir email attempts last_exc)) <=
   List.length attempts)%nat.
Proof.
  revert last_exc. induction attempts as [| attempt attempts IH]; intros last_exc.
  - simpl. lia.
  - cbn [auth_loop]. rewrite emit_then. cbn [events fst logins_of List.length].
    apply le_n_S.
    destruct (login env attempt) as [u | e]; [simpl; lia |].
    assert (Hgive : forall last,
               logins_of (events (auth_exit py env token_dir email last)) = O)
      by reflexivity.
    destruct ((attempt <? 4)%nat && is_transient py e).
    + destruct (exn_class e); try (rewrite emit_then; simpl; apply IH); simpl; lia.
    + destruct (exn_class e); try (rewrite Hgive; lia); simpl; lia.
Qed.

(** C2: [authenticate] logs in at most 5 times.  After [n < 5] failures of
    the transient kind it sleeps 2, 4, ..., 2n time units, one sleep after
    each failure; if the next login succeeds it returns the session; if the
    next login raises FileNotFoundError it prints the setup hint and exits
    at once, without a sleep or another login; any other error that is not
    of the transient kind ends the run after that one occurrence. *)
Theorem authenticate_retry (n : nat) :
  (n < 5)%nat ->
  (forall i, (i < n)%nat -> transient_failure py (login env i)) ->
  (logins_of (events (authenticate py env token_dir email)) <= 5)%nat /\
  StronglySorted Z.lt (map (fun i => 2 * (Z.of_nat i + 1)) (seq 0 n)) /\
  (login env n = Ok tt ->
   authenticate py env token_dir email =
     (retries token_dir n ++ [Login token_dir], Returned (session env)) /\
   sleeps_of (events (authenticate py env token_dir email)) =
     map (fun i => 2 * (Z.of_nat i + 1)) (seq 0 n) /\
   logins_of (events (authenticate py env token_dir email)) = S n) /\
  (forall e,
     login env n = Raise e ->
     exn_class e = FileNotFoundError ->
     authenticate py env token_dir email =
       (retries token_dir n ++
          [Login token_dir; PrintErr (no_tokens_text env token_dir email)],
        SystemExit 1) /\
     sleeps_of (events (authenticate py env token_dir email)) =
       map (fun i => 2 * (Z.of_nat i + 1)) (seq 0 n) /\
     logins_of (events (authenticate py env token_dir email)) = S n) /\
  (forall e,
     login env n = Raise e ->
     exn_class e <> FileNotFoundError ->
     is_transient py e = false ->
     authenticate py env token_dir email =
       (retries token_dir n ++
          [Login token_dir; PrintErr (auth_failure_text py env token_dir email (Some e))],
        SystemExit 1) /\
     logins_of (events (authenticate py env token_dir email)) = S n).
Proof.
  intros Hn Hfail.
  destruct (authenticate_after_retries n Hn Hfail) as [last' Hrun].
  split; [apply (auth_loop_logins (seq 0 5) None) |].
  split; [apply backoff_increasing |].
  split; [| split].
  - intros Hok.
    assert (E : authenticate py env token_dir email =
                (retries token_dir n ++ [Login token_dir], Returned (session env))).
    { rewrite Hrun. cbn [auth_loop]. rewrite Hok. reflexivity. }
    split; [exact E |]. rewrite E. cbn [events fst]. unfold retries.
    rewrite sleeps_of_app, logins_of_app, sleeps_of_retries, logins_of_retries.
    split; [apply app_nil_r | simpl; lia].
  - intros e He Hc.
    assert (E : authenticate py env token_dir email =
                (retries token_dir n ++
                   [Login token_dir; PrintErr (no_tokens_text env token_dir email)],
                 SystemExit 1)).
    { rewrite Hrun. cbn [auth_loop]. rewrite He, Hc. reflexivity. }
    split; [exact E |]. rewrite E. cbn [events fst]. unfold retries.
    rewrite sleeps_of_app, logins_of_app, sleeps_of_retries, logins_of_retries.
    split; [apply app_nil_r | simpl; lia].
  - intros e He Hc Ht.
    assert (E : authenticate py env token_dir email =
                (retries token_dir n ++
                   [Login token_dir;
                    PrintErr (auth_failure_text py env token_dir email (Some e))],
                 SystemExit 1)).
    { rewrite Hrun. cbn [auth_loop]. rewrite He, Ht, andb_false_r.
      destruct (exn_class e); try contradiction; reflexivity. }
    split; [exact E |]. rewrite E. cbn [events fst]. unfold retries.
    rewrite logins_of_app, logins_of_retries. simpl. lia.
Qed.

End Authenticate.

Lemma authenticate_retry_witness :
  authenticate ascii_builtins (sample_env (flaky_login 2) offline_client)
               "/home/user/.garminconnect" None =
  ([Login "/home/user/.garminconnect"; Sleep 2;
    Login "/home/user/.garminconnect"; Sleep 4;
    Login "/home/user/.garminconnect"],
   Returned offline_client).
Proof.
  refine (proj1 (proj1 (proj2 (proj2
            (authenticate_retry ascii_builtins (sample_env (flaky_login 2) offline_client)
               "/home/user/.garminconnect" None 2%nat _ _))) eq_refl)).
  - lia.
  - intros i Hi.
    exists (Exn OtherError "GarminConnectConnectionError: No profile from connectapi").
    destruct i as [| [| i]]; [repeat split; try reflexivity; discriminate ..| lia].
Defined.

(** ** The days of a run *)









Lemma pbind_ret {A B : Type} (a : A) (k : A -> prog B) : pbind (ret a) k = k a.
Proof. unfold pbind, ret. destruct (k a). reflexivity. Qed.










(** ** Failures at the fetcher boundary *)

Lemma failed_missing (m : result json) : failed m -> missing m.
Proof. intros [e ->]. reflexivity. Qed.

Lemma fetch_body_is_ok (py : builtins) (c : client) (day : string) :
  is_ok (fetch_body py c day) =
    is_ok (body_summary_parts py (body_summary c day)) &&
    is_ok (body_hr_parts py (body_hr_data c day)).
Proof. apply eq_true_iff_eq. rewrite andb_true_iff. apply fetch_body_ok. Qed.

(** C1, as the code has it: a failure of the remote call is caught and the
    fetcher returns None.  [fetch_body], which asks six sources, takes a
    failing source as absent: it returns None when the summary, heart-rate,
    battery and HRV calls fail, it returns when the summary and heart-rate
    calls fail, and whether it returns does not depend on what the battery,
    HRV, SpO2 and weigh-in endpoints do, whether they fail or answer in any
    shape. *)
Theorem fetch_failure_is_no_data (py : builtins) (c : client) (day : string) :
  (failed (get_sleep_data c day) -> fetch_sleep py c day = Ok None) /\
  (failed (get_lifestyle_logging_data c day) -> fetch_lifestyle py c day = Ok None) /\
  (failed (get_user_summary c day) ->
   failed (get_heart_rates c day) ->
   failed (get_body_battery c day day) ->
   failed (get_hrv_data c day) ->
   fetch_body py c day = Ok None) /\
  (failed (get_user_summary c day) ->
   failed (get_heart_rates c day) ->
   is_ok (fetch_body py c day) = true) /\
  (forall c' : client,
     get_user_summary c' day = get_user_summary c day ->
     get_heart_rates c' day = get_heart_rates c day ->
     is_ok (fetch_body py c' day) = is_ok (fetch_body py c day)) /\
  (failed (get_all_day_stress c day) -> fetch_stress py c day = Ok None) /\
  (failed (get_training_readiness c day) -> fetch_training_readiness py c day = Ok None) /\
  (failed (get_respiration_data c day) -> fetch_respiration c day = Ok None) /\
  (failed (get_fitnessage_data c day) -> fetch_fitness_age py c day = Ok None) /\
  (failed (get_intensity_minutes_data c day) ->
   fetch_intensity_minutes py c day = Ok None) /\
  (failed (get_activities_by_date c day day) -> fetch_activities py c day = Ok None).
Proof.
  repeat match goal with |- _ /\ _ => split end.
  - intros [e H]. unfold fetch_sleep, fetch_sleep_lines. rewrite H. reflexivity.
  - intros [e H]. unfold fetch_lifestyle. rewrite H. reflexivity.
  - intros Hs Hh Hb Hv. apply fetch_body_none, body_absent_spec.
    repeat split.
    + apply missing_falsy, failed_missing, Hs.
    + apply missing_falsy, failed_missing, Hh.
    + apply missing_battery, failed_missing, Hb.
    + apply missing_hrv, failed_missing, Hv.
  - intros Hs Hh. apply fetch_body_ok. split.
    + rewrite body_summary_parts_falsy; [reflexivity |].
      apply missing_falsy, failed_missing, Hs.
    + rewrite body_hr_parts_falsy; [reflexivity |].
      apply missing_falsy, failed_missing, Hh.
  - intros c' Hs Hh. rewrite !fetch_body_is_ok.
    unfold body_summary, body_hr_data. rewrite Hs, Hh. reflexivity.
  - intros [e H]. unfold fetch_stress. rewrite H. reflexivity.
  - intros [e H]. unfold fetch_training_readiness. rewrite H. reflexivity.
  - intros [e H]. unfold fetch_respiration. rewrite H. reflexivity.
  - intros [e H]. unfold fetch_fitness_age. rewrite H. reflexivity.
  - intros [e H]. unfold fetch_intensity_minutes. rewrite H. reflexivity.
  - intros [e H]. unfold fetch_activities. rewrite H. reflexivity.
Qed.

Lemma fetch_failure_is_no_data_witness :
  fetch_sleep ascii_builtins offline_client "2026-11-03" = Ok None.
Proof.
  apply (proj1 (fetch_failure_is_no_data ascii_builtins offline_client "2026-11-03")).
  exists (Exn OtherError "Connection refused"). reflexivity.
Defined.

(** C1 as stated fails: each fetcher has a response of the service on
    which an exception leaves it, raised while the response is read. *)
Lemma fetcher_raises_counterexample :
  fetch_sleep ascii_builtins (sleep_only_client null_scores_daily) "2026-11-03" =
    Raise (Exn AttributeError "") /\
  fetch_lifestyle ascii_builtins (constant_client (Ok null_details_logs)) "2026-11-03" =
    Raise (Exn TypeError "") /\
  fetch_body ascii_builtins (constant_client (Ok text_steps_summary)) "2026-11-03" =
    Raise (Exn ValueError "") /\
  fetch_stress ascii_builtins (constant_client (Ok text_stress)) "2026-11-03" =
    Raise (Exn TypeError "") /\
  fetch_training_readiness ascii_builtins (constant_client (Ok null_level_readiness))
    "2026-11-03" = Raise (Exn AttributeError "") /\
  fetch_respiration (constant_client (Ok text_respiration)) "2026-11-03" =
    Raise (Exn ValueError "") /\
  fetch_fitness_age ascii_builtins (constant_client (Ok text_age)) "2026-11-03" =
    Raise (Exn TypeError "") /\
  fetch_intensity_minutes ascii_builtins (constant_client (Ok list_intensity)) "2026-11-03" =
    Raise (Exn AttributeError "") /\
  fetch_activities ascii_builtins (constant_client (Ok text_distance_activities))
    "2026-11-03" = Raise (Exn TypeError "") /\
  ~ never_raises (fetch_sleep ascii_builtins) /\
  ~ never_raises (fetch_stress ascii_builtins).
Proof.
  do 9 (split; [vm_compute; reflexivity |]).
  split; intros H.
  - specialize (H (sleep_only_client null_scores_daily) "2026-11-03").
    vm_compute in H. discriminate H.
  - specialize (H (constant_client (Ok text_stress)) "2026-11-03").
    vm_compute in H. discriminate H.
Qed.

(** * Further properties of the script *)

(** ** Durations *)

Lemma fmt_02d_two_digits (m : Z) : 0 <= m < 60 -> String.length (fmt_02d m) = 2%nat.
Proof.
  intros Hm.
  assert (Hall : forallb (fun k => (String.length (fmt_02d (Z.of_nat k)) =? 2)%nat)
                         (seq 0 60) = true) by (vm_compute; reflexivity).
  rewrite forallb_forall in Hall.
  specialize (Hall (Z.to_nat m)). rewrite Z2Nat.id in Hall by lia.
  apply Nat.eqb_eq, Hall, in_seq. lia.
Qed.

Lemma split_minutes (q r : Z) : 0 <= r < 60 -> (60 * q + r) / 60 = q /\ (60 * q + r) mod 60 = r.
Proof.
  intros Hr. split.
  - symmetry. apply (Z.div_unique _ 60 q r); [left; exact Hr | reflexivity].
  - symmetry. apply (Z.mod_unique _ 60 q r); [left; exact Hr | reflexivity].
Qed.

(** X1: [fmt_duration] drops the seconds and splits the minutes by floor
    division: [3600 h + 60 m + s] seconds, with [m] and [s] below 60, print
    as [h] hours and [m] minutes, the minutes on two digits; with a negative
    [h] this is how a negative duration prints. *)
Theorem fmt_duration_hms (py : builtins) (h m s : Z) :
  0 <= m < 60 ->
  0 <= s < 60 ->
  fmt_duration py (JInt (3600 * h + 60 * m + s)) =
    Ok (string_of_Z h +++ "h " +++ fmt_02d m +++ "m") /\
  String.length (fmt_02d m) = 2%nat.
Proof.
  intros Hm Hs. split; [| apply fmt_02d_two_digits; exact Hm].
  unfold fmt_duration. cbn [is_none py_int bind].
  replace (3600 * h + 60 * m + s) with (60 * (60 * h + m) + s) by ring.
  destruct (split_minutes (60 * h + m) s Hs) as [-> _].
  destruct (split_minutes h m Hm) as [-> ->]. reflexivity.
Qed.

Lemma fmt_duration_hms_witness :
  fmt_duration ascii_builtins (JInt (-1)) = Ok "-1h 59m".
Proof.
  refine (proj1 (fmt_duration_hms ascii_builtins (-1) 59 59 _ _)); lia.
Defined.

(** X2: [fmt_duration_mmss] prints [60 m + s] seconds, with [s] below 60,
    as [m], a colon and [s] on two digits; the minutes are not folded into
    hours. *)
Theorem fmt_duration_mmss_ms (py : builtins) (m s : Z) :
  0 <= s < 60 ->
  fmt_duration_mmss py (JInt (60 * m + s)) = Ok (string_of_Z m +++ ":" +++ fmt_02d s) /\
  String.length (fmt_02d s) = 2%nat.
Proof.
  intros Hs. split; [| apply fmt_02d_two_digits; exact Hs].
  unfold fmt_duration_mmss. cbn [is_none py_int bind].
  destruct (split_minutes m s Hs) as [-> ->]. reflexivity.
Qed.

Lemma fmt_duration_mmss_ms_witness :
  fmt_duration_mmss ascii_builtins (JInt 7384) = Ok "123:04".
Proof.
  refine (proj1 (fmt_duration_mmss_ms ascii_builtins 123 4 _)); lia.
Defined.

(** ** The token directory *)

Lemma safe_not_continuation (c : ascii) :
  is_safe_char c = true -> is_continuation c = false.
Proof.
  destruct c as [[] [] [] [] [] [] [] []]; vm_compute; intros H;
    first [reflexivity | discriminate H].
Qed.

Lemma sanitize_safe (s : string) : all_safe (sanitize s) = true.
Proof.
  induction s as [| c s IH]; [reflexivity |].
  cbn [sanitize]. destruct (is_continuation c); [exact IH |].
  cbn [all_safe]. rewrite IH, andb_true_r.
  destruct (is_safe_char c) eqn:E; [exact E | reflexivity].
Qed.

Lemma sanitize_fixes_safe (s : string) : all_safe s = true -> sanitize s = s.
Proof.
  induction s as [| c s IH]; [reflexivity |].
  cbn [all_safe sanitize]. intros H. apply andb_prop in H as [Hc Hs].
  rewrite (safe_not_continuation c Hc), Hc, (IH Hs). reflexivity.
Qed.

(** X3: when neither [--token-dir] nor [GARMIN_TOKEN_DIR] is given, the
    token directory of an account is a child of the default directory whose
    name has no character outside [a-zA-Z0-9._-]; an email made of such
    characters is its own directory name. *)
Theorem token_dir_of_email (env : environment) (email arg_token_dir : option string)
  (e : string) :
  nonempty arg_token_dir = None ->
  nonempty (env_token_dir env) = None ->
  nonempty email = Some e ->
  get_token_dir env email arg_token_dir =
    path_child env (default_token_dir env) (sanitize e) /\
  all_safe (sanitize e) = true /\
  (all_safe e = true -> sanitize e = e).
Proof.
  intros Ha He Hm. unfold get_token_dir. rewrite Ha, He, Hm.
  split; [reflexivity |]. split; [apply sanitize_safe | apply sanitize_fixes_safe].
Qed.

Lemma token_dir_of_email_witness :
  get_token_dir (sample_env (fun _ => Ok tt) offline_client)
                (Some "jo.doe+run@example.com") None =
  "/home/user/.garminconnect/jo.doe_run_example.com".
Proof.
  exact (proj1 (token_dir_of_email (sample_env (fun _ => Ok tt) offline_client)
                  (Some "jo.doe+run@example.com") None "jo.doe+run@example.com"
                  eq_refl eq_refl eq_refl)).
Defined.

(** ** Authentication, beyond the retries that succeed *)

(** X4: when the transient error meets all five logins, [authenticate]
    sleeps 2, 4, 6 and 8 time units, does not sleep after the fifth failure,
    prints the message chosen from the last error and exits with status 1. *)
Theorem authenticate_exhausted (py : builtins) (env : environment) (token_dir : string)
  (email : option string) :
  (forall i, (i < 5)%nat -> transient_failure py (login env i)) ->
  exists e,
    login env 4 = Raise e /\
    authenticate py env token_dir email =
      (retries token_dir 4 ++
         [Login token_dir; PrintErr (auth_failure_text py env token_dir email (Some e))],
       SystemExit 1) /\
    sleeps_of (events (authenticate py env token_dir email)) = [2; 4; 6; 8] /\
    logins_of (events (authenticate py env token_dir email)) = 5%nat.
Proof.
  intros Hfail.
  destruct (Hfail 4%nat) as (e & He & Hc & Ht); [lia |].
  destruct (authenticate_after_retries py env token_dir email 4) as [last' Hrun];
    [lia | intros i Hi; apply Hfail; lia |].
  exists e. split; [exact He |].
  assert (E : authenticate py env token_dir email =
              (retries token_dir 4 ++
                 [Login token_dir;
                  PrintErr (auth_failure_text py env token_dir email (Some e))],
               SystemExit 1)).
  { rewrite Hrun. cbn [auth_loop Nat.sub seq]. rewrite He. cbn [Nat.ltb Nat.leb andb].
    destruct (exn_class e); try contradiction; reflexivity. }
  split; [exact E |]. rewrite E. split; reflexivity.
Qed.

Lemma authenticate_exhausted_witness :
  exists e,
    never_ready 4 = Raise e /\
    authenticate ascii_builtins (sample_env never_ready offline_client)
                 "/home/user/.garminconnect" None =
      (retries "/home/user/.garminconnect" 4 ++
         [Login "/home/user/.garminconnect";
          PrintErr (auth_failure_text ascii_builtins (sample_env never_ready offline_client)
                      "/home/user/.garminconnect" None (Some e))],
       SystemExit 1) /\
    sleeps_of (events (authenticate ascii_builtins (sample_env never_ready offline_client)
                         "/home/user/.garminconnect" None)) = [2; 4; 6; 8] /\
    logins_of (events (authenticate ascii_builtins (sample_env never_ready offline_client)
                         "/home/user/.garminconnect" None)) = 5%nat.
Proof.
  apply (authenticate_exhausted ascii_builtins (sample_env never_ready offline_client)
           "/home/user/.garminconnect" None).
  intros i Hi.
  exists (Exn OtherError "GarminConnectConnectionError: No profile from connectapi").
  destruct i as [| [| [| [| [| i]]]]]; [repeat split; try reflexivity; discriminate ..| lia].
Defined.

(** How the loop can end, whatever the logins do. *)
Lemma auth_loop_outcomes (py : builtins) (env : environment) (token_dir : string)
  (email : option string) (attempts : list nat) (last_exc : option exn) :
  (ending (auth_loop py env token_dir email attempts last_exc) = Returned (session env) /\
   exists k u, In k attempts /\ login env k = Ok u) \/
  (ending (auth_loop py env token_dir email attempts last_exc) = SystemExit 1 /\
   exists text, In (PrintErr text)
                   (events (auth_loop py env token_dir email attempts last_exc))).
Proof.
  revert last_exc. induction attempts as [| attempt attempts IH]; intros last_exc.
  - right. split; [reflexivity |]. eexists. left. reflexivity.
  - cbn [auth_loop]. rewrite emit_then. cbn [events ending fst snd].
    destruct (login env attempt) as [u | e] eqn:El.
    + left. split; [reflexivity |]. exists attempt, u. split; [left; reflexivity | exact El].
    + assert (Hexit : forall last,
                 ending (auth_exit py env token_dir email last) = SystemExit 1 /\
                 exists text, In (PrintErr text)
                   (Login token_dir :: events (auth_exit py env token_dir email last))).
      { intros last. split; [reflexivity |]. eexists. right. left. reflexivity. }
      assert (Hretry :
                (ending (emit (Sleep (2 * (Z.of_nat attempt + 1))) ;;;
                         auth_loop py env token_dir email attempts (Some e)) =
                   Returned (session env) /\
                 exists k u, In k (attempt :: attempts) /\ login env k = Ok u) \/
                (ending (emit (Sleep (2 * (Z.of_nat attempt + 1))) ;;;
                         auth_loop py env token_dir email attempts (Some e)) =
                   SystemExit 1 /\
                 exists text, In (PrintErr text)
                   (Login token_dir ::
                    events (emit (Sleep (2 * (Z.of_nat attempt + 1))) ;;;
                            auth_loop py env token_dir email attempts (Some e))))).
      { rewrite emit_then. cbn [events ending fst snd].
        destruct (IH (Some e)) as [[Hr (k & u & Hk & Hu)] | [Hx (text & Hin)]].
        - left. split; [exact Hr |]. exists k, u. split; [right; exact Hk | exact Hu].
        - right. split; [exact Hx |]. exists text. right. right. exact Hin. }
      destruct ((attempt <? 4)%nat && is_transient py e);
        destruct (exn_class e);
        first [exact Hretry | right; apply Hexit
               | right; split; [reflexivity |]; eexists; right; left; reflexivity].
Qed.

(** X5: [authenticate] ends in one of two ways, whatever the logins do:
    it returns the session, and then one of its at most five logins
    succeeded; or it exits with status 1 after printing an error.  No
    exception leaves it. *)
Theorem authenticate_outcomes (py : builtins) (env : environment) (token_dir : string)
  (email : option string) :
  (ending (authenticate py env token_dir email) = Returned (session env) /\
   exists k u, (k < 5)%nat /\ login env k = Ok u) \/
  (ending (authenticate py env token_dir email) = SystemExit 1 /\
   exists text, In (PrintErr text) (events (authenticate py env token_dir email))).
Proof.
  unfold authenticate.
  destruct (auth_loop_outcomes py env token_dir email (seq 0 5) None)
    as [[Hr (k & u & Hk & Hu)] | Hx].
  - left. split; [exact Hr |]. exists k, u. split; [| exact Hu].
    apply in_seq in Hk. lia.
  - right. exact Hx.
Qed.

(** ** The run: what happens around the days *)

Lemma pbind_returned {A B : Type} (m : prog A) (k : A -> prog B) (evs : list event) (a : A) :
  m = (evs, Returned a) -> pbind m k = (evs ++ events (k a), ending (k a)).
Proof. intros ->. unfold pbind. destruct (k a). reflexivity. Qed.

Lemma pbind_exit {A B : Type} (m : prog A) (k : A -> prog B) (evs : list event) (code : Z) :
  m = (evs, SystemExit code) -> pbind m k = (evs, SystemExit code).
Proof. intros ->. reflexivity. Qed.

Lemma auth_loop_no_files (py : builtins) (env : environment) (token_dir : string)
  (email : option string) (attempts : list nat) (last_exc : option exn) :
  existsb touches_files (events (auth_loop py env token_dir email attempts last_exc)) = false.
Proof.
  revert last_exc. induction attempts as [| attempt attempts IH]; intros last_exc;
    [reflexivity |].
  cbn [auth_loop]. rewrite emit_then. cbn [events fst existsb touches_files orb].
  destruct (login env attempt) as [u | e]; [reflexivity |].
  destruct ((attempt <? 4)%nat && is_transient py e);
    destruct (exn_class e);
    first [reflexivity | rewrite emit_then; cbn [events fst existsb touches_files orb]; apply IH].
Qed.

Lemma select_days_no_files (py : builtins) (env : environment) (a : args) :
  existsb touches_files (events (select_days py env a)) = false.
Proof.
  unfold select_days.
  destruct (negb _).
  - destruct (for_each _ _); reflexivity.
  - destruct (nonempty (arg_date a)); [| reflexivity].
    destruct (fromisoformat py s); reflexivity.
Qed.

(** X6: no partial run proceeds without a session.  When [authenticate]
    exits, [main] has made no directory and written no file, and it does not
    end normally. *)
Theorem main_needs_session (py : builtins) (env : environment)
  (setup : string -> string -> prog unit) (a : args) :
  arg_setup a = false ->
  ending (authenticate py env (get_token_dir env (arg_email a) (arg_token_dir a))
                       (arg_email a)) = SystemExit 1 ->
  existsb touches_files (events (main py env setup a)) = false /\
  (forall u, ending (main py env setup a) <> Returned u).
Proof.
  intros Hsetup Hauth. unfold main. rewrite Hsetup.
  pose proof (select_days_no_files py env a) as Hsel.
  destruct (select_days py env a) as [evs [days | code | e]]; cbn [events fst] in Hsel.
  - rewrite (pbind_returned _ _ evs days eq_refl).
    rewrite emit_then. cbn [events ending fst snd].
    set (auth := authenticate py env _ _) in *.
    pose proof (auth_loop_no_files py env (get_token_dir env (arg_email a) (arg_token_dir a))
                  (arg_email a) (seq 0 5) None) as Hno.
    fold (authenticate py env (get_token_dir env (arg_email a) (arg_token_dir a))
            (arg_email a)) in Hno. fold auth in Hno.
    destruct auth as [aevs o]. cbn [ending snd events fst] in *. subst o.
    cbn [pbind events ending fst snd]. split; [| discriminate].
    rewrite existsb_app. cbn [existsb touches_files orb]. rewrite Hsel, Hno. reflexivity.
  - cbn [pbind events ending fst snd]. split; [exact Hsel | discriminate].
  - cbn [pbind events ending fst snd]. split; [exact Hsel | discriminate].
Qed.

Lemma main_needs_session_witness :
  existsb touches_files
    (events (main ascii_builtins (sample_env no_tokens offline_client) no_setup (days_args 3)))
    = false /\
  (forall u, ending (main ascii_builtins (sample_env no_tokens offline_client) no_setup
                          (days_args 3)) <> Returned u).
Proof.
  apply (main_needs_session ascii_builtins (sample_env no_tokens offline_client) no_setup
           (days_args 3)); reflexivity.
Defined.

(** X7: a [--date] that is not a date is refused before anything else
    happens: [main] prints the error and exits with status 1 without a
    login. *)
Theorem main_rejects_bad_date (py : builtins) (env : environment)
  (setup : string -> string -> prog unit) (a : args) (text : string) :
  arg_setup a = false ->
  arg_days a = None \/ arg_days a = Some 0 ->
  nonempty (arg_date a) = Some text ->
  fromisoformat py text = None ->
  main py env setup a =
    ([PrintErr ("Error: Invalid date format '" +++ text +++ "'. Use YYYY-MM-DD.")],
     SystemExit 1) /\
  logins_of (events (main py env setup a)) = O.
Proof.
  intros Hsetup Hdays Hdate Hparse.
  assert (E : main py env setup a =
              ([PrintErr ("Error: Invalid date format '" +++ text +++ "'. Use YYYY-MM-DD.")],
               SystemExit 1)).
  { unfold main, select_days. rewrite Hsetup, Hdate, Hparse.
    destruct Hdays as [-> | ->]; reflexivity. }
  split; [exact E | rewrite E; reflexivity].
Qed.

Lemma main_rejects_bad_date_witness :
  main ascii_builtins (sample_env (fun _ => Ok tt) offline_client) no_setup
       (date_args "2026-02-30") =
  ([PrintErr "Error: Invalid date format '2026-02-30'. Use YYYY-MM-DD."], SystemExit 1).
Proof.
  refine (proj1 (main_rejects_bad_date ascii_builtins
                   (sample_env (fun _ => Ok tt) offline_client) no_setup
                   (date_args "2026-02-30") "2026-02-30" eq_refl _ eq_refl _)).
  - left. reflexivity.
  - vm_compute. reflexivity.
Defined.

(** X8: [--days 0] counts as no [--days] at all, and a [--days] other
    than 0 makes [--date] irrelevant, even a [--date] that is not a date. *)
Theorem day_selection_precedence (py : builtins) (env : environment)
  (setup : string -> string -> prog unit) (a : args) :
  main py env setup (with_days a (Some 0)) = main py env setup (with_days a None) /\
  (forall n date,
     n <> 0 ->
     main py env setup (with_date (with_days a (Some n)) date) =
     main py env setup (with_days a (Some n))).
Proof.
  split; [reflexivity |].
  intros n date Hn. unfold main, select_days.
  cbn [with_date with_days arg_setup arg_email arg_date arg_days arg_output_dir arg_token_dir].
  destruct (Z.eqb_spec n 0); [contradiction | reflexivity].
Qed.

Lemma day_selection_precedence_witness :
  main ascii_builtins (sample_env (fun _ => Ok tt) offline_client) no_setup
       (with_date (with_days bare_args (Some 3)) (Some "not a date")) =
  main ascii_builtins (sample_env (fun _ => Ok tt) offline_client) no_setup
       (with_days bare_args (Some 3)).
Proof.
  apply (proj2 (day_selection_precedence ascii_builtins
                  (sample_env (fun _ => Ok tt) offline_client) no_setup bare_args)).
  discriminate.
Defined.

Lemma for_each_raise_at {A B : Type} (body : A -> result (list B)) (before after : list A)
  (x : A) (e : exn) :
  (forall y, In y before -> is_ok (body y) = true) ->
  body x = Raise e ->
  for_each body (before ++ x :: after) = Raise e.
Proof.
  intros Hok Hx. induction before as [| y before IH]; simpl.
  - rewrite Hx. reflexivity.
  - pose proof (Hok y (or_introl eq_refl)) as Hy.
    destruct (body y); [| discriminate]. cbn [bind].
    rewrite IH by (intros z Hz; apply Hok; right; exact Hz). reflexivity.
Qed.

(** X9: asking for more days than the calendar has before today makes the
    date arithmetic overflow: [main] ends with an uncaught OverflowError
    before it has printed anything or logged in. *)
Theorem main_too_many_days (py : builtins) (env : environment)
  (setup : string -> string -> prog unit) (a : args) (n : Z) :
  arg_setup a = false ->
  arg_days a = Some n ->
  1 <= today env <= date_max ->
  today env < n ->
  main py env setup a = ([], Uncaught (Exn OverflowError "")).
Proof.
  intros Hsetup Hdays Ht Hn. unfold main. rewrite Hsetup.
  assert (E : select_days py env a = ([], Uncaught (Exn OverflowError ""))).
  { unfold select_days. rewrite Hdays.
    destruct (Z.eqb_spec n 0); [lia |]. cbn [negb].
    unfold range.
    replace (Z.to_nat n)
      with (Z.to_nat (today env) + S (Z.to_nat n - Z.to_nat (today env) - 1))%nat by lia.
    rewrite seq_app, map_app. cbn [seq map Nat.add].
    rewrite (for_each_raise_at _ _ _ _ (Exn OverflowError "")); [reflexivity | |].
    - intros y Hy. apply in_map_iff in Hy as (j & <- & Hj). apply in_seq in Hj.
      unfold date_sub_days, date_min, date_max in *.
      assert (H1 : (Z.abs (Z.of_nat j) <=? 999999999) = true) by (apply Z.leb_le; lia).
      assert (H2 : (1 <=? today env - Z.of_nat j) = true) by (apply Z.leb_le; lia).
      assert (H3 : (today env - Z.of_nat j <=? 3652059) = true) by (apply Z.leb_le; lia).
      rewrite H1, H2, H3. reflexivity.
    - unfold date_sub_days, date_min. rewrite Z2Nat.id by lia.
      replace (today env - today env) with 0 by lia.
      rewrite andb_false_r. reflexivity. }
  rewrite E. reflexivity.
Qed.

Lemma main_too_many_days_witness :
  main ascii_builtins (sample_env (fun _ => Ok tt) offline_client) no_setup
       (days_args 1000000) = ([], Uncaught (Exn OverflowError "")).
Proof.
  apply (main_too_many_days ascii_builtins (sample_env (fun _ => Ok tt) offline_client)
           no_setup (days_args 1000000) 1000000);
    [reflexivity | reflexivity | unfold date_max; simpl; lia | simpl; lia].
Defined.

(** X10: a negative [--days] selects no day: the run still authenticates,
    then syncs nothing and reports zero days. *)
Theorem main_negative_days (py : builtins) (env : environment)
  (setup : string -> string -> prog unit) (a : args) (n : Z) :
  arg_setup a = false ->
  arg_days a = Some n ->
  n < 0 ->
  let token_dir := get_token_dir env (arg_email a) (arg_token_dir a) in
  main py env setup a =
    (emit (Print ("Authenticating with Garmin Connect (tokens: " +++ token_dir +++ ")...")) ;;;
     c <~ authenticate py env token_dir (arg_email a) ;;
     emit (Print "Syncing 0 day(s)...") ;;;
     emit (Print "Done.")).
Proof.
  intros Hsetup Hdays Hn token_dir. unfold main. rewrite Hsetup.
  assert (E : select_days py env a = ret []).
  { unfold select_days. rewrite Hdays.
    destruct (Z.eqb_spec n 0); [lia |]. cbn [negb].
    unfold range. replace (Z.to_nat n) with 0%nat by lia. reflexivity. }
  rewrite E, pbind_ret. reflexivity.
Qed.

Lemma main_negative_days_witness :
  main ascii_builtins (sample_env (fun _ => Ok tt) offline_client) no_setup (days_args (-3)) =
  ([Print "Authenticating with Garmin Connect (tokens: /home/user/.garminconnect)...";
    Login "/home/user/.garminconnect";
    Print "Syncing 0 day(s)...";
    Print "Done."],
   Returned tt).
Proof.
  refine (main_negative_days ascii_builtins (sample_env (fun _ => Ok tt) offline_client)
            no_setup (days_args (-3)) (-3) eq_refl eq_refl _).
  lia.
Defined.

(** ** The run: the days themselves *)

(** What one day does: nothing when a fetcher raises, the skip message, or
    the directory, the file and the message. *)
Lemma sync_day_cases (py : builtins) (env : environment) (c : client) (day : Z)
  (output_dir : string) :
  (exists e, day_sections py c day = Raise e /\
             sync_day py env c day output_dir = ([], Uncaught e)) \/
  (exists evs,
     is_ok (day_sections py c day) = true /\
     sync_day py env c day output_dir = (evs, Returned tt) /\
     (evs = [Print ("  " +++ isoformat py day +++ ": No data available, skipping.")] \/
      exists content,
        evs = [Mkdir output_dir;
               WriteText (path_child env output_dir (isoformat py day +++ ".md")) content;
               Print ("  " +++ isoformat py day +++ ": Written to " +++
                      path_child env output_dir (isoformat py day +++ ".md"))])).
Proof.
  unfold sync_day. destruct (day_sections py c day) as [sections | e].
  - right. cbn [lift pbind]. destruct (List.length sections =? 1)%nat.
    + eexists. split; [reflexivity |]. split; [reflexivity |]. left. reflexivity.
    + eexists. split; [reflexivity |]. split; [reflexivity |]. right.
      eexists. reflexivity.
  - left. exists e. split; reflexivity.
Qed.

(** X11: an exception that leaves one day ends the run there: the days
    before it were synced, the days after it are not, and the exception
    leaves [sync_all]. *)
Theorem sync_all_stops_at_raise (py : builtins) (env : environment) (c : client)
  (before after : list Z) (day : Z) (output_dir : string) (e : exn) :
  day_sections py c day = Raise e ->
  (forall d, In d before -> is_ok (day_sections py c d) = true) ->
  sync_all py env c (before ++ day :: after) output_dir =
    (events (sync_all py env c before output_dir), Uncaught e).
Proof.
  intros Hday Hbefore. induction before as [| d before IH]; cbn [app sync_all].
  - destruct (sync_day_cases py env c day output_dir)
      as [(e' & He' & ->) | (evs & Hok & _)].
    + rewrite Hday in He'. inversion He'. reflexivity.
    + rewrite Hday in Hok. discriminate.
  - destruct (sync_day_cases py env c d output_dir)
      as [(e' & He' & _) | (evs & _ & Hd & _)].
    + specialize (Hbefore d (or_introl eq_refl)). rewrite He' in Hbefore. discriminate.
    + rewrite !(pbind_returned _ _ evs tt Hd).
      rewrite IH by (intros d' Hd'; apply Hbefore; right; exact Hd').
      reflexivity.
Qed.

Lemma sync_all_stops_at_raise_witness :
  sync_all ascii_builtins (sample_env (fun _ => Ok tt) offline_client)
           (one_day_client "2026-11-03" text_stress)
           ([739922] ++ 739923 :: [739924]) "/home/user/garminskill/health" =
  ([Print "  2026-11-02: No data available, skipping."], Uncaught (Exn TypeError "")).
Proof.
  refine (sync_all_stops_at_raise ascii_builtins (sample_env (fun _ => Ok tt) offline_client)
            (one_day_client "2026-11-03" text_stress) [739922] [739924] 739923
            "/home/user/garminskill/health" (Exn TypeError "") _ _).
  - vm_compute. reflexivity.
  - intros d [<- | []]. vm_compute. reflexivity.
Defined.

Lemma writes_of_app (l m : list event) : writes_of (l ++ m) = writes_of l ++ writes_of m.
Proof.
  induction l as [| e l IH]; [reflexivity |].
  destruct e; simpl; rewrite IH; reflexivity.
Qed.

Lemma mkdirs_of_app (l m : list event) : mkdirs_of (l ++ m) = mkdirs_of l ++ mkdirs_of m.
Proof.
  induction l as [| e l IH]; [reflexivity |].
  destruct e; simpl; rewrite IH; reflexivity.
Qed.

(** X12: whatever the service answers, a run over [days] writes at most
    one file for each day, every file it writes is the file of one of the
    days inside the output directory, and it calls [mkdir] on no path but the
    output directory, once before each file it writes; that call makes the
    output directory together with its missing ancestors. *)
Theorem sync_all_files (py : builtins) (env : environment) (c : client)
  (days : list Z) (output_dir : string) :
  (forall file,
     In file (writes_of (events (sync_all py env c days output_dir))) ->
     exists day, In day days /\
                 file = path_child env output_dir (isoformat py day +++ ".md")) /\
  (List.length (writes_of (events (sync_all py env c days output_dir))) <=
   List.length days)%nat /\
  mkdirs_of (events (sync_all py env c days output_dir)) =
    repeat output_dir
           (List.length (writes_of (events (sync_all py env c days output_dir)))).
Proof.
  induction days as [| d days (IHw & IHn & IHm)]; cbn [sync_all].
  - split; [intros file [] |]. split; [simpl; lia | reflexivity].
  - destruct (sync_day_cases py env c d output_dir)
      as [(e & _ & ->) | (evs & _ & Hd & Hshape)].
    + cbn [pbind events fst writes_of mkdirs_of List.length].
      split; [intros file [] |]. split; [lia | reflexivity].
    + rewrite (pbind_returned _ _ evs tt Hd). cbn [events fst].
      rewrite writes_of_app, mkdirs_of_app, length_app.
      destruct Hshape as [-> | [content ->]];
        cbn [writes_of mkdirs_of app List.length Nat.add repeat].
      * split; [| split; [lia | exact IHm]].
        intros file Hf. destruct (IHw file Hf) as (day & Hday & ->).
        exists day. split; [right; exact Hday | reflexivity].
      * split; [| split; [lia | rewrite IHm; reflexivity]].
        intros file [<- | Hf].
        -- exists d. split; [left; reflexivity | reflexivity].
        -- destruct (IHw file Hf) as (day & Hday & ->).
           exists day. split; [right; exact Hday | reflexivity].
Qed.

(** ** The fragments: their headers *)

Lemma prefix_nil (s : string) : String.prefix "" s = true.
Proof. destruct s; reflexivity. Qed.

Lemma prefix_app (p h t : string) :
  String.prefix p h = true -> String.prefix p (h +++ t) = true.
Proof.
  revert h. induction p as [| a p IH]; intros h H; [apply prefix_nil |].
  destruct h as [| b h]; [discriminate H |].
  cbn [String.append String.prefix] in *.
  destruct (ascii_dec a b); [apply IH; exact H | discriminate H].
Qed.

Lemma prefix_join_head (p h sep : string) (rest : list string) :
  String.prefix p h = true -> String.prefix p (join sep (h :: rest)) = true.
Proof.
  intros H. unfold join. destruct rest; cbn [String.concat]; [exact H |].
  apply prefix_app. exact H.
Qed.

(** Splits on the tests left in a goal about a header, then compares the
    header with the start of the text. *)
Ltac head_tests :=
  repeat match goal with
         | |- context [if ?b then _ else _] =>
             match type of b with bool => destruct b; simpl end
         | |- context [match ?x with _ => _ end] => is_var x; destruct x; simpl
         end;
  first [exact I
        | reflexivity
        | apply prefix_nil
        | apply prefix_join_head; simpl; first [reflexivity | apply prefix_nil]].

Lemma fetch_sleep_lines_headed (py : builtins) (c : client) (day : string) :
  on_ok (headed_lines "## Sleep: ") (fetch_sleep_lines py c day).
Proof.
  unfold fetch_sleep_lines.
  destruct (get_sleep_data c day); [| exact I].
  peel. head_tests.
Qed.

Lemma fetch_sleep_headed (py : builtins) (c : client) (day : string) :
  on_ok (headed "## Sleep: ") (fetch_sleep py c day).
Proof.
  unfold fetch_sleep.
  pose proof (fetch_sleep_lines_headed py c day) as H.
  destruct (fetch_sleep_lines py c day) as [[[| line lines] |] | e]; simpl in *;
    try exact I; try contradiction.
  apply prefix_join_head. exact H.
Qed.

Lemma fetch_lifestyle_headed (py : builtins) (c : client) (day : string) :
  on_ok (headed "## Lifestyle") (fetch_lifestyle py c day).
Proof.
  unfold fetch_lifestyle.
  destruct (get_lifestyle_logging_data c day); [| exact I].
  peel. head_tests.
Qed.

Lemma fetch_body_headed (py : builtins) (c : client) (day : string) :
  on_ok (headed "## Body") (fetch_body py c day).
Proof.
  unfold fetch_body.
  destruct (body_absent _ _ _ _); [exact I |].
  apply on_ok_bind. intros [header_parts detail_parts] _.
  apply on_ok_bind. intros hr_parts _.
  unfold body_lines. simpl. destruct header_parts; apply prefix_join_head; reflexivity.
Qed.

Lemma fetch_stress_headed (py : builtins) (c : client) (day : string) :
  on_ok (headed "## Stress: Avg ") (fetch_stress py c day).
Proof.
  unfold fetch_stress.
  destruct (get_all_day_stress c day); [| exact I].
  peel. head_tests.
Qed.

Lemma fetch_training_readiness_headed (py : builtins) (c : client) (day : string) :
  on_ok (headed "## Training Readiness: ") (fetch_training_readiness py c day).
Proof.
  unfold fetch_training_readiness.
  destruct (get_training_readiness c day); [| exact I].
  peel. head_tests.
Qed.

Lemma fetch_respiration_headed (c : client) (day : string) :
  on_ok (headed "## Respiration: ") (fetch_respiration c day).
Proof.
  unfold fetch_respiration.
  destruct (get_respiration_data c day); [| exact I].
  peel. head_tests.
Qed.

Lemma fetch_fitness_age_headed (py : builtins) (c : client) (day : string) :
  on_ok (headed "## Fitness Age: ") (fetch_fitness_age py c day).
Proof.
  unfold fetch_fitness_age.
  destruct (get_fitnessage_data c day); [| exact I].
  peel; head_tests.
Qed.

Lemma fetch_intensity_minutes_headed (py : builtins) (c : client) (day : string) :
  on_ok (headed "## Intensity Minutes: ") (fetch_intensity_minutes py c day).
Proof.
  unfold fetch_intensity_minutes.
  destruct (get_intensity_minutes_data c day); [| exact I].
  peel. head_tests.
Qed.

Lemma fetch_activities_headed (py : builtins) (c : client) (day : string) :
  on_ok (headed "## Activities") (fetch_activities py c day).
Proof.
  unfold fetch_activities.
  destruct (get_activities_by_date c day day); [| exact I].
  peel. head_tests.
Qed.

Lemma headed_ok (header : string) (m : result (option string)) (text : string) :
  on_ok (headed header) m -> m = Ok (Some text) -> String.prefix header text = true.
Proof. intros H ->. exact H. Qed.

(** X13: every fragment starts with the header of its section, whatever
    the service answered: the layout that a reader of the files relies on. *)
Theorem fragment_headers (py : builtins) (c : client) (day text : string) :
  (fetch_sleep py c day = Ok (Some text) -> String.prefix "## Sleep: " text = true) /\
  (fetch_lifestyle py c day = Ok (Some text) -> String.prefix "## Lifestyle" text = true) /\
  (fetch_body py c day = Ok (Some text) -> String.prefix "## Body" text = true) /\
  (fetch_stress py c day = Ok (Some text) -> String.prefix "## Stress: Avg " text = true) /\
  (fetch_training_readiness py c day = Ok (Some text) ->
   String.prefix "## Training Readiness: " text = true) /\
  (fetch_respiration c day = Ok (Some text) ->
   String.prefix "## Respiration: " text = true) /\
  (fetch_fitness_age py c day = Ok (Some text) ->
   String.prefix "## Fitness Age: " text = true) /\
  (fetch_intensity_minutes py c day = Ok (Some text) ->
   String.prefix "## Intensity Minutes: " text = true) /\
  (fetch_activities py c day = Ok (Some text) -> String.prefix "## Activities" text = true).
Proof.
  repeat match goal with |- _ /\ _ => split end; apply headed_ok.
  - apply fetch_sleep_headed.
  - apply fetch_lifestyle_headed.
  - apply fetch_body_headed.
  - apply fetch_stress_headed.
  - apply fetch_training_readiness_headed.
  - apply fetch_respiration_headed.
  - apply fetch_fitness_age_headed.
  - apply fetch_intensity_minutes_headed.
  - apply fetch_activities_headed.
Qed.

Lemma fragment_headers_witness :
  String.prefix "## Stress: Avg " "## Stress: Avg 42 (Low)" = true.
Proof.
  apply (proj1 (proj2 (proj2 (proj2
           (fragment_headers ascii_builtins
              (stress_only_client (Ok (JDict [("overallStressLevel", JInt 42)])))
              "2026-11-03" "## Stress: Avg 42 (Low)"))))).
  reflexivity.
Defined.

(** ** The fetchers: edge behaviour *)

Lemma lifestyle_log_skipped (py : builtins) (log : json) :
  not_logged log -> lifestyle_log py log = Ok [].
Proof.
  intros (fields & -> & H). unfold lifestyle_log. rewrite py_get_dict.
  cbn [bind]. rewrite H. reflexivity.
Qed.

Lemma lifestyle_logs_skipped (py : builtins) (logs : list json) :
  Forall not_logged logs -> for_each (lifestyle_log py) logs = Ok [].
Proof.
  induction 1 as [| log logs Hlog _ IH]; [reflexivity |].
  cbn [for_each]. rewrite (lifestyle_log_skipped py log Hlog). cbn [bind].
  rewrite IH. reflexivity.
Qed.

(** X14: a lifestyle log in which no entry is marked "YES" gives no
    section, however many entries it has. *)
Theorem lifestyle_only_logged (py : builtins) (c : client) (day : string)
  (d : list (string * json)) (logs : list json) :
  get_lifestyle_logging_data c day = Ok (JDict d) ->
  dict_get d "dailyLogsReport" = Some (JList logs) ->
  Forall not_logged logs ->
  fetch_lifestyle py c day = Ok None.
Proof.
  intros Hdata Hlogs Hall. unfold fetch_lifestyle. rewrite Hdata.
  rewrite (dict_truthy d _ _ Hlogs). cbn [negb].
  unfold py_get. rewrite Hlogs. cbn [bind].
  destruct logs as [| log logs]; [reflexivity |].
  cbn [truthy negb py_iter bind].
  rewrite (lifestyle_logs_skipped py _ Hall). reflexivity.
Qed.

Lemma lifestyle_only_logged_witness :
  fetch_lifestyle ascii_builtins
    (constant_client
       (Ok (JDict [("dailyLogsReport",
                    JList [JDict [("name", JStr "Alcohol"); ("logStatus", JStr "NO")];
                           JDict [("name", JStr "Caffeine")]])])))
    "2026-11-03" = Ok None.
Proof.
  apply (lifestyle_only_logged ascii_builtins _ "2026-11-03"
           [("dailyLogsReport",
             JList [JDict [("name", JStr "Alcohol"); ("logStatus", JStr "NO")];
                    JDict [("name", JStr "Caffeine")]])]
           [JDict [("name", JStr "Alcohol"); ("logStatus", JStr "NO")];
            JDict [("name", JStr "Caffeine")]]);
    [reflexivity | reflexivity |].
  repeat constructor; eexists; (split; [reflexivity | reflexivity]).
Defined.

Lemma py_gt_int (py : builtins) (a b : Z) : py_gt py (JInt a) (JInt b) = Ok (b <? a).
Proof.
  unfold py_gt, num_gtb; simpl. rewrite Z.ltb_compare, (Z.compare_antisym a b).
  destruct (a ?= b); reflexivity.
Qed.



(** X16: on a dict the intensity-minutes fetcher always returns, whatever
    the fields hold; it returns None exactly when the dict is empty or has no
    weekly total. *)
Theorem intensity_minutes_total (py : builtins) (c : client) (day : string)
  (d : list (string * json)) :
  get_intensity_minutes_data c day = Ok (JDict d) ->
  is_ok (fetch_intensity_minutes py c day) = true /\
  (fetch_intensity_minutes py c day = Ok None <-> d = [] \/ field d "weeklyTotal" = JNone).
Proof.
  intros Hdata. unfold fetch_intensity_minutes. rewrite Hdata.
  destruct d as [| kv d]; [split; [reflexivity | split; [left |]; reflexivity] |].
  cbn [truthy negb]. rewrite !py_get_dict. cbn [bind].
  destruct (field (kv :: d) "weeklyTotal") eqn:E; cbn [is_none];
    (split; [reflexivity |]); split; intros H;
    first [right; reflexivity | reflexivity | discriminate H
           | destruct H as [H | H]; discriminate H].
Qed.

Lemma intensity_minutes_total_witness :
  is_ok (fetch_intensity_minutes ascii_builtins
           (constant_client (Ok (JDict [("weeklyTotal", JStr "n/a"); ("weekGoal", JNone)])))
           "2026-11-03") = true.
Proof.
  apply (proj1 (intensity_minutes_total ascii_builtins
                  (constant_client
                     (Ok (JDict [("weeklyTotal", JStr "n/a"); ("weekGoal", JNone)])))
                  "2026-11-03"
                  [("weeklyTotal", JStr "n/a"); ("weekGoal", JNone)] eq_refl)).
Defined.

(** ** Body battery *)

Lemma max_from_ints (py : builtins) (ns : list Z) (best : Z) :
  max_from py (JInt best) (map JInt ns) = Ok (JInt (maximum best ns)).
Proof.
  revert best. induction ns as [| n ns IH]; intros best; [reflexivity |].
  cbn [map max_from]. rewrite py_gt_int. cbn [bind].
  unfold maximum. cbn [fold_left]. fold (maximum (Z.max best n) ns).
  destruct (Z.ltb_spec best n).
  - rewrite IH. rewrite Z.max_r by lia. reflexivity.
  - rewrite IH. rewrite Z.max_l by lia. reflexivity.
Qed.

Lemma maximum_bounds (ns : list Z) (n : Z) :
  In (maximum n ns) (n :: ns) /\ Forall (fun m => m <= maximum n ns) (n :: ns).
Proof.
  revert n. induction ns as [| k ns IH]; intros n.
  - split; [left; reflexivity | constructor; [apply Z.le_refl | constructor]].
  - unfold maximum. cbn [fold_left]. fold (maximum (Z.max n k) ns).
    destruct (IH (Z.max n k)) as [Hin Hall]. split.
    + destruct Hin as [Hm | Hin].
      * rewrite <- Hm. destruct (Z.max_spec n k) as [[_ ->] | [_ ->]];
          [right; left | left]; reflexivity.
      * right. right. exact Hin.
    + inversion Hall as [| ? ? Hmax Hrest]; subst.
      constructor; [lia |]. constructor; [lia | exact Hrest].
Qed.

(** X17: the body battery of a day is the greatest charged value of its
    samples.  The samples are dicts with whatever keys; when the values of
    [chargedValue] that are there and not None are integers, the body battery
    is one of them and at least each of them, and when no sample has such a
    value there is no body battery. *)
Theorem body_battery_is_maximum (py : builtins) (c : client) (day : string)
  (samples : list json) :
  get_body_battery c day day = Ok (JList samples) ->
  (forall n ns,
     charges samples = Some (map JInt (n :: ns)) ->
     body_battery py c day = JInt (maximum n ns) /\
     In (maximum n ns) (n :: ns) /\
     Forall (fun m => m <= maximum n ns) (n :: ns)) /\
  (charges samples = Some [] -> body_battery py c day = JNone).
Proof.
  intros Hdata. split.
  - intros n ns Hc. split; [| apply maximum_bounds].
    apply (body_battery_given py c day).
    exists samples, (map JInt (n :: ns)).
    split; [exact Hdata |]. split; [exact Hc |].
    cbn [map py_max]. apply max_from_ints.
  - intros Hc. apply body_battery_none.
    intros v (samples' & values & Hm & Hc' & Hmax).
    rewrite Hdata in Hm. injection Hm as <-.
    rewrite Hc in Hc'. injection Hc' as <-. discriminate Hmax.
Qed.

Lemma body_battery_is_maximum_witness :
  body_battery ascii_builtins (battery_client (JList battery_samples)) "2026-11-03" = JInt 87.
Proof.
  exact (proj1 (proj1 (body_battery_is_maximum ascii_builtins
                         (battery_client (JList battery_samples)) "2026-11-03"
                         battery_samples eq_refl)
                  41 [87; 63] eq_refl)).
Defined.

(** ** The start time of an activity *)

Lemma contains_char (c : ascii) (s : string) :
  contains (String c "") s = negb (lacks c s).
Proof.
  induction s as [| a s IH]; [reflexivity |].
  cbn [contains String.prefix lacks].
  destruct (ascii_dec c a) as [-> | Hne].
  - rewrite prefix_nil, Ascii.eqb_refl. reflexivity.
  - destruct (Ascii.eqb_spec a c) as [-> | _]; [contradiction Hne; reflexivity |].
    cbn [negb andb]. exact IH.
Qed.

Lemma lacks_app_char (c : ascii) (before after : string) :
  lacks c (before +++ String c after) = false.
Proof.
  induction before as [| a before IH]; cbn [String.append lacks].
  - rewrite Ascii.eqb_refl. reflexivity.
  - rewrite IH. apply andb_false_r.
Qed.

Lemma lacks_app (c : ascii) (s t : string) :
  lacks c (s +++ t) = lacks c s && lacks c t.
Proof.
  induction s as [| a s IH]; cbn [String.append lacks]; [reflexivity |].
  rewrite IH. apply andb_assoc.
Qed.

Lemma after_first_app (c : ascii) (before after : string) :
  lacks c before = true -> after_first c (before +++ String c after) = after.
Proof.
  induction before as [| a before IH]; cbn [String.append after_first lacks]; intros H.
  - rewrite Ascii.eqb_refl. reflexivity.
  - apply andb_prop in H as [Ha Hb].
    destruct (Ascii.eqb a c); [discriminate Ha | apply IH; exact Hb].
Qed.

Lemma ascii_not_continuation (c : ascii) :
  (nat_of_ascii c <? 128)%nat = true -> is_continuation c = false.
Proof.
  intros H. unfold is_continuation. apply Nat.ltb_lt in H.
  destruct (Nat.leb_spec 128 (nat_of_ascii c)); [lia | reflexivity].
Qed.

Lemma take_chars_ascii (n : nat) (hm rest : string) :
  ascii_text n hm = true -> starts_clean rest = true -> take_chars n (hm +++ rest) = hm.
Proof.
  revert hm. induction n as [| n IH]; intros hm Hhm Hrest.
  - destruct hm; [| discriminate Hhm]. cbn [String.append].
    destruct rest as [| c rest]; [reflexivity |].
    cbn [take_chars starts_clean] in *.
    destruct (is_continuation c); [discriminate Hrest | reflexivity].
  - destruct hm as [| c hm]; [discriminate Hhm |].
    cbn [ascii_text] in Hhm. apply andb_prop in Hhm as [Hc Hhm].
    cbn [String.append take_chars]. rewrite (ascii_not_continuation c Hc).
    rewrite IH by assumption. reflexivity.
Qed.

Lemma nonempty_with_char (c : ascii) (before after : string) :
  String.eqb (before +++ String c after) "" = false.
Proof. destruct before; reflexivity. Qed.

(** X18: the start time of an activity is read from [startTimeLocal]:
    the five characters after the first "T", and when the text has no "T",
    the five characters after the first space; the epoch timestamp is not
    consulted in either case. *)
Theorem activity_start_clock (py : builtins) (fields : list (string * json))
  (date hm rest : string) :
  ascii_text 5 hm = true ->
  starts_clean rest = true ->
  (field fields "startTimeLocal" = JStr (date +++ "T" +++ hm +++ rest) ->
   lacks "T" date = true ->
   activity_start py (JDict fields) = Ok (Some hm)) /\
  (field fields "startTimeLocal" = JStr (date +++ " " +++ hm +++ rest) ->
   lacks " " date = true ->
   lacks "T" (date +++ " " +++ hm +++ rest) = true ->
   activity_start py (JDict fields) = Ok (Some hm)).
Proof.
  intros Hhm Hrest. split.
  - intros Hfield Hdate. unfold activity_start. rewrite py_get_dict, Hfield.
    cbn [bind truthy]. change (date +++ "T" +++ hm +++ rest)
      with (date +++ String "T" (hm +++ rest)).
    rewrite nonempty_with_char. cbn [negb bind].
    rewrite (contains_char "T"), lacks_app_char. cbn [negb].
    rewrite (after_first_app "T" date _ Hdate), (take_chars_ascii 5 hm rest Hhm Hrest).
    reflexivity.
  - intros Hfield Hdate Hnot. unfold activity_start. rewrite py_get_dict, Hfield.
    cbn [bind truthy].
    change (date +++ " " +++ hm +++ rest) with (date +++ String " " (hm +++ rest)) in *.
    rewrite nonempty_with_char. cbn [negb bind].
    rewrite (contains_char "T"), Hnot. cbn [negb].
    rewrite (contains_char " "), lacks_app_char. cbn [negb].
    rewrite (after_first_app " " date _ Hdate), (take_chars_ascii 5 hm rest Hhm Hrest).
    reflexivity.
Qed.

Lemma activity_start_clock_witness :
  activity_start ascii_builtins (JDict evening_run) = Ok (Some "18:12").
Proof.
  exact (proj1 (activity_start_clock ascii_builtins evening_run "2026-02-19" "18:12" ":34.0"
                  eq_refl eq_refl) eq_refl eq_refl).
Defined.

(** ** The one-time setup *)

Section SetupProperties.

Variable py : builtins.
Variable sw : setup_world.
Variable email : string.
Variable token_dir : string.

Lemma setup_loop_logins (attempts : list nat) (last_exc : option exn) :
  (password_logins (fst (setup_loop py sw email token_dir attempts last_exc)) <=
   List.length attempts)%nat /\
  existsb is_success_print (fst (setup_loop py sw email token_dir attempts last_exc)) = false.
Proof.
  revert last_exc. induction attempts as [| attempt attempts IH]; intros last_exc.
  - split; [simpl; lia | reflexivity].
  - cbn [setup_loop List.length].
    destruct (password_login sw attempt) as [u | e].
    + destruct (dump_tokens sw attempt) as [v | e]; [split; [simpl; lia | reflexivity] |].
      destruct ((attempt <? 2)%nat && is_transient py e).
      * destruct (IH (Some e)) as [Hn Hs].
        destruct (setup_loop py sw email token_dir attempts (Some e)) as [evs last].
        cbn [fst password_logins existsb is_success_print is_dump orb] in *.
        split; [lia | exact Hs].
      * split; [simpl; lia | reflexivity].
    + destruct ((attempt <? 2)%nat && is_transient py e).
      * destruct (IH (Some e)) as [Hn Hs].
        destruct (setup_loop py sw email token_dir attempts (Some e)) as [evs last].
        cbn [fst password_logins existsb is_success_print orb] in *.
        split; [lia | exact Hs].
      * split; [simpl; lia | reflexivity].
Qed.

(** The loop ends without an error only after a login and a dump that
    both succeeded. *)
Lemma setup_loop_success (attempts : list nat) (last_exc : option exn) :
  last_exc <> None \/ attempts <> [] ->
  snd (setup_loop py sw email token_dir attempts last_exc) = None ->
  existsb is_dump (fst (setup_loop py sw email token_dir attempts last_exc)) = true /\
  exists k u v, In k attempts /\ password_login sw k = Ok u /\ dump_tokens sw k = Ok v.
Proof.
  revert last_exc. induction attempts as [| attempt attempts IH]; intros last_exc Hne Hnone.
  - cbn [setup_loop snd] in Hnone. destruct Hne as [Hne | Hne]; contradiction.
  - cbn [setup_loop] in *.
    destruct (password_login sw attempt) as [u | e] eqn:El.
    + destruct (dump_tokens sw attempt) as [v | e] eqn:Ed.
      * split; [reflexivity |]. exists attempt, u, v.
        split; [left; reflexivity | split; assumption].
      * destruct ((attempt <? 2)%nat && is_transient py e); [| discriminate Hnone].
        destruct (IH (Some e)) as [Hd (k & u' & v' & Hk & Hl & Hdump)].
        { left. discriminate. }
        { destruct (setup_loop py sw email token_dir attempts (Some e)). exact Hnone. }
        destruct (setup_loop py sw email token_dir attempts (Some e)) as [evs last].
        split; [reflexivity |]. exists k, u', v'.
        split; [right; exact Hk | split; assumption].
    + destruct ((attempt <? 2)%nat && is_transient py e); [| discriminate Hnone].
      destruct (IH (Some e)) as [Hd (k & u' & v' & Hk & Hl & Hdump)].
      { left. discriminate. }
      { destruct (setup_loop py sw email token_dir attempts (Some e)). exact Hnone. }
      destruct (setup_loop py sw email token_dir attempts (Some e)) as [evs last].
      cbn [fst existsb is_dump orb] in *.
      split; [exact Hd |]. exists k, u', v'.
      split; [right; exact Hk | split; assumption].
Qed.

End SetupProperties.

Lemma password_logins_app (l m : list setup_event) :
  password_logins (l ++ m) = (password_logins l + password_logins m)%nat.
Proof.
  induction l as [| e l IH]; [reflexivity |].
  destruct e; cbn [app password_logins]; rewrite IH; reflexivity.
Qed.

Lemma setup_guidance_quiet (py : builtins) (e : exn) :
  password_logins (setup_guidance py e) = O /\
  existsb is_success_print (setup_guidance py e) = false /\
  existsb is_dump (setup_guidance py e) = false.
Proof.
  unfold setup_guidance.
  repeat match goal with
         | |- context [if ?b then _ else _] => destruct b
         end; repeat split; reflexivity.
Qed.

(** X19: whatever the service does, [setup] logs in with the password at
    most three times and either returns or exits with status 1; it returns,
    and prints its success message, only after a login and a token dump that
    both succeeded; with an empty password it exits at once, before any
    directory is made or any login tried. *)
Theorem setup_outcomes (py : builtins) (sw : setup_world) (email token_dir : string) :
  (password_logins (fst (setup py sw email token_dir)) <= 3)%nat /\
  (snd (setup py sw email token_dir) = Returned tt \/
   snd (setup py sw email token_dir) = SystemExit 1) /\
  (snd (setup py sw email token_dir) = Returned tt ->
   typed_password sw <> "" /\
   existsb is_dump (fst (setup py sw email token_dir)) = true /\
   exists k u v, (k < 3)%nat /\ password_login sw k = Ok u /\ dump_tokens sw k = Ok v) /\
  (existsb is_success_print (fst (setup py sw email token_dir)) = true ->
   snd (setup py sw email token_dir) = Returned tt) /\
  (typed_password sw = "" ->
   setup py sw email token_dir =
     ([password_prompt email; Also (PrintErr "Error: Password cannot be empty.")],
      SystemExit 1)).
Proof.
  unfold setup. destruct (String.eqb_spec (typed_password sw) "") as [Hemp | Hpw].
  - cbn [fst snd]. split; [simpl; lia |]. split; [right; reflexivity |].
    split; [discriminate |]. split; [discriminate | reflexivity].
  - pose proof (setup_loop_logins py sw email token_dir (seq 0 3) None) as [Hn Hs].
    pose proof (setup_loop_success py sw email token_dir (seq 0 3) None) as Hok.
    destruct (setup_loop py sw email token_dir (seq 0 3) None) as [evs [e |]];
      cbn [fst snd] in *.
    + destruct (setup_guidance_quiet py e) as (Hg1 & Hg2 & _).
      split.
      { rewrite !password_logins_app, Hg1. cbn [password_logins List.length seq] in *. lia. }
      split; [right; reflexivity |].
      split; [discriminate |].
      split; [| intros Hemp; contradiction].
      rewrite !existsb_app, Hs, Hg2. cbn [existsb is_success_print orb]. discriminate.
    + destruct Hok as (Hd & k & u & v & Hk & Hl & Hdump);
        [right; discriminate | reflexivity |].
      split.
      { rewrite !password_logins_app. cbn [password_logins List.length seq] in *. lia. }
      split; [left; reflexivity |].
      split; [| split; [reflexivity | intros Hemp; contradiction]].
      intros _. split; [exact Hpw |]. split.
      * rewrite !existsb_app, Hd. reflexivity.
      * exists k, u, v. apply in_seq in Hk. split; [lia | split; assumption].
Qed.

Lemma setup_loop_retries (py : builtins) (sw : setup_world) (email token_dir : string)
  (u v : unit) (n : nat) :
  forall (a rest : nat) (last_exc : option exn),
    (a + n <= 2)%nat ->
    (forall i, (a <= i < a + n)%nat -> transient_login py sw i) ->
    password_login sw (a + n) = Ok u ->
    dump_tokens sw (a + n) = Ok v ->
    setup_loop py sw email token_dir (seq a (n + S rest)) last_exc =
      (flat_map (setup_retry_events email) (seq a n) ++
       [PasswordLogin email; DumpTokens token_dir], None).
Proof.
  induction n as [| n IH]; intros a rest last_exc Hle Hfail Hl Hd.
  - rewrite Nat.add_0_r in Hl, Hd. cbn [Nat.add seq setup_loop flat_map app].
    rewrite Hl, Hd. reflexivity.
  - destruct (Hfail a ltac:(lia)) as (e & He & Ht).
    cbn [Nat.add seq setup_loop flat_map]. rewrite He, Ht.
    assert (Ha : (a <? 2)%nat = true) by (apply Nat.ltb_lt; lia).
    rewrite Ha. cbn [andb].
    rewrite (IH (S a) rest (Some e)).
    + reflexivity.
    + lia.
    + intros i Hi. apply Hfail. lia.
    + replace (S a + n)%nat with (a + S n)%nat by lia. exact Hl.
    + replace (S a + n)%nat with (a + S n)%nat by lia. exact Hd.
Qed.

(** X20: when the first [n] password logins meet the transient error and
    the next one succeeds, with [n] at most 2, [setup] waits 1 second after
    the first failure and 2 seconds after the second, caches the tokens once
    and returns. *)
Theorem setup_backoff (py : builtins) (sw : setup_world) (email token_dir : string)
  (n : nat) (u v : unit) :
  typed_password sw <> "" ->
  (n <= 2)%nat ->
  (forall i, (i < n)%nat -> transient_login py sw i) ->
  password_login sw n = Ok u ->
  dump_tokens sw n = Ok v ->
  setup py sw email token_dir =
    ([password_prompt email; Also (Mkdir token_dir)] ++
     flat_map (setup_retry_events email) (seq 0 n) ++
     [PasswordLogin email; DumpTokens token_dir] ++ success_prints token_dir,
     Returned tt) /\
  setup_sleeps (fst (setup py sw email token_dir)) = firstn n [1; 2].
Proof.
  intros Hpw Hn Hfail Hl Hd.
  assert (E : setup py sw email token_dir =
              ([password_prompt email; Also (Mkdir token_dir)] ++
               flat_map (setup_retry_events email) (seq 0 n) ++
               [PasswordLogin email; DumpTokens token_dir] ++ success_prints token_dir,
               Returned tt)).
  { unfold setup. destruct (String.eqb_spec (typed_password sw) ""); [contradiction |].
    replace 3%nat with (n + S (2 - n))%nat by lia.
    rewrite (setup_loop_retries py sw email token_dir u v n 0 (2 - n) None);
      [| lia | intros i Hi; apply Hfail; lia | exact Hl | exact Hd].
    rewrite <- !app_assoc. reflexivity. }
  split; [exact E |]. rewrite E. cbn [fst].
  destruct n as [| [| [| n]]]; [reflexivity | reflexivity | reflexivity | lia].
Qed.

Lemma setup_backoff_witness :
  setup_sleeps (fst (setup ascii_builtins (flaky_setup "secret" 2) "me@example.org"
                           "/home/user/.garminconnect")) = [1; 2].
Proof.
  refine (proj2 (setup_backoff ascii_builtins (flaky_setup "secret" 2) "me@example.org"
                   "/home/user/.garminconnect" 2 tt tt _ _ _ eq_refl eq_refl)).
  - discriminate.
  - lia.
  - intros i Hi. exists (Exn OtherError "GarminConnectConnectionError: No profile from connectapi").
    destruct i as [| [| i]]; [split; reflexivity | split; reflexivity | lia].
Defined.

Lemma transient_guidance (py : builtins) (e : exn) :
  is_transient py e = true -> setup_guidance py e = [Also (PrintErr blocking_hint)].
Proof.
  unfold is_transient, setup_guidance. intros ->. reflexivity.
Qed.

(** X21: when all three password logins meet the transient error,
    [setup] has waited 1 and 2 seconds between them, caches no tokens, prints
    the error of the third login with the hint about the service blocking
    requests, and exits with status 1. *)
Theorem setup_exhausted (py : builtins) (sw : setup_world) (email token_dir : string) :
  typed_password sw <> "" ->
  (forall i, (i < 3)%nat -> transient_login py sw i) ->
  exists e,
    password_login sw 2 = Raise e /\
    setup py sw email token_dir =
      ([password_prompt email; Also (Mkdir token_dir);
        PasswordLogin email; Also (Sleep 1);
        PasswordLogin email; Also (Sleep 2);
        PasswordLogin email;
        Also (PrintErr ("Error: Authentication failed — " +++ exn_msg e));
        Also (PrintErr blocking_hint)],
       SystemExit 1).
Proof.
  intros Hpw Hfail.
  destruct (Hfail 0%nat ltac:(lia)) as (e0 & He0 & Ht0).
  destruct (Hfail 1%nat ltac:(lia)) as (e1 & He1 & Ht1).
  destruct (Hfail 2%nat ltac:(lia)) as (e2 & He2 & Ht2).
  exists e2. split; [exact He2 |].
  unfold setup. destruct (String.eqb_spec (typed_password sw) ""); [contradiction |].
  cbn [seq setup_loop]. rewrite He0, Ht0, He1, Ht1, He2.
  cbn [Nat.ltb Nat.leb andb app]. rewrite (transient_guidance py e2 Ht2). reflexivity.
Qed.

Lemma setup_exhausted_witness :
  exists e,
    password_login (flaky_setup "secret" 3) 2 = Raise e /\
    setup ascii_builtins (flaky_setup "secret" 3) "me@example.org" "/home/user/.garminconnect" =
      ([password_prompt "me@example.org"; Also (Mkdir "/home/user/.garminconnect");
        PasswordLogin "me@example.org"; Also (Sleep 1);
        PasswordLogin "me@example.org"; Also (Sleep 2);
        PasswordLogin "me@example.org";
        Also (PrintErr ("Error: Authentication failed — " +++ exn_msg e));
        Also (PrintErr blocking_hint)],
       SystemExit 1).
Proof.
  refine (setup_exhausted ascii_builtins (flaky_setup "secret" 3) "me@example.org"
            "/home/user/.garminconnect" _ _).
  - discriminate.
  - intros i Hi. exists (Exn OtherError "GarminConnectConnectionError: No profile from connectapi").
    destruct i as [| [| [| i]]]; [split; reflexivity | split; reflexivity | split; reflexivity | lia].
Defined.
